(** * Bootstrapped MHD Rayleigh-Benard convection: the driver scripts

    A shallow embedding of the control logic of [bootstrap_mhd_rbc.py] and
    [forces_mhd_rayleigh_benard.py].  The spectral solver, the CFL helper,
    the flow-property reductions and the checkpoint machinery belong to the
    Dedalus framework; what they answer in one run is supplied to the
    model as a trace of observations.  What the scripts themselves do with
    those answers -- the bootstrap controller, the loop test, the
    [try / except / finally] skeleton, the conversion of the command
    line and the tables of equations and boundary conditions -- is
    translated statement by statement. *)

From Stdlib Require Import List String Ascii ZArith Bool Lia.
From Stdlib Require Import Reals Lra.
From Stdlib Require PrimFloat Uint63.
Import ListNotations.

Set Implicit Arguments.

(** ** Python exceptions and results *)

Inductive exn : Type :=
| TypeError
| ValueError
| ZeroDivisionError
| OverflowError
| KeyError
| IndexError
| AttributeError
| FrameworkError (tag : nat).   (* anything raised inside Dedalus *)

Inductive result (A : Type) : Type :=
| Ok (a : A)
| Raise (e : exn).
Arguments Ok {A} a.
Arguments Raise {A} e.

Definition rbind {X Y} (m : result X) (f : X -> result Y) : result Y :=
  match m with
  | Ok x => f x
  | Raise e => Raise e
  end.

Notation "'let*' x ':=' m 'in' k" := (rbind m (fun x => k))
  (at level 10, x name, m at level 100, k at level 200).

(** ** The arithmetic of Python floats, as an interface

    The scripts compute with [float] and [numpy.float64].  The operations
    they use are collected in one class, so that the controller is written
    once and every theorem about it holds of IEEE binary64 (instance
    [binary64]), the arithmetic of the scripts.  The instance [exact], over
    the reals, only serves to state the power law that the two-exponent
    path is measured against. *)

Class Arith (F : Type) : Type := {
  of_Z : Z -> F;                 (* an int literal used as a float *)
  half : F;                      (* the literal 0.5 *)
  fmul : F -> F -> F;
  fdiv : F -> F -> F;            (* the quotient, for a non-zero divisor *)
  fsub : F -> F -> F;
  fsqrt : F -> F;                (* np.sqrt *)
  fmin : F -> F -> F;            (* np.min of a pair *)
  fltb : F -> F -> bool;         (* x < y *)
  feqb : F -> F -> bool;         (* x == y *)
  isfinite : F -> bool;          (* np.isfinite *)
  fpow : F -> F -> result F;     (* float.__pow__, which may raise *)
  fmul_0_0 : fmul (of_Z 0) (of_Z 0) = of_Z 0
}.

Module Binary64.

Definition b64_of_Z (z : Z) : PrimFloat.float :=
  match z with
  | Z0 => PrimFloat.zero
  | Zpos _ => PrimFloat.of_uint63 (Uint63.of_Z z)
  | Zneg p => PrimFloat.opp (PrimFloat.of_uint63 (Uint63.of_Z (Zpos p)))
  end.

(** [np.min] hands a NaN through. *)
Definition b64_min (a b : PrimFloat.float) : PrimFloat.float :=
  if PrimFloat.is_nan a then a
  else if PrimFloat.is_nan b then b
  else if PrimFloat.ltb b a then b else a.

(** [float ** float] is computed by the C library and wrapped by CPython;
    neither is part of the repository, so the instance takes it as an
    argument. *)
Definition binary64 (libm_pow : PrimFloat.float -> PrimFloat.float -> result PrimFloat.float) : Arith PrimFloat.float := {|
  of_Z := b64_of_Z;
  half := PrimFloat.div PrimFloat.one PrimFloat.two;
  fmul := PrimFloat.mul;
  fdiv := PrimFloat.div;
  fsub := PrimFloat.sub;
  fsqrt := PrimFloat.sqrt;
  fmin := b64_min;
  fltb := PrimFloat.ltb;
  feqb := PrimFloat.eqb;
  isfinite := PrimFloat.is_finite;
  fpow := libm_pow;
  fmul_0_0 := eq_refl
|}.

(** The values of [x ** y] that are fixed whatever the platform:
    [x ** 0.0 = 1.0] and [x ** 1.0 = x].  Every other power is left to
    [rest]. *)
Definition pow_fixed (rest : PrimFloat.float -> PrimFloat.float -> result PrimFloat.float)
           (x y : PrimFloat.float) : result PrimFloat.float :=
  if PrimFloat.eqb y PrimFloat.zero then Ok PrimFloat.one
  else if PrimFloat.eqb y PrimFloat.one then Ok x
  else rest x y.

(** A platform whose [pow] overflows outside the fixed points: the
    instance the worked examples run on.  They only take the powers
    [10.0 ** 0.0] and [10.0 ** 1.0]. *)
Definition example_pow : PrimFloat.float -> PrimFloat.float -> result PrimFloat.float :=
  pow_fixed (fun _ _ => Raise OverflowError).

Definition example : Arith PrimFloat.float := binary64 example_pow.

End Binary64.

Module Exact.

Definition Rltb (x y : R) : bool := if Rlt_dec x y then true else false.
Definition Reqb (x y : R) : bool := if Req_dec_T x y then true else false.

(** [x ** y] over the reals.  A negative base with an exponent other than
    zero is outside the floats (Python answers with a complex number for
    a fractional exponent); the scripts only raise 10 and powers of 10. *)
Definition Rpow (x y : R) : result R :=
  if Reqb y 0 then Ok 1%R
  else if Rltb 0 x then Ok (Rpower x y)
  else if Reqb x 0 then
         if Rltb 0 y then Ok 0%R else Raise ZeroDivisionError
  else Raise ValueError.

Definition exact : Arith R := {|
  of_Z := IZR;
  half := (/ 2)%R;
  fmul := Rmult;
  fdiv := Rdiv;
  fsub := Rminus;
  fsqrt := R_sqrt.sqrt;
  fmin := Rmin;
  fltb := Rltb;
  feqb := Reqb;
  isfinite := fun _ => true;
  fpow := Rpow;
  fmul_0_0 := Rmult_0_l 0
|}.

End Exact.

(** ** The run context of the scripts *)

Section Scripts.

Context {F : Type} {A : Arith F}.

(** Python's [/] on two floats raises on a zero divisor. *)
Definition py_div (x y : F) : result F :=
  if feqb y (of_Z 0) then Raise ZeroDivisionError else Ok (fdiv x y).

(** [a *= k] on grid data. *)
Definition scale (k : F) (g : list F) : list F :=
  map (fun x => fmul x k) g.

(** What the run logs, prints and asks of the framework, in order. *)
Inductive event : Type :=
| SolverStep (dt : F)                  (* solver.step(dt) *)
| RequireGridSpace                     (* field.require_grid_space() on every field *)
| LogInfo (msg : string)               (* logger.info *)
| LogError (msg : string)              (* logger.error *)
| Print (msg : string)                 (* print *)
| SetCheckpoint (name : string)        (* Checkpoint(...).set_checkpoint(...) *)
| MergeProcessFiles                    (* post.merge_process_files *)
| MergeAnalysis (path : string).       (* post.merge_analysis *)

(** The options and constants that the main loop only reads. *)
Record params : Type := {
  threeD : bool;
  Pr : F;
  bootstrap_α : F;
  bootstrap_β : F;
  bootstrap_logStep : F;
  max_bootstrap_steps : Z;
  start_iter : Z;
  no_join : bool
}.

(** [flow_tools.CFL]: the cap on the time step and the velocity
    components registered with [add_velocities]. *)
Record cfl : Type := {
  cfl_max_dt : F;
  cfl_velocities : list (list string)
}.

(** The variables the main loop assigns, with the grid data of the
    fields it rescales.  [v] is a state field of the solver in a 3D run
    only; in 2.5D it is the substitution ['0']. *)
Record state : Type := {
  sim_time : F;                        (* solver.sim_time *)
  iteration : Z;                       (* solver.iteration *)
  u : list F;                          (* solver.state['u']['g'] *)
  v : option (list F);                 (* solver.state['v']['g'] *)
  w : list F;                          (* solver.state['w']['g'] *)
  Ra_fd : list F;
  Q_fd : list F;
  cRa : F;
  cQ : F;
  t_buoy : F;
  max_dt : F;
  dt : F;
  CFL : cfl;
  Re_avg : F;
  bootstrap_force_balances : list (list F);
  rolled : list (list F);
  bootstrap_i : Z;
  last_bootstrap_time : F;
  bootstrap_now : bool;
  bootstrap_wait_time : F;
  bootstrap_steps : Z
}.

(** What the framework answers during one pass through the loop. *)
Record obs : Type := {
  o_ok : bool;                         (* solver.ok at the loop test *)
  o_dt : F;                            (* CFL.compute_dt() *)
  o_step : option nat;                 (* solver.step(dt): [Some tag] when it raises *)
  o_sim_time : F;                      (* solver.sim_time after the step *)
  o_iteration : Z;                     (* solver.iteration after the step *)
  o_u : list F;                        (* the velocity fields after the step *)
  o_v : option (list F);
  o_w : list F;
  o_Re : F                             (* flow.grid_average('Re') *)
}.

(** *** A state, log and exception monad for the statements of the scripts *)

Definition M (X : Type) : Type := state -> result X * state * list event.

Definition ret {X} (x : X) : M X := fun s => (Ok x, s, []).

Definition bind {X Y} (m : M X) (f : X -> M Y) : M Y :=
  fun s =>
    match m s with
    | (Ok x, s1, l1) =>
        match f x s1 with
        | (r, s2, l2) => (r, s2, l1 ++ l2)
        end
    | (Raise e, s1, l1) => (Raise e, s1, l1)
    end.

Notation "x <- m ;; k" := (bind m (fun x => k))
  (at level 61, m at next level, right associativity).
Notation "m ;; k" := (bind m (fun _ => k))
  (at level 61, right associativity).

Definition raise {X} (e : exn) : M X := fun s => (Raise e, s, []).
Definition gets {X} (f : state -> X) : M X := fun s => (Ok (f s), s, []).
Definition modify (f : state -> state) : M unit := fun s => (Ok tt, f s, []).
Definition emit (ev : event) : M unit := fun s => (Ok tt, s, [ev]).

Definition lift {X} (r : result X) : M X :=
  match r with
  | Ok x => ret x
  | Raise e => raise e
  end.

(** A call into the framework: it is recorded, and raises when the
    observation says so. *)
Definition framework (ev : event) (outcome : option nat) : M unit :=
  bind (emit ev) (fun _ =>
    match outcome with
    | Some tag => raise (FrameworkError tag)
    | None => ret tt
    end).

(** [try: body / except: handler]: a bare [except] catches everything. *)
Definition try_except {X} (body : M X) (handler : exn -> M X) : M X :=
  fun s =>
    match body s with
    | (Raise e, s1, l1) =>
        match handler e s1 with
        | (r, s2, l2) => (r, s2, l1 ++ l2)
        end
    | done => done
    end.

(** [try: body / finally: fin]: [fin] always runs; an exception of [fin]
    replaces the outcome of [body]. *)
Definition try_finally {X} (body : M X) (fin : M unit) : M X :=
  fun s =>
    match body s with
    | (r, s1, l1) =>
        match fin s1 with
        | (Ok _, s2, l2) => (r, s2, l1 ++ l2)
        | (Raise e, s2, l2) => (Raise e, s2, l1 ++ l2)
        end
    end.


(** *** Assignments

    One setter per variable the loop assigns; every other component is
    carried over. *)

Definition set_dt (x : F) (s : state) : state :=
  {|
    sim_time := sim_time s; iteration := iteration s; u := u s; v := v s;
    w := w s; Ra_fd := Ra_fd s; Q_fd := Q_fd s; cRa := cRa s; cQ := cQ s;
    t_buoy := t_buoy s; max_dt := max_dt s; dt := x; CFL := CFL s;
    Re_avg := Re_avg s;
    bootstrap_force_balances := bootstrap_force_balances s;
    rolled := rolled s; bootstrap_i := bootstrap_i s;
    last_bootstrap_time := last_bootstrap_time s;
    bootstrap_now := bootstrap_now s;
    bootstrap_wait_time := bootstrap_wait_time s;
    bootstrap_steps := bootstrap_steps s
  |}.

Definition set_Re_avg (x : F) (s : state) : state :=
  {|
    sim_time := sim_time s; iteration := iteration s; u := u s; v := v s;
    w := w s; Ra_fd := Ra_fd s; Q_fd := Q_fd s; cRa := cRa s; cQ := cQ s;
    t_buoy := t_buoy s; max_dt := max_dt s; dt := dt s; CFL := CFL s;
    Re_avg := x; bootstrap_force_balances := bootstrap_force_balances s;
    rolled := rolled s; bootstrap_i := bootstrap_i s;
    last_bootstrap_time := last_bootstrap_time s;
    bootstrap_now := bootstrap_now s;
    bootstrap_wait_time := bootstrap_wait_time s;
    bootstrap_steps := bootstrap_steps s
  |}.

Definition set_Ra_fd (x : list F) (s : state) : state :=
  {|
    sim_time := sim_time s; iteration := iteration s; u := u s; v := v s;
    w := w s; Ra_fd := x; Q_fd := Q_fd s; cRa := cRa s; cQ := cQ s;
    t_buoy := t_buoy s; max_dt := max_dt s; dt := dt s; CFL := CFL s;
    Re_avg := Re_avg s;
    bootstrap_force_balances := bootstrap_force_balances s;
    rolled := rolled s; bootstrap_i := bootstrap_i s;
    last_bootstrap_time := last_bootstrap_time s;
    bootstrap_now := bootstrap_now s;
    bootstrap_wait_time := bootstrap_wait_time s;
    bootstrap_steps := bootstrap_steps s
  |}.

Definition set_Q_fd (x : list F) (s : state) : state :=
  {|
    sim_time := sim_time s; iteration := iteration s; u := u s; v := v s;
    w := w s; Ra_fd := Ra_fd s; Q_fd := x; cRa := cRa s; cQ := cQ s;
    t_buoy := t_buoy s; max_dt := max_dt s; dt := dt s; CFL := CFL s;
    Re_avg := Re_avg s;
    bootstrap_force_balances := bootstrap_force_balances s;
    rolled := rolled s; bootstrap_i := bootstrap_i s;
    last_bootstrap_time := last_bootstrap_time s;
    bootstrap_now := bootstrap_now s;
    bootstrap_wait_time := bootstrap_wait_time s;
    bootstrap_steps := bootstrap_steps s
  |}.

Definition set_u (x : list F) (s : state) : state :=
  {|
    sim_time := sim_time s; iteration := iteration s; u := x; v := v s;
    w := w s; Ra_fd := Ra_fd s; Q_fd := Q_fd s; cRa := cRa s; cQ := cQ s;
    t_buoy := t_buoy s; max_dt := max_dt s; dt := dt s; CFL := CFL s;
    Re_avg := Re_avg s;
    bootstrap_force_balances := bootstrap_force_balances s;
    rolled := rolled s; bootstrap_i := bootstrap_i s;
    last_bootstrap_time := last_bootstrap_time s;
    bootstrap_now := bootstrap_now s;
    bootstrap_wait_time := bootstrap_wait_time s;
    bootstrap_steps := bootstrap_steps s
  |}.

Definition set_w (x : list F) (s : state) : state :=
  {|
    sim_time := sim_time s; iteration := iteration s; u := u s; v := v s;
    w := x; Ra_fd := Ra_fd s; Q_fd := Q_fd s; cRa := cRa s; cQ := cQ s;
    t_buoy := t_buoy s; max_dt := max_dt s; dt := dt s; CFL := CFL s;
    Re_avg := Re_avg s;
    bootstrap_force_balances := bootstrap_force_balances s;
    rolled := rolled s; bootstrap_i := bootstrap_i s;
    last_bootstrap_time := last_bootstrap_time s;
    bootstrap_now := bootstrap_now s;
    bootstrap_wait_time := bootstrap_wait_time s;
    bootstrap_steps := bootstrap_steps s
  |}.

Definition set_cRa (x : F) (s : state) : state :=
  {|
    sim_time := sim_time s; iteration := iteration s; u := u s; v := v s;
    w := w s; Ra_fd := Ra_fd s; Q_fd := Q_fd s; cRa := x; cQ := cQ s;
    t_buoy := t_buoy s; max_dt := max_dt s; dt := dt s; CFL := CFL s;
    Re_avg := Re_avg s;
    bootstrap_force_balances := bootstrap_force_balances s;
    rolled := rolled s; bootstrap_i := bootstrap_i s;
    last_bootstrap_time := last_bootstrap_time s;
    bootstrap_now := bootstrap_now s;
    bootstrap_wait_time := bootstrap_wait_time s;
    bootstrap_steps := bootstrap_steps s
  |}.

Definition set_cQ (x : F) (s : state) : state :=
  {|
    sim_time := sim_time s; iteration := iteration s; u := u s; v := v s;
    w := w s; Ra_fd := Ra_fd s; Q_fd := Q_fd s; cRa := cRa s; cQ := x;
    t_buoy := t_buoy s; max_dt := max_dt s; dt := dt s; CFL := CFL s;
    Re_avg := Re_avg s;
    bootstrap_force_balances := bootstrap_force_balances s;
    rolled := rolled s; bootstrap_i := bootstrap_i s;
    last_bootstrap_time := last_bootstrap_time s;
    bootstrap_now := bootstrap_now s;
    bootstrap_wait_time := bootstrap_wait_time s;
    bootstrap_steps := bootstrap_steps s
  |}.

Definition set_t_buoy (x : F) (s : state) : state :=
  {|
    sim_time := sim_time s; iteration := iteration s; u := u s; v := v s;
    w := w s; Ra_fd := Ra_fd s; Q_fd := Q_fd s; cRa := cRa s; cQ := cQ s;
    t_buoy := x; max_dt := max_dt s; dt := dt s; CFL := CFL s;
    Re_avg := Re_avg s;
    bootstrap_force_balances := bootstrap_force_balances s;
    rolled := rolled s; bootstrap_i := bootstrap_i s;
    last_bootstrap_time := last_bootstrap_time s;
    bootstrap_now := bootstrap_now s;
    bootstrap_wait_time := bootstrap_wait_time s;
    bootstrap_steps := bootstrap_steps s
  |}.

Definition set_max_dt (x : F) (s : state) : state :=
  {|
    sim_time := sim_time s; iteration := iteration s; u := u s; v := v s;
    w := w s; Ra_fd := Ra_fd s; Q_fd := Q_fd s; cRa := cRa s; cQ := cQ s;
    t_buoy := t_buoy s; max_dt := x; dt := dt s; CFL := CFL s;
    Re_avg := Re_avg s;
    bootstrap_force_balances := bootstrap_force_balances s;
    rolled := rolled s; bootstrap_i := bootstrap_i s;
    last_bootstrap_time := last_bootstrap_time s;
    bootstrap_now := bootstrap_now s;
    bootstrap_wait_time := bootstrap_wait_time s;
    bootstrap_steps := bootstrap_steps s
  |}.

Definition set_CFL (x : cfl) (s : state) : state :=
  {|
    sim_time := sim_time s; iteration := iteration s; u := u s; v := v s;
    w := w s; Ra_fd := Ra_fd s; Q_fd := Q_fd s; cRa := cRa s; cQ := cQ s;
    t_buoy := t_buoy s; max_dt := max_dt s; dt := dt s; CFL := x;
    Re_avg := Re_avg s;
    bootstrap_force_balances := bootstrap_force_balances s;
    rolled := rolled s; bootstrap_i := bootstrap_i s;
    last_bootstrap_time := last_bootstrap_time s;
    bootstrap_now := bootstrap_now s;
    bootstrap_wait_time := bootstrap_wait_time s;
    bootstrap_steps := bootstrap_steps s
  |}.

Definition set_bootstrap_force_balances (x : list (list F)) (s : state) : state :=
  {|
    sim_time := sim_time s; iteration := iteration s; u := u s; v := v s;
    w := w s; Ra_fd := Ra_fd s; Q_fd := Q_fd s; cRa := cRa s; cQ := cQ s;
    t_buoy := t_buoy s; max_dt := max_dt s; dt := dt s; CFL := CFL s;
    Re_avg := Re_avg s; bootstrap_force_balances := x; rolled := rolled s;
    bootstrap_i := bootstrap_i s;
    last_bootstrap_time := last_bootstrap_time s;
    bootstrap_now := bootstrap_now s;
    bootstrap_wait_time := bootstrap_wait_time s;
    bootstrap_steps := bootstrap_steps s
  |}.

Definition set_rolled (x : list (list F)) (s : state) : state :=
  {|
    sim_time := sim_time s; iteration := iteration s; u := u s; v := v s;
    w := w s; Ra_fd := Ra_fd s; Q_fd := Q_fd s; cRa := cRa s; cQ := cQ s;
    t_buoy := t_buoy s; max_dt := max_dt s; dt := dt s; CFL := CFL s;
    Re_avg := Re_avg s;
    bootstrap_force_balances := bootstrap_force_balances s; rolled := x;
    bootstrap_i := bootstrap_i s;
    last_bootstrap_time := last_bootstrap_time s;
    bootstrap_now := bootstrap_now s;
    bootstrap_wait_time := bootstrap_wait_time s;
    bootstrap_steps := bootstrap_steps s
  |}.

Definition set_bootstrap_i (x : Z) (s : state) : state :=
  {|
    sim_time := sim_time s; iteration := iteration s; u := u s; v := v s;
    w := w s; Ra_fd := Ra_fd s; Q_fd := Q_fd s; cRa := cRa s; cQ := cQ s;
    t_buoy := t_buoy s; max_dt := max_dt s; dt := dt s; CFL := CFL s;
    Re_avg := Re_avg s;
    bootstrap_force_balances := bootstrap_force_balances s;
    rolled := rolled s; bootstrap_i := x;
    last_bootstrap_time := last_bootstrap_time s;
    bootstrap_now := bootstrap_now s;
    bootstrap_wait_time := bootstrap_wait_time s;
    bootstrap_steps := bootstrap_steps s
  |}.

Definition set_last_bootstrap_time (x : F) (s : state) : state :=
  {|
    sim_time := sim_time s; iteration := iteration s; u := u s; v := v s;
    w := w s; Ra_fd := Ra_fd s; Q_fd := Q_fd s; cRa := cRa s; cQ := cQ s;
    t_buoy := t_buoy s; max_dt := max_dt s; dt := dt s; CFL := CFL s;
    Re_avg := Re_avg s;
    bootstrap_force_balances := bootstrap_force_balances s;
    rolled := rolled s; bootstrap_i := bootstrap_i s;
    last_bootstrap_time := x; bootstrap_now := bootstrap_now s;
    bootstrap_wait_time := bootstrap_wait_time s;
    bootstrap_steps := bootstrap_steps s
  |}.

Definition set_bootstrap_now (x : bool) (s : state) : state :=
  {|
    sim_time := sim_time s; iteration := iteration s; u := u s; v := v s;
    w := w s; Ra_fd := Ra_fd s; Q_fd := Q_fd s; cRa := cRa s; cQ := cQ s;
    t_buoy := t_buoy s; max_dt := max_dt s; dt := dt s; CFL := CFL s;
    Re_avg := Re_avg s;
    bootstrap_force_balances := bootstrap_force_balances s;
    rolled := rolled s; bootstrap_i := bootstrap_i s;
    last_bootstrap_time := last_bootstrap_time s; bootstrap_now := x;
    bootstrap_wait_time := bootstrap_wait_time s;
    bootstrap_steps := bootstrap_steps s
  |}.

Definition set_bootstrap_wait_time (x : F) (s : state) : state :=
  {|
    sim_time := sim_time s; iteration := iteration s; u := u s; v := v s;
    w := w s; Ra_fd := Ra_fd s; Q_fd := Q_fd s; cRa := cRa s; cQ := cQ s;
    t_buoy := t_buoy s; max_dt := max_dt s; dt := dt s; CFL := CFL s;
    Re_avg := Re_avg s;
    bootstrap_force_balances := bootstrap_force_balances s;
    rolled := rolled s; bootstrap_i := bootstrap_i s;
    last_bootstrap_time := last_bootstrap_time s;
    bootstrap_now := bootstrap_now s; bootstrap_wait_time := x;
    bootstrap_steps := bootstrap_steps s
  |}.

Definition set_bootstrap_steps (x : Z) (s : state) : state :=
  {|
    sim_time := sim_time s; iteration := iteration s; u := u s; v := v s;
    w := w s; Ra_fd := Ra_fd s; Q_fd := Q_fd s; cRa := cRa s; cQ := cQ s;
    t_buoy := t_buoy s; max_dt := max_dt s; dt := dt s; CFL := CFL s;
    Re_avg := Re_avg s;
    bootstrap_force_balances := bootstrap_force_balances s;
    rolled := rolled s; bootstrap_i := bootstrap_i s;
    last_bootstrap_time := last_bootstrap_time s;
    bootstrap_now := bootstrap_now s;
    bootstrap_wait_time := bootstrap_wait_time s; bootstrap_steps := x
  |}.

(** The solver's side of [solver.step(dt)]: the clock, the iteration count
    and the velocity fields are what the framework left. *)
Definition stepped (o : obs) (s : state) : state :=
  {|
    sim_time := o_sim_time o; iteration := o_iteration o; u := o_u o;
    v := o_v o; w := o_w o; Ra_fd := Ra_fd s; Q_fd := Q_fd s; cRa := cRa s;
    cQ := cQ s; t_buoy := t_buoy s; max_dt := max_dt s; dt := dt s;
    CFL := CFL s; Re_avg := Re_avg s;
    bootstrap_force_balances := bootstrap_force_balances s;
    rolled := rolled s; bootstrap_i := bootstrap_i s;
    last_bootstrap_time := last_bootstrap_time s;
    bootstrap_now := bootstrap_now s;
    bootstrap_wait_time := bootstrap_wait_time s;
    bootstrap_steps := bootstrap_steps s
  |}.

(** ** The main loop *)

Variable P : params.

(** Lines 484-511 of [bootstrap_mhd_rbc.py] (436-466 of the forces script):
    one time step, the 3D grid-space pass every [Hermitian_cadence = 100]
    iterations, and the Reynolds number sampled and logged every tenth
    iteration. *)
Definition advance (o : obs) : M unit :=
  modify (set_dt (o_dt o)) ;;
  framework (SolverStep (o_dt o)) (o_step o) ;;
  modify (stepped o) ;;
  effective_iter <- gets (fun s => (iteration s - start_iter P)%Z) ;;
  (if threeD P && (effective_iter mod 100 =? 0)%Z
   then emit RequireGridSpace else ret tt) ;;
  if (effective_iter mod 10 =? 0)%Z
  then modify (set_Re_avg (o_Re o)) ;; emit (LogInfo "Iteration")
  else ret tt.

(** Lines 531-534: the marker follows the clock while the flow is slow;
    afterwards the step is requested once the wait time has passed. *)
Definition bootstrap_trigger : M unit :=
  s <- gets (fun s => s) ;;
  if fltb (Re_avg s) (of_Z 1)
  then modify (set_last_bootstrap_time (sim_time s))
  else if fltb (bootstrap_wait_time s)
                (fsub (sim_time s) (last_bootstrap_time s))
       then modify (set_bootstrap_now true)
       else ret tt.

(** Lines 544-552: the new pair [(nRa, nQ)] from the current one. *)
Definition select_step (cRa cQ : F) : result (F * F) :=
  if feqb (bootstrap_β P) (of_Z 0) then
    let* p := fpow (of_Z 10) (bootstrap_logStep P) in
    Ok (fmul cRa p, cQ)
  else if feqb (bootstrap_α P) (of_Z 0) then
    let* p := fpow (of_Z 10) (bootstrap_logStep P) in
    Ok (cRa, fmul cQ p)
  else
    let* p := fpow (of_Z 10) (bootstrap_logStep P) in
    let* p' := fpow (of_Z 10) (bootstrap_logStep P) in
    let* e := py_div (bootstrap_α P) (bootstrap_β P) in
    let* d := fpow p' e in
    let* q := py_div cQ d in
    Ok (fmul cRa p, q).

(** [CFL.add_velocities(...)]. *)
Definition add_velocities (names : list string) (c : cfl) : cfl :=
  {| cfl_max_dt := cfl_max_dt c;
     cfl_velocities := cfl_velocities c ++ [names] |}.

(** [CFL.max_dt = ...]. *)
Definition install_max_dt (x : F) (c : cfl) : cfl :=
  {| cfl_max_dt := x; cfl_velocities := cfl_velocities c |}.

(** Lines 544-580: the step itself, statement by statement. *)
Definition apply_bootstrap : M unit :=
  n <- (s <- gets (fun s => s) ;; lift (select_step (cRa s) (cQ s))) ;;
  let nRa := fst n in
  let nQ := snd n in
  emit (LogInfo "bootstrapping Ra, Q") ;;
  k <- (s <- gets (fun s => s) ;; lift (py_div nRa (cRa s))) ;;
  modify (fun s => set_Ra_fd (scale k (Ra_fd s)) s) ;;
  k <- (s <- gets (fun s => s) ;; lift (py_div nQ (cQ s))) ;;
  modify (fun s => set_Q_fd (scale k (Q_fd s)) s) ;;
  r <- (s <- gets (fun s => s) ;; lift (py_div nRa (cRa s))) ;;
  let u_factor := fsqrt r in
  modify (fun s => set_u (scale u_factor (u s)) s) ;;
  modify (fun s => set_w (scale u_factor (w s)) s) ;;
  c <- (s <- gets (fun s => s) ;; lift (py_div (cRa s) nRa)) ;;
  modify (fun s => set_bootstrap_wait_time (fmul (bootstrap_wait_time s) c) s) ;;
  c <- (s <- gets (fun s => s) ;; lift (py_div (cRa s) nRa)) ;;
  modify (fun s => set_max_dt (fmul (max_dt s) c) s) ;;
  modify (fun s => set_CFL (install_max_dt (max_dt s) (CFL s)) s) ;;
  modify (fun s =>
            set_CFL (add_velocities
                       (if threeD P then ["u"; "v"; "w"] else ["u"; "w"])%string
                       (CFL s)) s) ;;
  modify (set_cQ nQ) ;;
  modify (set_cRa nRa) ;;
  t <- (s <- gets (fun s => s) ;; lift (py_div (Pr P) (cRa s))) ;;
  modify (set_t_buoy (fsqrt t)) ;;
  modify (fun s =>
            set_bootstrap_force_balances
              (map (scale (of_Z 0)) (bootstrap_force_balances s)) s) ;;
  modify (fun s => set_rolled (map (scale (of_Z 0)) (rolled s)) s) ;;
  modify (set_bootstrap_i 0%Z) ;;
  modify (fun s => set_last_bootstrap_time (sim_time s) s).

(** What a pass through the loop body tells the loop. *)
Inductive flow : Type :=
| Continue
| Break.

(** Lines 531-580: the bootstrap controller. *)
Definition bootstrap_controller : M flow :=
  bootstrap_trigger ;;
  now <- gets bootstrap_now ;;
  if now then
    steps <- gets bootstrap_steps ;;
    if (steps =? max_bootstrap_steps P)%Z then
      emit (LogInfo "Finished bootstrap run") ;;
      ret Break
    else
      modify (set_bootstrap_now false) ;;
      modify (fun s => set_bootstrap_steps (bootstrap_steps s + 1)%Z s) ;;
      apply_bootstrap ;;
      ret Continue
  else ret Continue.

(** How a loop over a finite trace of observations ends: the loop test
    failed, [break] was taken, or the trace was used up with the loop
    still running. *)
Inductive exit : Type :=
| TestFailed
| Broke
| Running.

(** [while (solver.ok and np.isfinite(Re_avg))]. *)
Definition loop_test (o : obs) (s : state) : bool :=
  o_ok o && isfinite (Re_avg s).

(** The main loop of [bootstrap_mhd_rbc.py]. *)
Fixpoint bootstrap_loop (tr : list obs) : M exit :=
  match tr with
  | [] => ret Running
  | o :: tr' =>
      go <- gets (loop_test o) ;;
      if go then
        advance o ;;
        c <- bootstrap_controller ;;
        match c with
        | Break => ret Broke
        | Continue => bootstrap_loop tr'
        end
      else ret TestFailed
  end.

(** The main loop of [forces_mhd_rayleigh_benard.py]: the same loop
    without a controller. *)
Fixpoint forces_loop (tr : list obs) : M exit :=
  match tr with
  | [] => ret Running
  | o :: tr' =>
      go <- gets (loop_test o) ;;
      if go then advance o ;; forces_loop tr'
      else ret TestFailed
  end.

(** ** After the loop *)

(** What the framework answers while the run is wound up. *)
Record final_obs : Type := {
  f_set_checkpoint : option nat;         (* Checkpoint(...) and set_checkpoint *)
  f_step : option nat;                   (* solver.step(dt) *)
  f_merge : option nat;                  (* post.merge_process_files *)
  f_join : option nat;                   (* merge_analysis of the checkpoints *)
  f_tasks : list (string * option nat)   (* the base path of each of the
                                            analysis_tasks, and what
                                            merge_analysis answers for it *)
}.

Definition run_statistics : M unit :=
  emit (LogInfo "Iterations") ;;
  emit (LogInfo "Sim end time") ;;
  emit (LogInfo "Run time (sec)") ;;
  emit (LogInfo "Run time (cpu-hr)") ;;
  emit (LogInfo "iter/sec").

(** The inner [try] of the outer [finally]: the final checkpoint. *)
Definition final_checkpoint (fo : final_obs) : M unit :=
  framework (SetCheckpoint "final_checkpoint") (f_set_checkpoint fo) ;;
  d <- gets dt ;;
  framework (SolverStep d) (f_step fo) ;;
  framework MergeProcessFiles (f_merge fo).

(** The inner [finally]: the join of the output files and the closing
    statistics. *)
Definition join_files (fo : final_obs) : M unit :=
  (if no_join P then ret tt
   else
     emit (LogInfo "beginning join operation") ;;
     framework (MergeAnalysis "checkpoint") (f_join fo) ;;
     fold_right (fun task k =>
                   emit (LogInfo (fst task)) ;;
                   framework (MergeAnalysis (fst task)) (snd task) ;; k)
                (ret tt) (f_tasks fo)) ;;
  emit (LogInfo "========================================") ;;
  run_statistics.

(** The outer [finally] block. *)
Definition finish (fo : final_obs) : M unit :=
  run_statistics ;;
  try_finally
    (try_except
       (final_checkpoint fo)
       (fun e =>
          (raise e : M unit) ;;
          emit (Print "cannot save final checkpoint")))
    (join_files fo).

(** [try: <main loop> / except: raise; logger.error(...) / finally: ...]
    around a main loop. *)
Definition guarded (loop : M exit) (fo : final_obs) : M unit :=
  try_finally
    (try_except
       (loop ;; ret tt)
       (fun e =>
          (raise e : M unit) ;;
          emit (LogError "Exception raised, triggering end of main loop.")))
    (finish fo).

(** The two scripts from the first loop test on.  A trace that ends with
    the loop still running describes no complete run. *)
Definition run_of (loop : list obs -> M exit)
           (tr : list obs) (fo : final_obs) (s : state)
  : option (result unit * state * list event) :=
  match loop tr s with
  | (Ok Running, _, _) => None
  | _ => Some (guarded (loop tr) fo s)
  end.

Definition bootstrap_mhd_rbc := run_of bootstrap_loop.
Definition forces_mhd_rayleigh_benard := run_of forces_loop.

(** How a complete run ended, and what it emitted. *)
Definition run_outcome (x : option (result unit * state * list event))
  : option (result unit) :=
  match x with
  | Some (r, _, _) => Some r
  | None => None
  end.

Definition run_log (x : option (result unit * state * list event))
  : list event :=
  match x with
  | Some (_, _, l) => l
  | None => []
  end.

End Scripts.

(** ** The command line and the setup of [bootstrap_mhd_rbc.py] *)

(** The values [docopt] and the configuration file put in [args]. *)
Inductive pyval : Type :=
| PNone
| PStr (s : string)
| PBool (b : bool).

Fixpoint lookup (k : string) (args : list (string * pyval)) : option pyval :=
  match args with
  | [] => None
  | (k', x) :: rest => if String.eqb k k' then Some x else lookup k rest
  end.

(** [args[k]]. *)
Definition getitem (k : string) (args : list (string * pyval)) : result pyval :=
  match lookup k args with
  | Some x => Ok x
  | None => Raise KeyError
  end.

(** [args[k] = x] on a dictionary whose keys are fixed. *)
Fixpoint setitem (k : string) (x : pyval) (args : list (string * pyval))
  : list (string * pyval) :=
  match args with
  | [] => []
  | (k', y) :: rest =>
      if String.eqb k k' then (k', x) :: rest
      else (k', y) :: setitem k x rest
  end.

(** [k.split('--')[-1]]: what follows the last ["--"] of [k]. *)
Fixpoint last_segment (cur k : string) : string :=
  match k with
  | EmptyString => cur
  | String "-" (String "-" rest) => last_segment EmptyString rest
  | String c rest => last_segment (cur ++ String c EmptyString) rest
  end.

(** [str.lower] on the ASCII letters, which is all the option names of the
    usage text have in upper case. *)
Definition lower_ascii (c : ascii) : ascii :=
  let n := nat_of_ascii c in
  if (65 <=? n)%nat && (n <=? 90)%nat then ascii_of_nat (n + 32) else c.

Fixpoint lower (k : string) : string :=
  match k with
  | EmptyString => EmptyString
  | String c rest => String (lower_ascii c) (lower rest)
  end.

(** Lines 91-95, the inner loop: the item [(n, v)] of the configuration
    file is written to every option whose lower-cased name is [n]. *)
Fixpoint merge_item (n : string) (x : pyval) (keys : list string)
         (args : list (string * pyval)) : list (string * pyval) :=
  match keys with
  | [] => args
  | k :: keys' =>
      if String.eqb (lower (last_segment EmptyString k)) n then
        let x' := match x with
                  | PStr "true" => PBool true
                  | _ => x
                  end in
        merge_item n x' keys' (setitem k x' args)
      else merge_item n x keys' args
  end.

(** Lines 87-95: [config] holds the items of the section ['parameters']
    when a configuration file was named. *)
Definition merge_config (config : option (list (string * string)))
           (args : list (string * pyval)) : list (string * pyval) :=
  match config with
  | None => args
  | Some items =>
      fold_left (fun a nv => merge_item (fst nv) (PStr (snd nv)) (map fst a) a)
                items args
  end.

Definition truthy (x : pyval) : bool :=
  match x with
  | PNone => false
  | PStr s => negb (String.eqb s EmptyString)
  | PBool b => b
  end.

(** What the framework hands over before the loop. *)
Record init_obs (F : Type) : Type := {
  i_sim_time : F;
  i_iteration : Z;
  i_u : list F;
  i_v : option (list F);
  i_w : list F;
  i_grid : nat;                          (* local grid points of a field *)
  i_restart_dt : option F                (* checkpoint.restart(restart, solver) *)
}.

Section Setup.

Context {F : Type} {A : Arith F}.

(** Python's parsers of numbers: [float(str)], [int(str)] and
    [float(Fraction(str))].  The first two raise [ValueError] on a string
    they cannot read; the third also raises [ZeroDivisionError] (on
    ["1/0"]) and [OverflowError] (on ["1e400"]), so it answers with its
    exception. *)
Variable float_of_string : string -> option F.
Variable int_of_string : string -> option Z.
Variable fraction_of_string : string -> result F.

Definition py_float (x : pyval) : result F :=
  match x with
  | PNone => Raise TypeError
  | PBool b => Ok (of_Z (if b then 1 else 0))
  | PStr s =>
      match float_of_string s with
      | Some f => Ok f
      | None => Raise ValueError
      end
  end.

Definition py_int (x : pyval) : result Z :=
  match x with
  | PNone => Raise TypeError
  | PBool b => Ok (if b then 1 else 0)%Z
  | PStr s =>
      match int_of_string s with
      | Some n => Ok n
      | None => Raise ValueError
      end
  end.

Definition py_fraction (x : pyval) : result F :=
  match x with
  | PNone => Raise TypeError
  | PBool b => Ok (of_Z (if b then 1 else 0))
  | PStr s => fraction_of_string s
  end.

(** [mesh.split(',')]. *)
Fixpoint split_comma (cur m : string) : list string :=
  match m with
  | EmptyString => [cur]
  | String c rest =>
      if Ascii.eqb c "," then cur :: split_comma EmptyString rest
      else split_comma (cur ++ String c EmptyString) rest
  end.

(** Lines 121-124: the processor mesh, [None] or two integers. *)
Definition read_mesh (x : pyval) : result (option (Z * Z)) :=
  match x with
  | PNone => Ok None
  | PBool _ => Raise AttributeError
  | PStr m =>
      match split_comma EmptyString m with
      | [] => Raise IndexError
      | a :: rest =>
          let* a' := py_int (PStr a) in
          match rest with
          | [] => Raise IndexError
          | b :: _ => let* b' := py_int (PStr b) in Ok (Some (a', b'))
          end
      end
  end.

(** [int(x)] of a float: not of a NaN, not of an infinity. *)
Definition int_of_float (x : F) : result unit :=
  if feqb x x then
    if isfinite x then Ok tt else Raise OverflowError
  else Raise ValueError.

(** Lines 98-135, 353-361, 369-382 and 397-399: the options read and
    converted before the first [max_dt] is computed, in the order of the
    script.  The statements in between hand the options to [logic.parsing]
    and declare the problem to the framework; they are taken to return. *)
Definition options_before_max_dt (args : list (string * pyval))
  : result (bool * F * F * F * F) :=
  let* threeD := getitem "--3D" args in
  let* MI := getitem "--MI" args in
  let* FT := getitem "--FT" args in
  let* FF := if truthy FT then Ok FT else getitem "--FF" args in
  let* FS := getitem "--FS" args in
  let* run_time_wall := rbind (getitem "--run_time_wall" args) py_float in
  let* mesh := rbind (getitem "--mesh" args) read_mesh in
  let* Ra := rbind (getitem "--Ra" args) py_float in
  let* Pr := rbind (getitem "--Pr" args) py_float in
  let* Q := rbind (getitem "--Q" args) py_float in
  let* Pm := rbind (getitem "--Pm" args) py_float in
  let* aspect := rbind (getitem "--a" args) py_float in
  let* nx := rbind (getitem "--nx" args) py_int in
  let* ny := rbind (getitem "--ny" args) py_int in
  let* nz := rbind (getitem "--nz" args) py_int in
  let* SBDF2 := getitem "--SBDF2" args in
  let* SBDF4 := getitem "--SBDF4" args in
  let* cfl_safety := rbind (getitem "--safety" args) py_float in
  let* restart := getitem "--restart" args in
  let* seed := match restart with
               | PNone => rbind (getitem "--seed" args) py_int
               | _ => Ok 0%Z
               end in
  let* r := py_div Pr Ra in
  Ok (truthy threeD, Ra, Pr, Q, fsqrt r).

(** Line 400: [f = float(args['--factor'])]. *)
Definition read_options (args : list (string * pyval))
  : result (bool * F * F * F * F * F) :=
  let* before := options_before_max_dt args in
  let* f := rbind (getitem "--factor" args) py_float in
  Ok (before, f).

(** Lines 397-470: the variables of the main loop as the first loop test
    finds them. *)
Definition setup (args : list (string * pyval)) (io : init_obs F)
  : result (params * state) :=
  let* opts := read_options args in
  let '(threeD, Ra, Pr, Q, t_buoy, f) := opts in
  let* fq := py_div f Q in
  let max_dt := fmul half (fmin t_buoy fq) in
  let* restart := getitem "--restart" args in
  let dt := match restart, i_restart_dt io with
            | PNone, _ => max_dt
            | _, None => max_dt
            | _, Some d => d
            end in
  let* boot_time := rbind (getitem "--boot_time" args) py_float in
  let* _ := int_of_float (fmul (of_Z 2) (fsub boot_time (of_Z 50))) in
  let* Nboots := rbind (getitem "--Nboots" args) py_int in
  let* alp := rbind (getitem "--alp" args) py_fraction in
  let* β := rbind (getitem "--β" args) py_fraction in
  let* logStep := rbind (getitem "--logStep" args) py_fraction in
  let* no_join := getitem "--no_join" args in
  let zeros := repeat (repeat (of_Z 0) 4) 4000 in
  Ok ({| threeD := threeD; Pr := Pr;
         bootstrap_α := alp; bootstrap_β := β;
         bootstrap_logStep := logStep;
         max_bootstrap_steps := Nboots;
         start_iter := i_iteration io;
         no_join := truthy no_join |},
      {| sim_time := i_sim_time io; iteration := i_iteration io;
         u := i_u io; v := i_v io; w := i_w io;
         Ra_fd := repeat Ra (i_grid io); Q_fd := repeat Q (i_grid io);
         cRa := Ra; cQ := Q; t_buoy := t_buoy; max_dt := max_dt; dt := dt;
         CFL := {| cfl_max_dt := max_dt;
                   cfl_velocities :=
                     [if threeD then ["u"; "v"; "w"] else ["u"; "w"]]%string |};
         Re_avg := of_Z 0;
         bootstrap_force_balances := zeros; rolled := zeros;
         bootstrap_i := 0%Z;
         last_bootstrap_time := of_Z 0;
         bootstrap_now := false;
         bootstrap_wait_time := fmul (of_Z 20) t_buoy;
         bootstrap_steps := 0%Z |}).

(** [bootstrap_mhd_rbc.py] from the command line on: an exception of the
    setup ends the script before the [try] statement is entered.  The
    exceptions of the setup are those of its own statements, the
    conversions and quotients; the configuration file is taken as read
    (lines 88-91) and the calls into [logic] and the framework as
    returning. *)
Definition program (args : list (string * pyval))
           (config : option (list (string * string)))
           (io : init_obs F) (tr : list obs) (fo : final_obs)
  : option (result unit * list event) :=
  match setup (merge_config config args) io with
  | Raise e => Some (Raise e, [])
  | Ok (P, s0) =>
      match bootstrap_mhd_rbc P tr fo s0 with
      | Some (r, _, log) => Some (r, log)
      | None => None
      end
  end.

End Setup.

(** ** The problem declared to the framework *)



(** The keys of [bc_dict] that the scripts read and write.  The
    dictionary comes from [logic.parsing.construct_BC_dict]; its entries
    are taken as truth values. *)
Inductive bc_key : Type :=
| FF | FT | TT                            (* thermal *)
| FS | NS                                 (* velocity *)
| MI | MC.                                (* magnetic *)

Definition bc_key_eqb (a b : bc_key) : bool :=
  match a, b with
  | FF, FF | FT, FT | TT, TT | FS, FS | NS, NS | MI, MI | MC, MC => true
  | _, _ => false
  end.

(** [bc_dict[k] = b]. *)
Definition bc_set (k : bc_key) (b : bool) (bc_dict : bc_key -> bool)
  : bc_key -> bool :=
  fun k' => if bc_key_eqb k' k then b else bc_dict k'.

(** Lines 100-111 of [bootstrap_mhd_rbc.py], on the dictionary that
    [construct_BC_dict] returned. *)
Definition bootstrap_bc_dict (args : list (string * pyval))
           (bc_dict : bc_key -> bool) : result (bc_key -> bool) :=
  let* mi := getitem "--MI" args in
  let bc_dict :=
    if truthy mi then bc_set MI true (bc_set MC false bc_dict)
    else bc_dict in
  let* ft := getitem "--FT" args in
  let* bc_dict :=
    if truthy ft then Ok (bc_set FT true (bc_set TT false bc_dict))
    else
      let* ff := getitem "--FF" args in
      Ok (if truthy ff then bc_set FF true (bc_set TT false bc_dict)
          else bc_dict) in
  let* fs := getitem "--FS" args in
  Ok (if truthy fs then bc_set FS true (bc_set NS false bc_dict)
      else bc_dict).

(** Lines 78-91 of [forces_mhd_rayleigh_benard.py]. *)
Definition forces_threeD (args : list (string * pyval)) : result bool :=
  let* flat := getitem "--2.5D" args in
  Ok (negb (truthy flat)).

Definition forces_bc_dict (args : list (string * pyval))
           (bc_dict : bc_key -> bool) : result (bc_key -> bool) :=
  let* mc := getitem "--MC" args in
  let bc_dict :=
    if truthy mc then bc_set MC true (bc_set MI false bc_dict)
    else bc_dict in
  let* ft := getitem "--FT" args in
  let* bc_dict :=
    if truthy ft then Ok (bc_set FT true (bc_set TT false bc_dict))
    else
      let* ff := getitem "--FF" args in
      Ok (if truthy ff then bc_set FF true (bc_set TT false bc_dict)
          else bc_dict) in
  let* ns := getitem "--NS" args in
  Ok (if truthy ns then bc_set NS true (bc_set FS false bc_dict)
      else bc_dict).

(** The condition strings of [add_bc], as the expressions they spell over
    the horizontal wavenumbers of a mode. *)
Inductive wavenumber : Type :=
| mode_nx
| mode_ny.

Inductive condition : Type :=
| Always                                  (* "True" *)
| IsZero (n : wavenumber)                 (* "(n == 0)" *)
| NonZero (n : wavenumber)                (* "(n != 0)" *)
| CondAnd (a b : condition)               (* "a and b" *)
| CondOr (a b : condition).               (* "a or  b" *)

Definition wavenumber_of (n : wavenumber) (kx ky : Z) : Z :=
  match n with
  | mode_nx => kx
  | mode_ny => ky
  end.

Fixpoint holds (c : condition) (kx ky : Z) : bool :=
  match c with
  | Always => true
  | IsZero n => (wavenumber_of n kx ky =? 0)%Z
  | NonZero n => negb (wavenumber_of n kx ky =? 0)%Z
  | CondAnd a b => holds a kx ky && holds b kx ky
  | CondOr a b => holds a kx ky || holds b kx ky
  end.

(** Lines 256-261 (281-285 of the forces script). *)
Definition zero_cond (threeD : bool) : condition :=
  if threeD then CondAnd (IsZero mode_nx) (IsZero mode_ny)
  else IsZero mode_nx.

Definition else_cond (threeD : bool) : condition :=
  if threeD then CondOr (NonZero mode_nx) (NonZero mode_ny)
  else NonZero mode_nx.

(** [for do, x in rows: if do: add(x)]. *)
Definition added {X} (rows : list (bool * X)) : list X :=
  map snd (filter fst rows).

(** The boundary conditions that apply to the mode [(kx, ky)]. *)
Definition at_mode (kx ky : Z) (conditions : list (string * condition))
  : list string :=
  map fst (filter (fun bc => holds (snd bc) kx ky) conditions).

(** Lines 151-153 of [bootstrap_mhd_rbc.py]. *)
Definition variables (threeD : bool) : list string :=
  ["T1"; "T1_z"; "p"; "u"; "w"; "phi"; "Ax"; "Ay"; "Az"; "Bx"; "By"; "Oy";
   "p_ml"; "p_ml_z"; "p_mn"; "p_mn_z"; "p_i"; "p_i_z"; "p_b"; "p_b_z";
   "p_v"; "p_v_z"]%string
  ++ (if threeD then ["v"; "Ox"]%string else []).

(** Lines 265-290. *)
Definition eqns (threeD : bool) : list (bool * string) :=
  [ (true,   "dt(T1) + w*T0_z   - (1/Pr)*Lap(T1, T1_z) = -UdotGrad(T1, T1_z)");
    (true,   "dt(u)  + dx(p)   + f_v_x  =       f_i_x + f_ml_x + f_mn_x");
    (threeD, "dt(v)  + dy(p)   + f_v_y  =       f_i_y + f_ml_y + f_mn_y ");
    (true,   "dt(w)  + dz(p)   + f_v_z  = f_b + f_i_z +          f_mn_z ");
    (true,   "dt(Ax) + dx(phi) + (1/Pm)*Jx - v             = v*Bz - w*By");
    (true,   "dt(Ay) + dy(phi) + (1/Pm)*Jy + u             = w*Bx - u*Bz");
    (true,   "dt(Az) + dz(phi) + (1/Pm)*Jz                 = u*By - v*Bx");
    (true,   "dx(u)  + dy(v)  + dz(w)  = 0");
    (true,   "dx(Ax) + dy(Ay) + dz(Az) = 0");
    (true,   "Bx - (dy(Az) - dz(Ay)) = 0");
    (true,   "By - (dz(Ax) - dx(Az)) = 0");
    (threeD, "Ox - (dy(w) - dz(v)) = 0");
    (true,   "Oy - (dz(u) - dx(w)) = 0");
    (true,   "T1_z - dz(T1) = 0");
    (true,   "Lap(p_b,  p_b_z)  = Div(0,      0,      f_b)");
    (true,   "Lap(p_ml, p_ml_z) = Div(f_ml_x, f_ml_y, 0)");
    (true,   "Lap(p_mn, p_mn_z) = Div(f_mn_x, f_mn_y, f_mn_z)");
    (true,   "Lap(p_i,  p_i_z)  = Div(f_i_x,  f_i_y,  f_i_z)");
    (true,   "Lap(p_v,  p_v_z)  = 0");
    (true,   "p_b_z -  dz(p_b) = 0");
    (true,   "p_ml_z - dz(p_ml) = 0");
    (true,   "p_mn_z - dz(p_mn) = 0");
    (true,   "p_i_z -  dz(p_i) = 0");
    (true,   "p_v_z -  dz(p_v) = 0") ]%string.

(** Lines 297-344: [bc_dict['FS']*threeD] is true when both are. *)
Definition bcs (bc_dict : bc_key -> bool) (threeD : bool)
  : list (bool * (string * condition)) :=
  let zero_cond := zero_cond threeD in
  let else_cond := else_cond threeD in
  [ (bc_dict FF,            (" left(T1_z)     = 0", Always));
    (bc_dict FF,            ("right(T1_z)     = 0", Always));
    (bc_dict FT,            (" left(T1_z)     = 0", Always));
    (bc_dict FT,            ("right(T1)       = 0", Always));
    (bc_dict TT,            (" left(T1)       = 0", Always));
    (bc_dict TT,            ("right(T1)       = 0", Always));
    (bc_dict FS,            (" left(Oy)       = 0", Always));
    (bc_dict FS,            ("right(Oy)       = 0", Always));
    (bc_dict FS && threeD,  (" left(Ox)       = 0", Always));
    (bc_dict FS && threeD,  ("right(Ox)       = 0", Always));
    (bc_dict NS,            (" left(u)        = 0", Always));
    (bc_dict NS,            ("right(u)        = 0", Always));
    (bc_dict NS && threeD,  (" left(v)        = 0", Always));
    (bc_dict NS && threeD,  ("right(v)        = 0", Always));
    (true,                  (" left(w)        = 0", Always));
    (true,                  ("right(p)        = 0", zero_cond));
    (true,                  ("right(w)        = 0", else_cond));
    (bc_dict MI,            (" left(Bx)       = 0", Always));
    (bc_dict MI,            ("right(Bx)       = 0", Always));
    (bc_dict MI,            (" left(By)       = 0", Always));
    (bc_dict MI,            ("right(By)       = 0", Always));
    (bc_dict MI,            (" left(Az)       = 0", Always));
    (bc_dict MI,            ("right(Az)       = 0", else_cond));
    (bc_dict MI,            ("right(phi)      = 0", zero_cond));
    (bc_dict MC,            (" left(Ax)       = 0", Always));
    (bc_dict MC,            ("right(Ax)       = 0", Always));
    (bc_dict MC,            (" left(Ay)       = 0", Always));
    (bc_dict MC,            ("right(Ay)       = 0", Always));
    (bc_dict MC,            (" left(phi)      = 0", Always));
    (bc_dict MC,            ("right(phi)      = 0", else_cond));
    (bc_dict MC,            ("right(Az)       = 0", zero_cond));
    (true,                  (" left(dz(p_b))  =  left(f_b)",   Always));
    (true,                  ("right(dz(p_b))  = right(f_b)",   else_cond));
    (true,                  ("right(p_b)      = 0",            zero_cond));
    (true,                  (" left(dz(p_i))  =  left(f_i_z)", Always));
    (true,                  ("right(dz(p_i))  = right(f_i_z)", else_cond));
    (true,                  ("right(p_i)      = 0",            zero_cond));
    (true,                  (" left(dz(p_ml)) = 0",            Always));
    (true,                  ("right(dz(p_ml)) = 0",            else_cond));
    (true,                  ("right(p_ml)     = 0",            zero_cond));
    (true,                  (" left(dz(p_mn)) =  left(f_mn_z)", Always));
    (true,                  ("right(dz(p_mn)) = right(f_mn_z)", else_cond));
    (true,                  ("right(p_mn)     = 0",             zero_cond));
    (true,                  (" left(dz(p_v))  =  left(f_v_z)", Always));
    (true,                  ("right(dz(p_v))  = right(f_v_z)", else_cond));
    (true,                  ("right(p_v)      = 0",            zero_cond)) ]%string.

(** Lines 137-139 of [forces_mhd_rayleigh_benard.py]. *)
Definition forces_variables (threeD : bool) : list string :=
  ["T1"; "T1_z"; "p"; "u"; "w"; "phi"; "Ax"; "Ay"; "Az"; "Bx"; "By";
   "Oy"]%string
  ++ (if threeD then ["v"; "Ox"]%string else []).

(** Lines 226-245: the calls of [problem.add_equation], in order. *)
Definition forces_equations (threeD : bool) : list string :=
  ["dt(T1) + w*T0_z   - inv_Pe_ff*Lap(T1, T1_z)              = -UdotGrad(T1, T1_z)";
   "dt(u)  + dx(p)   + f_v_x - f_ml_x      =    f_i_x + f_mn_x"]%string
  ++ (if threeD
      then ["dt(v)  + dy(p)   + inv_Re_ff*Ky + (M_alfven**-2)*Jx  = w*Ox - u*Oz + (M_alfven**-2)*(Jz*Bx - Jx*Bz) "]%string
      else [])
  ++ ["dt(w)  + dz(p)   + f_v_z                     - f_b = f_i_z + f_mn_z ";
      "dt(Ax) + dx(phi) + inv_Rem_ff*Jx - v             = v*Bz - w*By";
      "dt(Ay) + dy(phi) + inv_Rem_ff*Jy + u             = w*Bx - u*Bz";
      "dt(Az) + dz(phi) + inv_Rem_ff*Jz                 = u*By - v*Bx";
      "dx(u)  + dy(v)  + dz(w)  = 0";
      "dx(Ax) + dy(Ay) + dz(Az) = 0";
      "Bx - (dy(Az) - dz(Ay)) = 0";
      "By - (dz(Ax) - dx(Az)) = 0"]%string
  ++ (if threeD then ["Ox - (dy(w) - dz(v)) = 0"]%string else [])
  ++ ["Oy - (dz(u) - dx(w)) = 0";
      "T1_z - dz(T1) = 0"]%string.

(** Lines 249-311: the calls of [problem.add_bc], in order; a call without
    a condition has the condition ["True"]. *)
Definition forces_bcs (bc_dict : bc_key -> bool) (threeD : bool)
  : list (string * condition) :=
  (if bc_dict FF then
     [("left(T1_z) = 0", Always); ("right(T1_z) = 0", Always)]%string
   else if bc_dict FT then
     [("left(T1_z) = 0", Always); ("right(T1)  = 0", Always)]%string
   else
     [("left(T1) = 0", Always); ("right(T1) = 0", Always)]%string)
  ++ (if bc_dict FS then
        [("left(Oy) = 0", Always); ("right(Oy) = 0", Always)]%string
        ++ (if threeD
            then [("left(Ox) = 0", Always); ("right(Ox) = 0", Always)]%string
            else [])
      else
        [("left(u) = 0", Always); ("right(u) = 0", Always)]%string
        ++ (if threeD
            then [("left(v) = 0", Always); ("right(v) = 0", Always)]%string
            else []))
  ++ [("left(w) = 0", Always);
      ("right(p) = 0", zero_cond threeD);
      ("right(w) = 0", else_cond threeD)]%string
  ++ (if bc_dict MC then
        [(" left(Ax) = 0", Always); ("right(Ax) = 0", Always);
         (" left(Ay) = 0", Always); ("right(Ay) = 0", Always);
         (" left(phi) = 0", Always);
         ("right(phi) = 0", else_cond threeD);
         ("right(Az) = 0", zero_cond threeD)]%string
      else
        [(" left(Bx) = 0", Always); ("right(Bx) = 0", Always);
         (" left(By) = 0", Always); ("right(By) = 0", Always);
         (" left(Az) = 0", Always);
         ("right(Az) = 0", else_cond threeD);
         ("right(phi) = 0", zero_cond threeD)]%string).

(** * Properties of the scripts *)

(** Splits the conjunctions that are written in the goal, and no
    definition behind them. *)
Ltac conj := repeat match goal with |- _ /\ _ => split end.

Section Properties.

Context {F : Type} {A : Arith F}.
Variable P : params (F := F).

Implicit Types (s : @state F) (o : @obs F) (tr : list (@obs F)).

(** ** One bootstrap step in closed form *)

(** The arithmetic of a step from [s] to the pair [(nRa, nQ)] is defined:
    the new pair is computed and no quotient has a zero divisor. *)
Definition step_defined (s : state) (nRa nQ : F) : Prop :=
  select_step P (cRa s) (cQ s) = Ok (nRa, nQ) /\
  feqb (cRa s) (of_Z 0) = false /\
  feqb (cQ s) (of_Z 0) = false /\
  feqb nRa (of_Z 0) = false.

(** The state that lines 554-580 leave. *)
Definition after_bootstrap (s : state) (nRa nQ : F) : state :=
  {| sim_time := sim_time s; iteration := iteration s;
     u := scale (fsqrt (fdiv nRa (cRa s))) (u s);
     v := v s;
     w := scale (fsqrt (fdiv nRa (cRa s))) (w s);
     Ra_fd := scale (fdiv nRa (cRa s)) (Ra_fd s);
     Q_fd := scale (fdiv nQ (cQ s)) (Q_fd s);
     cRa := nRa; cQ := nQ;
     t_buoy := fsqrt (fdiv (Pr P) nRa);
     max_dt := fmul (max_dt s) (fdiv (cRa s) nRa);
     dt := dt s;
     CFL := add_velocities
              (if threeD P then ["u"; "v"; "w"] else ["u"; "w"])%string
              (install_max_dt (fmul (max_dt s) (fdiv (cRa s) nRa)) (CFL s));
     Re_avg := Re_avg s;
     bootstrap_force_balances :=
       map (scale (of_Z 0)) (bootstrap_force_balances s);
     rolled := map (scale (of_Z 0)) (rolled s);
     bootstrap_i := 0%Z;
     last_bootstrap_time := sim_time s;
     bootstrap_now := bootstrap_now s;
     bootstrap_wait_time := fmul (bootstrap_wait_time s) (fdiv (cRa s) nRa);
     bootstrap_steps := bootstrap_steps s |}.

Lemma py_div_nonzero (x y : F) :
  feqb y (of_Z 0) = false -> py_div x y = Ok (fdiv x y).
Proof. intros H. unfold py_div. now rewrite H. Qed.

Lemma py_div_ok (x y q : F) :
  py_div x y = Ok q -> feqb y (of_Z 0) = false /\ q = fdiv x y.
Proof.
  unfold py_div. destruct (feqb y (of_Z 0)); intros H.
  - discriminate.
  - now inversion H.
Qed.

Lemma apply_bootstrap_defined (s : state) (nRa nQ : F) :
  step_defined s nRa nQ ->
  apply_bootstrap P s
  = (Ok tt, after_bootstrap s nRa nQ, [LogInfo "bootstrapping Ra, Q"]).
Proof.
  intros (Hsel & HRa & HQ & HnRa).
  unfold apply_bootstrap, bind, gets, lift, modify, emit, ret.
  rewrite Hsel. cbn.
  repeat (rewrite !py_div_nonzero by assumption; cbn).
  reflexivity.
Qed.

Lemma apply_bootstrap_returns (s s' : state) (l : list event) :
  apply_bootstrap P s = (Ok tt, s', l) ->
  exists nRa nQ, step_defined s nRa nQ /\ s' = after_bootstrap s nRa nQ.
Proof.
  destruct (select_step P (cRa s) (cQ s)) as [[nRa nQ]|e] eqn:Hsel.
  2:{ unfold apply_bootstrap, bind, gets, lift, modify, emit, ret, raise.
      rewrite Hsel. cbn. intros E. discriminate E. }
  destruct (py_div nRa (cRa s)) as [k|e1] eqn:H1;
    destruct (py_div nQ (cQ s)) as [kq|e2] eqn:H2;
    destruct (py_div (cRa s) nRa) as [c|e3] eqn:H3;
    destruct (py_div (Pr P) nRa) as [t|e4] eqn:H4;
    unfold apply_bootstrap, bind, gets, lift, modify, emit, ret, raise;
    rewrite Hsel; repeat (cbn; rewrite ?H1, ?H2, ?H3, ?H4);
    intros E; try discriminate E.
  apply py_div_ok in H1, H2, H3, H4.
  destruct H1 as [HRa ->], H2 as [HQ ->], H3 as [HnRa ->], H4 as [_ ->].
  inversion E; subst.
  exists nRa, nQ. split; [|reflexivity].
  repeat split; assumption.
Qed.

(** Whatever its outcome, a step writes neither the counter nor the
    request flag. *)
Lemma apply_bootstrap_counter (s s' : state) (r : result unit) (l : list event) :
  apply_bootstrap P s = (r, s', l) ->
  bootstrap_steps s' = bootstrap_steps s /\
  bootstrap_now s' = bootstrap_now s.
Proof.
  destruct (select_step P (cRa s) (cQ s)) as [[nRa nQ]|e] eqn:Hsel.
  2:{ unfold apply_bootstrap, bind, gets, lift, modify, emit, ret, raise.
      rewrite Hsel. cbn. intros E. now inversion E. }
  destruct (py_div nRa (cRa s)) as [k|e1] eqn:H1;
    destruct (py_div nQ (cQ s)) as [kq|e2] eqn:H2;
    destruct (py_div (cRa s) nRa) as [c|e3] eqn:H3;
    destruct (py_div (Pr P) nRa) as [t|e4] eqn:H4;
    unfold apply_bootstrap, bind, gets, lift, modify, emit, ret, raise;
    rewrite Hsel; repeat (cbn; rewrite ?H1, ?H2, ?H3, ?H4);
    intros E; now inversion E.
Qed.

(** ** One pass through the loop in closed form *)

Definition sampling o : bool :=
  ((o_iteration o - start_iter P) mod 10 =? 0)%Z.

(** The Reynolds-number average after the pass [o], from the one before. *)
Definition Re_seen (o : obs) (re : F) : F :=
  if sampling o then o_Re o else re.

(** The state [advance] leaves when the solver step returns. *)
Definition advanced (o : obs) (s : state) : state :=
  let s1 := stepped o (set_dt (o_dt o) s) in
  if sampling o then set_Re_avg (o_Re o) s1 else s1.

Definition advance_log (o : obs) : list event :=
  SolverStep (o_dt o)
  :: (if threeD P && ((o_iteration o - start_iter P) mod 100 =? 0)%Z
      then [RequireGridSpace] else [])
  ++ (if sampling o then [LogInfo "Iteration"] else []).

Lemma advance_returns (o : obs) (s : state) :
  o_step o = None ->
  advance P o s = (Ok tt, advanced o s, advance_log o).
Proof.
  intros Hstep.
  unfold advance, advanced, advance_log, sampling, framework, bind, gets,
    modify, emit, ret.
  rewrite Hstep. cbn.
  destruct (threeD P && ((o_iteration o - start_iter P) mod 100 =? 0)%Z);
    destruct ((o_iteration o - start_iter P) mod 10 =? 0)%Z; reflexivity.
Qed.

Lemma advance_raises (o : obs) (s : state) (tag : nat) :
  o_step o = Some tag ->
  advance P o s
  = (Raise (FrameworkError tag), set_dt (o_dt o) s, [SolverStep (o_dt o)]).
Proof.
  intros Hstep.
  unfold advance, framework, bind, gets, modify, emit, ret, raise.
  rewrite Hstep. reflexivity.
Qed.

(** The state lines 531-534 leave. *)
Definition triggered (s : state) : state :=
  if fltb (Re_avg s) (of_Z 1) then set_last_bootstrap_time (sim_time s) s
  else if fltb (bootstrap_wait_time s)
               (fsub (sim_time s) (last_bootstrap_time s))
       then set_bootstrap_now true s
       else s.

Lemma bootstrap_trigger_eq (s : state) :
  bootstrap_trigger s = (Ok tt, triggered s, []).
Proof.
  unfold bootstrap_trigger, triggered, bind, gets, modify, ret. cbn.
  destruct (fltb (Re_avg s) (of_Z 1)); [reflexivity|].
  destruct (fltb (bootstrap_wait_time s)
                 (fsub (sim_time s) (last_bootstrap_time s))); reflexivity.
Qed.

(** The state in which a granted step starts: the request is cleared and
    the counter advanced (lines 542-543). *)
Definition granted s : state :=
  set_bootstrap_steps (bootstrap_steps s + 1)%Z (set_bootstrap_now false s).

Lemma bootstrap_controller_eq (s : state) :
  bootstrap_controller P s
  = if bootstrap_now (triggered s) then
      if (bootstrap_steps (triggered s) =? max_bootstrap_steps P)%Z then
        (Ok Break, triggered s, [LogInfo "Finished bootstrap run"])
      else
        match apply_bootstrap P (granted (triggered s)) with
        | (Ok _, s', l) => (Ok Continue, s', l)
        | (Raise e, s', l) => (Raise e, s', l)
        end
    else (Ok Continue, triggered s, []).
Proof.
  unfold bootstrap_controller, bind. rewrite bootstrap_trigger_eq.
  unfold gets, modify, emit, ret. cbn.
  destruct (bootstrap_now (triggered s)); [|reflexivity].
  destruct (bootstrap_steps (triggered s) =? max_bootstrap_steps P)%Z;
    [reflexivity|].
  unfold granted.
  destruct (apply_bootstrap P _) as [[[[]|e] s'] l]; cbn;
    rewrite ?app_nil_r; reflexivity.
Qed.

Lemma bind_run {X Y} (m : M X) (f : X -> M Y) s :
  bind m f s
  = match m s with
    | (Ok x, s1, l1) =>
        match f x s1 with
        | (r, s2, l2) => (r, s2, l1 ++ l2)
        end
    | (Raise e, s1, l1) => (Raise e, s1, l1)
    end.
Proof. reflexivity. Qed.

(** One pass of the bootstrap loop that is entered. *)
Lemma bootstrap_loop_cons o tr s :
  bootstrap_loop P (o :: tr) s
  = if loop_test o s then
      match advance P o s with
      | (Ok _, s1, l1) =>
          match bootstrap_controller P s1 with
          | (Ok Continue, s2, l2) =>
              match bootstrap_loop P tr s2 with
              | (r, s3, l3) => (r, s3, l1 ++ l2 ++ l3)
              end
          | (Ok Break, s2, l2) => (Ok Broke, s2, l1 ++ l2)
          | (Raise e, s2, l2) => (Raise e, s2, l1 ++ l2)
          end
      | (Raise e, s1, l1) => (Raise e, s1, l1)
      end
    else (Ok TestFailed, s, []).
Proof.
  cbn [bootstrap_loop]. rewrite bind_run. unfold gets at 1. cbv beta iota.
  destruct (loop_test o s); [|reflexivity].
  rewrite bind_run.
  destruct (advance P o s) as [[[[]|e] s1] l1]; [|reflexivity].
  rewrite bind_run.
  destruct (bootstrap_controller P s1) as [[[[|]|e] s2] l2]; cbn [app].
  - destruct (bootstrap_loop P tr s2) as [[r s3] l3]. reflexivity.
  - unfold ret. rewrite app_nil_r. reflexivity.
  - reflexivity.
Qed.

Lemma forces_loop_cons o tr s :
  forces_loop P (o :: tr) s
  = if loop_test o s then
      match advance P o s with
      | (Ok _, s1, l1) =>
          match forces_loop P tr s1 with
          | (r, s2, l2) => (r, s2, l1 ++ l2)
          end
      | (Raise e, s1, l1) => (Raise e, s1, l1)
      end
    else (Ok TestFailed, s, []).
Proof.
  cbn [forces_loop]. rewrite bind_run. unfold gets at 1. cbv beta iota.
  destruct (loop_test o s); [|reflexivity].
  rewrite bind_run.
  destruct (advance P o s) as [[[[]|e] s1] l1]; [|reflexivity].
  destruct (forces_loop P tr s1) as [[r s2] l2]. reflexivity.
Qed.

(** ** The firing pass *)

(** A step fires in the controller pass that starts in [s]: the request is
    pending after lines 531-534 and the counter is not at its maximum. *)
Definition fires s : Prop :=
  bootstrap_now (triggered s) = true /\
  bootstrap_steps (triggered s) <> max_bootstrap_steps P.

Lemma triggered_keeps s :
  cRa (triggered s) = cRa s /\ cQ (triggered s) = cQ s /\
  bootstrap_steps (triggered s) = bootstrap_steps s /\
  bootstrap_wait_time (triggered s) = bootstrap_wait_time s /\
  max_dt (triggered s) = max_dt s /\
  sim_time (triggered s) = sim_time s /\
  u (triggered s) = u s /\ v (triggered s) = v s /\ w (triggered s) = w s /\
  bootstrap_force_balances (triggered s) = bootstrap_force_balances s /\
  rolled (triggered s) = rolled s.
Proof.
  unfold triggered.
  destruct (fltb (Re_avg s) (of_Z 1));
    [|destruct (fltb (bootstrap_wait_time s)
                     (fsub (sim_time s) (last_bootstrap_time s)))];
    cbn; repeat split; reflexivity.
Qed.

Lemma step_defined_granted s nRa nQ :
  step_defined s nRa nQ -> step_defined (granted (triggered s)) nRa nQ.
Proof.
  unfold step_defined. cbn.
  destruct (triggered_keeps s) as (-> & -> & _). tauto.
Qed.

Lemma fires_controller s nRa nQ :
  fires s ->
  step_defined s nRa nQ ->
  bootstrap_controller P s
  = (Ok Continue, after_bootstrap (granted (triggered s)) nRa nQ,
     [LogInfo "bootstrapping Ra, Q"]).
Proof.
  intros [Hnow Hmax] Hdef.
  rewrite bootstrap_controller_eq, Hnow.
  apply Z.eqb_neq in Hmax. rewrite Hmax.
  now rewrite (apply_bootstrap_defined (step_defined_granted Hdef)).
Qed.

(** The velocity fields across a firing pass: [u] and [w] are multiplied
    by [sqrt(nRa/cRa)], and [v] is not written. *)
Lemma fires_velocities s nRa nQ :
  fires s ->
  step_defined s nRa nQ ->
  exists s' l,
    bootstrap_controller P s = (Ok Continue, s', l) /\
    u s' = scale (fsqrt (fdiv nRa (cRa s))) (u s) /\
    w s' = scale (fsqrt (fdiv nRa (cRa s))) (w s) /\
    v s' = v s.
Proof.
  intros Hf Hdef. eexists _, _. split; [exact (fires_controller Hf Hdef)|].
  cbn. destruct (triggered_keeps s) as (-> & _ & _ & _ & _ & _ & -> & -> & -> & _).
  repeat split; reflexivity.
Qed.

(** C5.  In every controller pass in which a step fires, from the
    Rayleigh number [cRa s] to [nRa], the wait time and [max_dt] are each
    multiplied by [cRa s / nRa], and the new [max_dt] is the one installed
    in the CFL helper. *)
Theorem bootstrap_rescales_wait_time_and_max_dt s nRa nQ :
  fires s ->
  step_defined s nRa nQ ->
  exists s' l,
    bootstrap_controller P s = (Ok Continue, s', l) /\
    cRa s' = nRa /\
    bootstrap_wait_time s'
    = fmul (bootstrap_wait_time s) (fdiv (cRa s) nRa) /\
    max_dt s' = fmul (max_dt s) (fdiv (cRa s) nRa) /\
    cfl_max_dt (CFL s') = max_dt s'.
Proof.
  intros Hf Hdef. eexists _, _. split; [exact (fires_controller Hf Hdef)|].
  cbn. destruct (triggered_keeps s) as (-> & _ & _ & -> & -> & _).
  repeat split; reflexivity.
Qed.

(** C8.  With both path exponents zero the test [bootstrap_β == 0] is the
    one that answers: the new pair is computed as in the pure-Ra branch,
    the only exceptions are those of the power itself, and a firing pass
    advances Ra by [10 ** logStep] and keeps Q. *)
Theorem both_exponents_zero_take_the_Ra_branch s :
  feqb (bootstrap_α P) (of_Z 0) = true ->
  feqb (bootstrap_β P) (of_Z 0) = true ->
  select_step P (cRa s) (cQ s)
  = rbind (fpow (of_Z 10) (bootstrap_logStep P))
          (fun p => Ok (fmul (cRa s) p, cQ s)) /\
  forall p,
    fpow (of_Z 10) (bootstrap_logStep P) = Ok p ->
    fires s ->
    feqb (cRa s) (of_Z 0) = false ->
    feqb (cQ s) (of_Z 0) = false ->
    feqb (fmul (cRa s) p) (of_Z 0) = false ->
    exists s' l,
      bootstrap_controller P s = (Ok Continue, s', l) /\
      cRa s' = fmul (cRa s) p /\ cQ s' = cQ s.
Proof.
  intros _ Hβ.
  assert (Hsel : select_step P (cRa s) (cQ s)
                 = rbind (fpow (of_Z 10) (bootstrap_logStep P))
                         (fun p => Ok (fmul (cRa s) p, cQ s))).
  { unfold select_step. now rewrite Hβ. }
  split; [exact Hsel|].
  intros p Hp Hf HRa HQ HnRa.
  assert (Hdef : step_defined s (fmul (cRa s) p) (cQ s)).
  { unfold step_defined. rewrite Hsel, Hp. cbn. auto. }
  eexists _, _. split; [exact (fires_controller Hf Hdef)|].
  split; reflexivity.
Qed.

(** ** Runs over several passes *)

Lemma bootstrap_loop_app tr tr' s s1 l1 :
  bootstrap_loop P tr s = (Ok Running, s1, l1) ->
  bootstrap_loop P (tr ++ tr') s
  = match bootstrap_loop P tr' s1 with
    | (r, s2, l2) => (r, s2, l1 ++ l2)
    end.
Proof.
  revert s s1 l1. induction tr as [|o tr IH]; intros s s1 l1.
  - cbn. unfold ret. intros E. inversion E; subst.
    destruct (bootstrap_loop P tr' s1) as [[r s2] l2]. reflexivity.
  - rewrite <- app_comm_cons, !bootstrap_loop_cons.
    destruct (loop_test o s); [|intros E; discriminate E].
    destruct (advance P o s) as [[[[]|e] sa] la]; [|intros E; discriminate E].
    destruct (bootstrap_controller P sa) as [[[[|]|e] sc] lc];
      try (intros E; discriminate E).
    destruct (bootstrap_loop P tr sc) as [[r s3] l3] eqn:Htr.
    intros E. inversion E; subst.
    rewrite (IH _ _ _ Htr).
    destruct (bootstrap_loop P tr' s1) as [[r2 s2] l2].
    now rewrite !app_assoc.
Qed.

Lemma advanced_projections o s :
  Re_avg (advanced o s) = Re_seen o (Re_avg s) /\
  sim_time (advanced o s) = o_sim_time o /\
  u (advanced o s) = o_u o /\ v (advanced o s) = o_v o /\
  w (advanced o s) = o_w o /\
  cRa (advanced o s) = cRa s /\ cQ (advanced o s) = cQ s /\
  bootstrap_steps (advanced o s) = bootstrap_steps s /\
  bootstrap_now (advanced o s) = bootstrap_now s /\
  bootstrap_wait_time (advanced o s) = bootstrap_wait_time s /\
  last_bootstrap_time (advanced o s) = last_bootstrap_time s /\
  max_dt (advanced o s) = max_dt s /\
  bootstrap_force_balances (advanced o s) = bootstrap_force_balances s /\
  rolled (advanced o s) = rolled s.
Proof.
  unfold advanced, Re_seen. destruct (sampling o); cbn;
    repeat split; reflexivity.
Qed.

(** The variables of the controller that only a step writes. *)
Definition same_step s s1 : Prop :=
  cRa s1 = cRa s /\ cQ s1 = cQ s /\
  bootstrap_steps s1 = bootstrap_steps s /\
  bootstrap_wait_time s1 = bootstrap_wait_time s /\
  max_dt s1 = max_dt s /\
  bootstrap_force_balances s1 = bootstrap_force_balances s /\
  rolled s1 = rolled s.

Lemma same_step_refl s : same_step s s.
Proof. repeat split. Qed.

Lemma same_step_trans s s1 s2 :
  same_step s s1 -> same_step s1 s2 -> same_step s s2.
Proof.
  unfold same_step.
  intros (-> & -> & -> & -> & -> & -> & ->) (-> & -> & -> & -> & -> & -> & ->).
  repeat split.
Qed.

Lemma same_step_pass o s :
  same_step s (triggered (advanced o s)).
Proof.
  destruct (triggered_keeps (advanced o s))
    as (H1 & H2 & H3 & H4 & H5 & _ & _ & _ & _ & H6 & H7).
  destruct (advanced_projections o s)
    as (_ & _ & _ & _ & _ & G1 & G2 & G3 & _ & G4 & _ & G5 & G6 & G7).
  unfold same_step. rewrite H1, H2, H3, H4, H5, H6, H7.
  repeat split; assumption.
Qed.

(** A pass in which the flow is slow: the marker follows the clock. *)
Lemma slow_pass o tr s :
  bootstrap_now s = false ->
  loop_test o s = true ->
  o_step o = None ->
  fltb (Re_seen o (Re_avg s)) (of_Z 1) = true ->
  let s1 := triggered (advanced o s) in
  bootstrap_loop P (o :: tr) s
  = match bootstrap_loop P tr s1 with
    | (r, s2, l2) => (r, s2, advance_log o ++ l2)
    end /\
  bootstrap_now s1 = false /\
  Re_avg s1 = Re_seen o (Re_avg s) /\
  last_bootstrap_time s1 = o_sim_time o.
Proof.
  intros Hnow Htest Hstep Hlow s1.
  destruct (advanced_projections o s)
    as (HRe & Ht & _ & _ & _ & _ & _ & _ & Hn & _).
  assert (Hs1 : s1 = set_last_bootstrap_time (o_sim_time o) (advanced o s)).
  { unfold s1, triggered. now rewrite HRe, Hlow, Ht. }
  assert (Hn1 : bootstrap_now s1 = false).
  { rewrite Hs1. cbn. now rewrite Hn. }
  repeat split.
  - rewrite bootstrap_loop_cons, Htest, advance_returns by exact Hstep.
    rewrite bootstrap_controller_eq. fold s1. rewrite Hn1.
    destruct (bootstrap_loop P tr s1) as [[r s2] l2]. reflexivity.
  - exact Hn1.
  - rewrite Hs1. cbn. exact HRe.
  - rewrite Hs1. reflexivity.
Qed.

(** A pass in which the flow is fast and the wait time has not passed:
    nothing is written. *)
Lemma waiting_pass o tr s :
  bootstrap_now s = false ->
  loop_test o s = true ->
  o_step o = None ->
  fltb (Re_seen o (Re_avg s)) (of_Z 1) = false ->
  fltb (bootstrap_wait_time s)
       (fsub (o_sim_time o) (last_bootstrap_time s)) = false ->
  let s1 := triggered (advanced o s) in
  bootstrap_loop P (o :: tr) s
  = match bootstrap_loop P tr s1 with
    | (r, s2, l2) => (r, s2, advance_log o ++ l2)
    end /\
  bootstrap_now s1 = false /\
  Re_avg s1 = Re_seen o (Re_avg s) /\
  last_bootstrap_time s1 = last_bootstrap_time s.
Proof.
  intros Hnow Htest Hstep Hfast Hwait s1.
  destruct (advanced_projections o s)
    as (HRe & Ht & _ & _ & _ & _ & _ & _ & Hn & Hw & Hm & _).
  assert (Hs1 : s1 = advanced o s).
  { unfold s1, triggered. now rewrite HRe, Hfast, Ht, Hw, Hm, Hwait. }
  assert (Hn1 : bootstrap_now s1 = false).
  { rewrite Hs1. now rewrite Hn. }
  repeat split.
  - rewrite bootstrap_loop_cons, Htest, advance_returns by exact Hstep.
    rewrite bootstrap_controller_eq. fold s1. rewrite Hn1.
    destruct (bootstrap_loop P tr s1) as [[r s2] l2]. reflexivity.
  - exact Hn1.
  - rewrite Hs1. exact HRe.
  - rewrite Hs1. exact Hm.
Qed.

(** The pass in which the wait time has passed. *)
Lemma firing_pass o s :
  bootstrap_now s = false ->
  fltb (Re_seen o (Re_avg s)) (of_Z 1) = false ->
  fltb (bootstrap_wait_time s)
       (fsub (o_sim_time o) (last_bootstrap_time s)) = true ->
  bootstrap_steps s <> max_bootstrap_steps P ->
  fires (advanced o s).
Proof.
  intros Hnow Hfast Hwait Hmax.
  destruct (advanced_projections o s)
    as (HRe & Ht & _ & _ & _ & _ & _ & Hst & Hn & Hw & Hm & _).
  unfold fires, triggered. rewrite HRe, Hfast, Ht, Hw, Hm, Hwait. cbn.
  split; [reflexivity|]. now rewrite Hst.
Qed.

(** ** The shape of a trace that leads to one step *)

(** The loop is entered for the pass [o] when the average is [re], and
    the solver step of the pass returns. *)
Definition enters o (re : F) : Prop :=
  o_ok o = true /\ isfinite re = true /\ o_step o = None.

(** Every pass of [tr] is entered and sees an average below 1. *)
Fixpoint slow tr (re : F) : Prop :=
  match tr with
  | [] => True
  | o :: tr' =>
      enters o re /\
      fltb (Re_seen o re) (of_Z 1) = true /\
      slow tr' (Re_seen o re)
  end.

(** Every pass of [tr] is entered, sees an average that is not below 1,
    and finds [sim_time - marker > wait] false. *)
Fixpoint waiting tr (re marker wait : F) : Prop :=
  match tr with
  | [] => True
  | o :: tr' =>
      enters o re /\
      fltb (Re_seen o re) (of_Z 1) = false /\
      fltb wait (fsub (o_sim_time o) marker) = false /\
      waiting tr' (Re_seen o re) marker wait
  end.

(** The pass [o] is entered, sees an average that is not below 1, and
    finds [sim_time - marker > wait] true. *)
Definition exceeds o (re marker wait : F) : Prop :=
  enters o re /\
  fltb (Re_seen o re) (of_Z 1) = false /\
  fltb wait (fsub (o_sim_time o) marker) = true.

(** The average after the passes of [tr]. *)
Fixpoint Re_after tr (re : F) : F :=
  match tr with
  | [] => re
  | o :: tr' => Re_after tr' (Re_seen o re)
  end.

(** The clock after the passes of [tr]. *)
Fixpoint clock_after tr (t : F) : F :=
  match tr with
  | [] => t
  | o :: tr' => clock_after tr' (o_sim_time o)
  end.

(** Multiplying by zero gives zero: so it is for a zero, by [fmul_0_0]. *)
Definition zeroable (x : F) : Prop := fmul x (of_Z 0) = of_Z 0.

Definition all_zero (a : list (list F)) : Prop :=
  Forall (Forall (fun x => x = of_Z 0)) a.

Lemma all_zero_zeroable (a : list (list F)) :
  all_zero a -> Forall (Forall zeroable) a.
Proof.
  unfold all_zero. intros H.
  eapply Forall_impl; [|exact H]. intros row Hrow.
  eapply Forall_impl; [|exact Hrow]. intros x ->. apply fmul_0_0.
Qed.

Lemma reset_all_zero (a : list (list F)) :
  Forall (Forall zeroable) a -> all_zero (map (scale (of_Z 0)) a).
Proof.
  unfold all_zero. induction 1 as [|row a Hrow _ IH]; cbn; constructor;
    [|exact IH].
  induction Hrow as [|x row Hx _ IHrow]; cbn; constructor; assumption.
Qed.

Lemma enters_loop_test o s :
  enters o (Re_avg s) -> loop_test o s = true /\ o_step o = None.
Proof.
  intros (Hok & Hfin & Hstep). unfold loop_test. now rewrite Hok, Hfin.
Qed.

Lemma slow_run tr s :
  bootstrap_now s = false ->
  slow tr (Re_avg s) ->
  exists s1 l1,
    bootstrap_loop P tr s = (Ok Running, s1, l1) /\
    bootstrap_now s1 = false /\
    Re_avg s1 = Re_after tr (Re_avg s) /\
    last_bootstrap_time s1 = clock_after tr (last_bootstrap_time s) /\
    same_step s s1.
Proof.
  revert s. induction tr as [|o tr IH]; intros s Hnow Hslow.
  - exists s, []. cbn. conj; try reflexivity; [exact Hnow|apply same_step_refl].
  - destruct Hslow as (Hent & Hlow & Hrest).
    destruct (enters_loop_test s Hent) as [Htest Hstep].
    destruct (slow_pass o tr s Hnow Htest Hstep Hlow) as (Heq & Hn1 & HRe & Hm).
    rewrite <- HRe in Hrest.
    destruct (IH _ Hn1 Hrest) as (s2 & l2 & Hrun & Hn2 & HRe2 & Hm2 & Hsame).
    exists s2, (advance_log o ++ l2).
    rewrite Heq, Hrun. conj.
    + reflexivity.
    + exact Hn2.
    + cbn. now rewrite HRe2, HRe.
    + cbn. now rewrite Hm2, Hm.
    + eapply same_step_trans; [apply same_step_pass|exact Hsame].
Qed.

Lemma waiting_run tr s :
  bootstrap_now s = false ->
  waiting tr (Re_avg s) (last_bootstrap_time s) (bootstrap_wait_time s) ->
  exists s1 l1,
    bootstrap_loop P tr s = (Ok Running, s1, l1) /\
    bootstrap_now s1 = false /\
    Re_avg s1 = Re_after tr (Re_avg s) /\
    last_bootstrap_time s1 = last_bootstrap_time s /\
    same_step s s1.
Proof.
  revert s. induction tr as [|o tr IH]; intros s Hnow Hwait.
  - exists s, []. cbn. conj; try reflexivity; [exact Hnow|apply same_step_refl].
  - destruct Hwait as (Hent & Hfast & Hw & Hrest).
    destruct (enters_loop_test s Hent) as [Htest Hstep].
    destruct (waiting_pass o tr s Hnow Htest Hstep Hfast Hw)
      as (Heq & Hn1 & HRe & Hm).
    pose proof (same_step_pass o s) as Hsame1.
    assert (Hw1 : bootstrap_wait_time (triggered (advanced o s))
                  = bootstrap_wait_time s) by apply Hsame1.
    rewrite <- HRe, <- Hm, <- Hw1 in Hrest.
    destruct (IH _ Hn1 Hrest) as (s2 & l2 & Hrun & Hn2 & HRe2 & Hm2 & Hsame).
    exists s2, (advance_log o ++ l2).
    rewrite Heq, Hrun. conj.
    + reflexivity.
    + exact Hn2.
    + cbn. now rewrite HRe2, HRe.
    + now rewrite Hm2, Hm.
    + eapply same_step_trans; [exact Hsame1|exact Hsame].
Qed.

Lemma clock_after_last tr o (t : F) :
  clock_after (tr ++ [o]) t = o_sim_time o.
Proof.
  revert t. induction tr as [|o' tr IH]; intros t; cbn; [reflexivity|].
  apply IH.
Qed.

Lemma Re_after_app tr tr' (re : F) :
  Re_after (tr ++ tr') re = Re_after tr' (Re_after tr re).
Proof.
  revert re. induction tr as [|o tr IH]; intros re; cbn; [reflexivity|].
  apply IH.
Qed.

Lemma step_defined_same s s1 nRa nQ :
  cRa s1 = cRa s -> cQ s1 = cQ s ->
  step_defined s nRa nQ -> step_defined s1 nRa nQ.
Proof. unfold step_defined. intros -> ->. tauto. Qed.

(** The pass that finds the wait time exceeded, from a state with no
    request pending. *)
Lemma exceeding_pass o s nRa nQ :
  bootstrap_now s = false ->
  bootstrap_steps s <> max_bootstrap_steps P ->
  exceeds o (Re_avg s) (last_bootstrap_time s) (bootstrap_wait_time s) ->
  step_defined s nRa nQ ->
  bootstrap_loop P [o] s
  = (Ok Running,
     after_bootstrap (granted (triggered (advanced o s))) nRa nQ,
     advance_log o ++ [LogInfo "bootstrapping Ra, Q"]).
Proof.
  intros Hnow Hmax (Hent & Hfast & Hwait) Hdef.
  destruct (enters_loop_test s Hent) as [Htest Hstep].
  destruct (advanced_projections o s)
    as (_ & _ & _ & _ & _ & HRa & HQ & _).
  pose proof (firing_pass o s Hnow Hfast Hwait Hmax) as Hf.
  pose proof (step_defined_same (advanced o s) HRa HQ Hdef) as Hdef'.
  rewrite bootstrap_loop_cons, Htest, advance_returns by exact Hstep.
  rewrite (fires_controller Hf Hdef'). cbn [bootstrap_loop]. unfold ret.
  rewrite app_nil_r. reflexivity.
Qed.

(** C2.  From a state with no request pending and the counter below its
    maximum, let the average stay below 1 over the passes [lows ++ [l]]
    (each resets the marker to the clock, the last one to the clock of
    [l]), then stay at or above 1 over the passes [highs] without
    [sim_time - marker > wait] becoming true, and let [o] be the first pass
    that finds it true.  Then no step fires before [o], exactly one fires
    at [o]; it leaves the marker at the clock of [o], no request pending,
    and the accumulators at zero. *)
Theorem step_fires_once_after_wait s lows l highs o nRa nQ :
  bootstrap_now s = false ->
  bootstrap_steps s <> max_bootstrap_steps P ->
  slow (lows ++ [l]) (Re_avg s) ->
  waiting highs (Re_after (lows ++ [l]) (Re_avg s))
          (o_sim_time l) (bootstrap_wait_time s) ->
  exceeds o (Re_after (lows ++ l :: highs) (Re_avg s))
          (o_sim_time l) (bootstrap_wait_time s) ->
  step_defined s nRa nQ ->
  Forall (Forall zeroable) (bootstrap_force_balances s) ->
  Forall (Forall zeroable) (rolled s) ->
  exists s1 l1 s2 l2,
    bootstrap_loop P (lows ++ l :: highs) s = (Ok Running, s1, l1) /\
    bootstrap_steps s1 = bootstrap_steps s /\
    last_bootstrap_time s1 = o_sim_time l /\
    bootstrap_loop P (lows ++ l :: highs ++ [o]) s
    = (Ok Running, s2, l1 ++ l2) /\
    bootstrap_steps s2 = (bootstrap_steps s + 1)%Z /\
    last_bootstrap_time s2 = o_sim_time o /\
    sim_time s2 = o_sim_time o /\
    bootstrap_now s2 = false /\
    bootstrap_i s2 = 0%Z /\
    all_zero (bootstrap_force_balances s2) /\
    all_zero (rolled s2).
Proof.
  intros Hnow Hmax Hslow Hwait Hex Hdef Hbfb Hrolled.
  destruct (slow_run (lows ++ [l]) s Hnow Hslow)
    as (sa & la & Hruna & Hna & HRea & Hma & Hsa).
  rewrite clock_after_last in Hma.
  assert (Hwa : bootstrap_wait_time sa = bootstrap_wait_time s) by apply Hsa.
  rewrite <- HRea, <- Hma, <- Hwa in Hwait.
  destruct (waiting_run highs sa Hna Hwait)
    as (s1 & lb & Hrunb & Hn1 & HRe1 & Hm1 & Hs1).
  pose proof (same_step_trans Hsa Hs1) as Hsame.
  destruct Hsame as (HRa & HQ & Hst & Hw & _ & Hb & Hr).
  assert (Hrun1 : bootstrap_loop P (lows ++ l :: highs) s
                  = (Ok Running, s1, la ++ lb)).
  { change (l :: highs) with ([l] ++ highs). rewrite app_assoc.
    rewrite (bootstrap_loop_app _ highs _ Hruna), Hrunb. reflexivity. }
  assert (Hex1 : exceeds o (Re_avg s1) (last_bootstrap_time s1)
                         (bootstrap_wait_time s1)).
  { rewrite HRe1, HRea, Hm1, Hma, Hw, <- Re_after_app.
    change ((lows ++ [l]) ++ highs) with ((lows ++ [l]) ++ highs).
    rewrite <- app_assoc. exact Hex. }
  assert (Hmax1 : bootstrap_steps s1 <> max_bootstrap_steps P)
    by now rewrite Hst.
  pose proof (exceeding_pass Hn1 Hmax1 Hex1
                (step_defined_same s1 HRa HQ Hdef)) as Hfire.
  eexists s1, (la ++ lb), _, _. conj.
  - exact Hrun1.
  - exact Hst.
  - now rewrite Hm1, Hma.
  - rewrite app_comm_cons, app_assoc.
    rewrite (bootstrap_loop_app _ [o] _ Hrun1), Hfire. reflexivity.
  - cbn. destruct (triggered_keeps (advanced o s1)) as (_ & _ & -> & _).
    destruct (advanced_projections o s1) as (_ & _ & _ & _ & _ & _ & _ & -> & _).
    now rewrite Hst.
  - cbn. destruct (triggered_keeps (advanced o s1))
      as (_ & _ & _ & _ & _ & -> & _).
    apply advanced_projections.
  - cbn. destruct (triggered_keeps (advanced o s1))
      as (_ & _ & _ & _ & _ & -> & _).
    apply advanced_projections.
  - reflexivity.
  - reflexivity.
  - cbn. apply reset_all_zero.
    destruct (triggered_keeps (advanced o s1))
      as (_ & _ & _ & _ & _ & _ & _ & _ & _ & -> & _).
    destruct (advanced_projections o s1)
      as (_ & _ & _ & _ & _ & _ & _ & _ & _ & _ & _ & _ & -> & _).
    now rewrite Hb.
  - cbn. apply reset_all_zero.
    destruct (triggered_keeps (advanced o s1))
      as (_ & _ & _ & _ & _ & _ & _ & _ & _ & _ & ->).
    destruct (advanced_projections o s1)
      as (_ & _ & _ & _ & _ & _ & _ & _ & _ & _ & _ & _ & _ & ->).
    now rewrite Hr.
Qed.

(** ** The step counter *)

Lemma advance_keeps o s r s1 l :
  advance P o s = (r, s1, l) ->
  cRa s1 = cRa s /\ cQ s1 = cQ s /\ bootstrap_steps s1 = bootstrap_steps s.
Proof.
  destruct (o_step o) as [tag|] eqn:Hstep.
  - rewrite advance_raises with (tag := tag) by exact Hstep.
    intros E. now inversion E.
  - rewrite advance_returns by exact Hstep.
    intros E. inversion E.
    destruct (advanced_projections o s)
      as (_ & _ & _ & _ & _ & Ka & Kb & Kc & _).
    auto.
Qed.

Lemma advance_counter o s r s1 l :
  advance P o s = (r, s1, l) -> bootstrap_steps s1 = bootstrap_steps s.
Proof.
  destruct (o_step o) as [tag|] eqn:Hstep.
  - rewrite advance_raises with (tag := tag) by exact Hstep.
    intros E. now inversion E.
  - rewrite advance_returns by exact Hstep.
    intros E. inversion E. apply advanced_projections.
Qed.

Lemma controller_counter s r s' l :
  bootstrap_controller P s = (r, s', l) ->
  (bootstrap_steps s <= max_bootstrap_steps P)%Z ->
  (bootstrap_steps s' <= max_bootstrap_steps P)%Z /\
  (r = Ok Break ->
   bootstrap_now (triggered s) = true /\
   bootstrap_steps s = max_bootstrap_steps P /\ s' = triggered s) /\
  (bootstrap_now (triggered s) = true ->
   bootstrap_steps s = max_bootstrap_steps P -> r = Ok Break).
Proof.
  rewrite bootstrap_controller_eq.
  destruct (triggered_keeps s) as (_ & _ & Hst & _).
  destruct (bootstrap_now (triggered s)).
  - rewrite Hst.
    destruct (bootstrap_steps s =? max_bootstrap_steps P)%Z eqn:Hmax.
    + apply Z.eqb_eq in Hmax. intros E Hle. inversion E; subst.
      rewrite Hst. conj; auto.
    + apply Z.eqb_neq in Hmax.
      destruct (apply_bootstrap P (granted (triggered s)))
        as [[ra sa] la] eqn:Happ.
      destruct (apply_bootstrap_counter _ Happ) as [Hc _].
      cbn in Hc. rewrite Hst in Hc.
      destruct ra as [[]|e]; intros E Hle; inversion E; subst; conj;
        try lia; try (intros D; discriminate D); intros _ D; contradiction.
  - intros E Hle. inversion E; subst. rewrite Hst. conj.
    + exact Hle.
    + intros D. discriminate D.
    + intros D. discriminate D.
Qed.

Lemma loop_counter tr s r s' l :
  bootstrap_loop P tr s = (r, s', l) ->
  (bootstrap_steps s <= max_bootstrap_steps P)%Z ->
  (bootstrap_steps s' <= max_bootstrap_steps P)%Z /\
  (r = Ok Broke ->
   bootstrap_steps s' = max_bootstrap_steps P /\ bootstrap_now s' = true).
Proof.
  revert s r s' l. induction tr as [|o tr IH]; intros s r s' l.
  - cbn. unfold ret. intros E Hle. inversion E; subst. split; [exact Hle|].
    intros D. discriminate D.
  - rewrite bootstrap_loop_cons.
    destruct (loop_test o s).
    2:{ intros E Hle. inversion E; subst. split; [exact Hle|].
        intros D. discriminate D. }
    destruct (advance P o s) as [[ra sa] la] eqn:Hadv.
    pose proof (advance_counter _ _ Hadv) as Ha.
    destruct ra as [[]|e].
    2:{ intros E Hle. inversion E; subst. split; [lia|].
        intros D. discriminate D. }
    destruct (bootstrap_controller P sa) as [[rc sc] lc] eqn:Hc.
    intros E Hle.
    assert (Hle' : (bootstrap_steps sa <= max_bootstrap_steps P)%Z) by lia.
    destruct (controller_counter _ Hc Hle') as (Hb & Hbrk & _).
    destruct rc as [[|]|e].
    + destruct (bootstrap_loop P tr sc) as [[r3 s3] l3] eqn:Htr.
      inversion E; subst. exact (IH _ _ _ _ Htr Hb).
    + inversion E; subst. split; [exact Hb|]. intros _.
      destruct (Hbrk eq_refl) as (Hn & Hm & ->).
      destruct (triggered_keeps sa) as (_ & _ & -> & _). auto.
    + inversion E; subst. split; [exact Hb|]. intros D. discriminate D.
Qed.

(** C6.  From a state whose counter is at most the configured maximum,
    the counter stays at most the maximum through every run of the main
    loop, however it ends.  A controller pass answers [break] exactly when
    the request is pending with the counter at the maximum, and then it
    has written nothing but what lines 531-534 write: no parameter is
    incremented. *)
Theorem bootstrap_counter_never_exceeds_maximum s :
  (bootstrap_steps s <= max_bootstrap_steps P)%Z ->
  (forall tr r s' l,
      bootstrap_loop P tr s = (r, s', l) ->
      (bootstrap_steps s' <= max_bootstrap_steps P)%Z /\
      (r = Ok Broke ->
       bootstrap_steps s' = max_bootstrap_steps P /\
       bootstrap_now s' = true)) /\
  (forall r s' l,
      bootstrap_controller P s = (r, s', l) ->
      (r = Ok Break <->
       bootstrap_now (triggered s) = true /\
       bootstrap_steps s = max_bootstrap_steps P) /\
      (r = Ok Break ->
       s' = triggered s /\ cRa s' = cRa s /\ cQ s' = cQ s /\
       u s' = u s /\ w s' = w s /\
       bootstrap_steps s' = bootstrap_steps s)).
Proof.
  intros Hle. split.
  - intros tr r s' l Hrun. exact (loop_counter _ _ Hrun Hle).
  - intros r s' l Hc.
    destruct (controller_counter _ Hc Hle) as (_ & Hbrk & Hconv).
    split; [split|].
    + intros D. destruct (Hbrk D) as (Hn & Hm & _). auto.
    + intros [Hn Hm]. auto.
    + intros D. destruct (Hbrk D) as (_ & _ & ->).
      destruct (triggered_keeps s) as (H1 & H2 & H3 & _ & _ & _ & H4 & _ & H5 & _).
      auto 10.
Qed.

(** ** The pure-Ra path *)

(** The Rayleigh number after [n] steps of the path that holds Q: [n]
    products with the power [p = 10 ** logStep], each one rounded as the
    arithmetic rounds. *)
Definition Ra_stepped (p Ra0 : F) (n : nat) : F :=
  Nat.iter n (fun r => fmul r p) Ra0.

(** ** The [try] statements *)

(** An [except] clause that starts with [raise] is no handler at all:
    what follows the [raise] never runs. *)
Lemma try_except_reraise {X} (body : M X) (after : M X) s :
  try_except body (fun e => bind (raise e : M unit) (fun _ => after)) s
  = body s.
Proof.
  unfold try_except, bind, raise.
  destruct (body s) as [[[x|e] s1] l1]; [reflexivity|].
  now rewrite app_nil_r.
Qed.

Lemma guarded_eq (loop : M exit) fo s :
  guarded P loop fo s
  = try_finally (bind loop (fun _ => ret tt)) (finish P fo) s.
Proof.
  unfold guarded, try_finally. now rewrite try_except_reraise.
Qed.

Lemma finish_eq fo s :
  finish P fo s
  = bind run_statistics
         (fun _ => try_finally (final_checkpoint fo) (join_files P fo)) s.
Proof.
  unfold finish. rewrite !bind_run.
  destruct (run_statistics s) as [[[[]|e] s1] l1]; [|reflexivity].
  unfold try_finally. now rewrite try_except_reraise.
Qed.

(** ** Events that a computation never emits *)

(** The number of events of [l] that [p] selects. *)
Definition occurrences (p : @event F -> bool) (l : list (@event F)) : nat :=
  List.length (filter p l).

Lemma occurrences_app p (l l' : list (@event F)) :
  occurrences p (l ++ l') = (occurrences p l + occurrences p l')%nat.
Proof. unfold occurrences. now rewrite filter_app, List.length_app. Qed.

(** [m] emits no event that [p] selects, in whatever state it starts. *)
Definition never (p : @event F -> bool) {X} (m : M X) : Prop :=
  forall s, occurrences p (snd (m s)) = 0%nat.

Section Never.

Variable p : @event F -> bool.

Lemma never_ret {X} (x : X) : never p (ret x).
Proof. intros s. reflexivity. Qed.

Lemma never_raise {X} (e : exn) : never p (raise e : M X).
Proof. intros s. reflexivity. Qed.

Lemma never_gets {X} (f : state -> X) : never p (gets f).
Proof. intros s. reflexivity. Qed.

Lemma never_modify (f : state -> state) : never p (modify f).
Proof. intros s. reflexivity. Qed.

Lemma never_lift {X} (r : result X) : never p (lift r).
Proof. destruct r; intros s; reflexivity. Qed.

Lemma never_emit (ev : @event F) : p ev = false -> never p (emit ev).
Proof. intros Hev s. unfold emit, occurrences. cbn. now rewrite Hev. Qed.

Lemma never_bind {X Y} (m : M X) (f : X -> M Y) :
  never p m -> (forall x, never p (f x)) -> never p (bind m f).
Proof.
  intros Hm Hf s. rewrite bind_run. specialize (Hm s).
  destruct (m s) as [[[x|e] s1] l1]; cbn [snd] in *; [|exact Hm].
  specialize (Hf x s1). destruct (f x s1) as [[r s2] l2]. cbn [snd] in *.
  rewrite occurrences_app. lia.
Qed.

Lemma never_framework (ev : @event F) outcome :
  p ev = false -> never p (framework ev outcome).
Proof.
  intros Hev. unfold framework.
  apply never_bind; [now apply never_emit|intros _].
  destruct outcome; [apply never_raise|apply never_ret].
Qed.

Lemma never_try_finally {X} (body : M X) (fin : M unit) :
  never p body -> never p fin -> never p (try_finally body fin).
Proof.
  intros Hb Hf s. unfold try_finally. specialize (Hb s).
  destruct (body s) as [[r s1] l1]. specialize (Hf s1).
  destruct (fin s1) as [[[[]|e] s2] l2]; cbn [snd] in *;
    rewrite occurrences_app; lia.
Qed.

End Never.

Definition is_solver_step (ev : @event F) : bool :=
  match ev with
  | SolverStep _ => true
  | _ => false
  end.

(** The number of calls of [solver.step] in a log. *)
Definition solver_steps : list (@event F) -> nat :=
  occurrences is_solver_step.

(** The events through which the scripts would report a failure:
    [logger.error] and [print]. *)
Definition is_report (ev : @event F) : bool :=
  match ev with
  | LogError _ | Print _ => true
  | _ => false
  end.

Lemma never_run_statistics p :
  (forall msg, p (LogInfo msg) = false) -> never p (run_statistics (F := F)).
Proof.
  intros Hp. unfold run_statistics.
  repeat (apply never_bind; [apply never_emit, Hp|intros _]).
  apply never_emit, Hp.
Qed.

Lemma never_join_files p fo :
  (forall msg, p (LogInfo msg) = false) ->
  (forall path, p (MergeAnalysis path) = false) ->
  never p (join_files P fo).
Proof.
  intros Hinfo Hmerge. unfold join_files.
  apply never_bind;
    [|intros _; apply never_bind;
      [apply never_emit, Hinfo|intros _; now apply never_run_statistics]].
  destruct (no_join P); [apply never_ret|].
  apply never_bind; [apply never_emit, Hinfo|intros _].
  apply never_bind; [apply never_framework, Hmerge|intros _].
  induction (f_tasks fo) as [|task tasks IH]; cbn [fold_right];
    [apply never_ret|].
  apply never_bind; [apply never_emit, Hinfo|intros _].
  apply never_bind; [apply never_framework, Hmerge|intros _; exact IH].
Qed.

(** The wind-up calls [solver.step] once, unless the final checkpoint
    cannot be set up. *)
Lemma finish_solver_steps fo s :
  solver_steps (snd (finish P fo s))
  = match f_set_checkpoint fo with
    | None => 1%nat
    | Some _ => 0%nat
    end.
Proof.
  rewrite finish_eq, bind_run.
  change (run_statistics s)
    with (Ok tt, s, [LogInfo "Iterations"; LogInfo "Sim end time";
                     LogInfo "Run time (sec)"; LogInfo "Run time (cpu-hr)";
                     LogInfo "iter/sec"] : list (@event F)).
  cbv beta iota. unfold try_finally.
  destruct (final_checkpoint fo s) as [[rc sc] lc] eqn:Hfc.
  assert (Hj : never is_solver_step (join_files P fo))
    by (apply never_join_files; reflexivity).
  specialize (Hj sc). fold solver_steps in Hj.
  assert (Hc : solver_steps lc
               = match f_set_checkpoint fo with
                 | None => 1%nat
                 | Some _ => 0%nat
                 end).
  { revert Hfc. unfold final_checkpoint, framework, bind, gets, emit, raise, ret.
    destruct (f_set_checkpoint fo), (f_step fo), (f_merge fo); cbn;
      intros E; inversion E; reflexivity. }
  unfold solver_steps in *.
  destruct (join_files P fo sc) as [[[[]|e] sj] lj]; cbn [snd] in *;
    rewrite !occurrences_app, Hj, Hc;
    destruct (f_set_checkpoint fo); reflexivity.
Qed.

Lemma forces_loop_app tr tr' s s1 l1 :
  forces_loop P tr s = (Ok Running, s1, l1) ->
  forces_loop P (tr ++ tr') s
  = match forces_loop P tr' s1 with
    | (r, s2, l2) => (r, s2, l1 ++ l2)
    end.
Proof.
  revert s s1 l1. induction tr as [|o tr IH]; intros s s1 l1.
  - cbn. unfold ret. intros E. inversion E; subst.
    destruct (forces_loop P tr' s1) as [[r s2] l2]. reflexivity.
  - rewrite <- app_comm_cons, !forces_loop_cons.
    destruct (loop_test o s); [|intros E; discriminate E].
    destruct (advance P o s) as [[[[]|e] sa] la]; [|intros E; discriminate E].
    destruct (forces_loop P tr sa) as [[r s3] l3] eqn:Htr.
    intros E. inversion E; subst.
    rewrite (IH _ _ _ Htr).
    destruct (forces_loop P tr' s1) as [[r2 s2] l2].
    now rewrite !app_assoc.
Qed.

(** A run whose loop ends at its test is wound up, and the wind-up calls
    [solver.step] once, unless the final checkpoint cannot be set up. *)
Lemma wound_up (loop : list obs -> M exit) tr fo s0 s l :
  loop tr s0 = (Ok TestFailed, s, l) ->
  exists r s' l',
    run_of P loop tr fo s0 = Some (r, s', l ++ l') /\
    solver_steps l'
    = match f_set_checkpoint fo with
      | None => 1%nat
      | Some _ => 0%nat
      end.
Proof.
  intros Hloop.
  pose proof (finish_solver_steps fo s) as Hsteps.
  unfold run_of. rewrite Hloop, guarded_eq. unfold try_finally.
  rewrite bind_run, Hloop. unfold ret. cbv beta iota.
  rewrite app_nil_r.
  destruct (finish P fo s) as [[[[]|e] s'] l']; cbn [snd] in Hsteps;
    eexists _, _, _; split; try reflexivity; exact Hsteps.
Qed.

(** C7, as the scripts have it.  Let the main loop of either script have
    come, over the passes [tr], to a state whose average is not finite.
    Then whatever the framework would answer next, and whatever the state
    of the bootstrap controller, the loop ends at the loop test that
    follows, with nothing added to its log: no further pass, no further
    time step of the loop.  The run is then wound up, and the one call of
    [solver.step] that follows is the one made for the final checkpoint
    (none if that checkpoint cannot be set up). *)
Theorem nonfinite_average_ends_main_loop tr o tr' s0 s l fo :
  isfinite (Re_avg s) = false ->
  (bootstrap_loop P tr s0 = (Ok Running, s, l) ->
   bootstrap_loop P (tr ++ o :: tr') s0 = (Ok TestFailed, s, l) /\
   exists r s' l',
     bootstrap_mhd_rbc P (tr ++ o :: tr') fo s0 = Some (r, s', l ++ l') /\
     solver_steps l'
     = match f_set_checkpoint fo with
       | None => 1%nat
       | Some _ => 0%nat
       end) /\
  (forces_loop P tr s0 = (Ok Running, s, l) ->
   forces_loop P (tr ++ o :: tr') s0 = (Ok TestFailed, s, l) /\
   exists r s' l',
     forces_mhd_rayleigh_benard P (tr ++ o :: tr') fo s0
     = Some (r, s', l ++ l') /\
     solver_steps l'
     = match f_set_checkpoint fo with
       | None => 1%nat
       | Some _ => 0%nat
       end).
Proof.
  intros Hfin.
  assert (Htest : loop_test o s = false).
  { unfold loop_test. rewrite Hfin. apply andb_false_r. }
  split; intros Hrun.
  - assert (Hend : bootstrap_loop P (tr ++ o :: tr') s0 = (Ok TestFailed, s, l)).
    { rewrite (bootstrap_loop_app _ (o :: tr') _ Hrun).
      rewrite bootstrap_loop_cons, Htest. now rewrite app_nil_r. }
    split; [exact Hend|]. exact (wound_up _ _ fo _ Hend).
  - assert (Hend : forces_loop P (tr ++ o :: tr') s0 = (Ok TestFailed, s, l)).
    { rewrite (forces_loop_app _ (o :: tr') _ Hrun).
      rewrite forces_loop_cons, Htest. now rewrite app_nil_r. }
    split; [exact Hend|]. exact (wound_up _ _ fo _ Hend).
Qed.

(** ** What the scripts report *)

Section Reports.

Variable p : @event F -> bool.
Hypothesis p_step : forall d, p (SolverStep d) = false.
Hypothesis p_grid : p RequireGridSpace = false.
Hypothesis p_info : forall msg, p (LogInfo msg) = false.

Lemma never_advance o : never p (advance P o).
Proof.
  unfold advance.
  apply never_bind; [apply never_modify|intros _].
  apply never_bind; [apply never_framework, p_step|intros _].
  apply never_bind; [apply never_modify|intros _].
  apply never_bind; [apply never_gets|intros effective_iter].
  apply never_bind.
  - destruct (threeD P && (effective_iter mod 100 =? 0)%Z);
      [now apply never_emit|apply never_ret].
  - intros _. destruct (effective_iter mod 10 =? 0)%Z; [|apply never_ret].
    apply never_bind; [apply never_modify|intros _; apply never_emit, p_info].
Qed.

Lemma never_apply_bootstrap : never p (apply_bootstrap P).
Proof.
  unfold apply_bootstrap.
  repeat first
    [ apply never_modify | apply never_gets | apply never_lift
    | apply never_emit, p_info
    | apply never_bind; [|intros ?] ].
Qed.

Lemma never_bootstrap_controller : never p (bootstrap_controller P).
Proof.
  unfold bootstrap_controller.
  apply never_bind.
  { intros s. now rewrite bootstrap_trigger_eq. }
  intros _. apply never_bind; [apply never_gets|intros now].
  destruct now; [|apply never_ret].
  apply never_bind; [apply never_gets|intros steps].
  destruct (steps =? max_bootstrap_steps P)%Z.
  - apply never_bind; [apply never_emit, p_info|intros _; apply never_ret].
  - apply never_bind; [apply never_modify|intros _].
    apply never_bind; [apply never_modify|intros _].
    apply never_bind; [apply never_apply_bootstrap|intros _; apply never_ret].
Qed.

Lemma never_bootstrap_loop tr : never p (bootstrap_loop P tr).
Proof.
  induction tr as [|o tr IH]; cbn [bootstrap_loop]; [apply never_ret|].
  apply never_bind; [apply never_gets|intros go].
  destruct go; [|apply never_ret].
  apply never_bind; [apply never_advance|intros _].
  apply never_bind; [apply never_bootstrap_controller|intros c].
  destruct c; [exact IH|apply never_ret].
Qed.

Lemma never_forces_loop tr : never p (forces_loop P tr).
Proof.
  induction tr as [|o tr IH]; cbn [forces_loop]; [apply never_ret|].
  apply never_bind; [apply never_gets|intros go].
  destruct go; [|apply never_ret].
  apply never_bind; [apply never_advance|intros _; exact IH].
Qed.

Hypothesis p_checkpoint : forall name, p (SetCheckpoint name) = false.
Hypothesis p_merge : p MergeProcessFiles = false.
Hypothesis p_analysis : forall path, p (MergeAnalysis path) = false.

Lemma never_finish fo : never p (finish P fo).
Proof.
  intros s. rewrite finish_eq. revert s.
  apply never_bind; [now apply never_run_statistics|intros _].
  apply never_try_finally; [|now apply never_join_files].
  unfold final_checkpoint.
  apply never_bind; [apply never_framework, p_checkpoint|intros _].
  apply never_bind; [apply never_gets|intros d].
  apply never_bind; [apply never_framework, p_step|intros _].
  apply never_framework, p_merge.
Qed.

Lemma never_guarded (loop : M exit) fo :
  never p loop -> never p (guarded P loop fo).
Proof.
  intros Hloop s. rewrite guarded_eq. revert s.
  apply never_try_finally; [|apply never_finish].
  apply never_bind; [exact Hloop|intros _; apply never_ret].
Qed.

End Reports.

(** In no run does either script log an error or print anything: the
    statements after the [raise] of the two [except] clauses are dead. *)
Lemma scripts_report_nothing tr fo s r s' l :
  bootstrap_mhd_rbc P tr fo s = Some (r, s', l) \/
  forces_mhd_rayleigh_benard P tr fo s = Some (r, s', l) ->
  occurrences is_report l = 0%nat.
Proof.
  unfold bootstrap_mhd_rbc, forces_mhd_rayleigh_benard, run_of.
  intros [H|H].
  - assert (Hn : never is_report (guarded P (bootstrap_loop P tr) fo))
      by (apply never_guarded; try reflexivity;
          apply never_bootstrap_loop; reflexivity).
    specialize (Hn s).
    destruct (bootstrap_loop P tr s) as [[[[| |]|e] sl] ll];
      try discriminate H; inversion H as [E]; rewrite E in Hn; exact Hn.
  - assert (Hn : never is_report (guarded P (forces_loop P tr) fo))
      by (apply never_guarded; try reflexivity;
          apply never_forces_loop; reflexivity).
    specialize (Hn s).
    destruct (forces_loop P tr s) as [[[[| |]|e] sl] ll];
      try discriminate H; inversion H as [E]; rewrite E in Hn; exact Hn.
Qed.

(** An exception that leaves the main loop leaves the script too, after
    the wind-up, and nothing is emitted between the loop and the wind-up. *)
Lemma loop_exception_propagates (loop : M exit) fo s e s1 l1 :
  loop s = (Raise e, s1, l1) ->
  guarded P loop fo s
  = match finish P fo s1 with
    | (Ok _, s2, l2) => (Raise e, s2, l1 ++ l2)
    | (Raise e', s2, l2) => (Raise e', s2, l1 ++ l2)
    end.
Proof.
  intros Hloop. rewrite guarded_eq. unfold try_finally.
  rewrite bind_run, Hloop. reflexivity.
Qed.

End Properties.

(** ** The option [--factor] *)

Lemma lookup_setitem_other (k k' : string) (x : pyval)
      (args : list (string * pyval)) :
  k <> k' -> lookup k (setitem k' x args) = lookup k args.
Proof.
  intros Hne. induction args as [|[k0 y] args IH]; cbn; [reflexivity|].
  destruct (String.eqb k' k0) eqn:H0; cbn.
  - apply String.eqb_eq in H0. subst k0.
    apply String.eqb_neq in Hne. now rewrite Hne.
  - destruct (String.eqb k k0); [reflexivity|exact IH].
Qed.

Lemma merge_item_factor (n : string) (x : pyval) (keys : list string)
      (args : list (string * pyval)) :
  n <> "factor"%string ->
  lookup "--factor" (merge_item n x keys args) = lookup "--factor" args.
Proof.
  intros Hn. revert x args.
  induction keys as [|k keys IH]; intros x args; cbn [merge_item];
    [reflexivity|].
  destruct (String.eqb (lower (last_segment EmptyString k)) n) eqn:Hk.
  - rewrite IH. apply lookup_setitem_other.
    intros <-. apply String.eqb_eq in Hk. apply Hn. now rewrite <- Hk.
  - apply IH.
Qed.

Lemma merge_config_factor (config : option (list (string * string)))
      (args : list (string * pyval)) :
  (forall items, config = Some items ->
                 Forall (fun nv => fst nv <> "factor"%string) items) ->
  lookup "--factor" (merge_config config args) = lookup "--factor" args.
Proof.
  destruct config as [items|]; [|reflexivity].
  intros H. specialize (H items eq_refl). cbn [merge_config].
  revert args. induction H as [|nv items Hnv _ IH]; intros args; cbn;
    [reflexivity|].
  rewrite IH. now apply merge_item_factor.
Qed.

Section SetupProperties.

Context {F : Type} {A : Arith F}.
Variable float_of_string : string -> option F.
Variable int_of_string : string -> option Z.
Variable fraction_of_string : string -> result F.

(** C10.  When [--factor] is given neither on the command line ([docopt]
    then leaves [None]) nor by an item [factor] of the configuration file,
    the script ends in an exception before the [try] statement of the main
    loop is entered: the run has no event of the loop or of the wind-up,
    and the solver takes no step.  The exception is the [TypeError] of
    [float(None)] on line 400 whenever the options read before that line
    convert; otherwise it is the exception of the first that does not.
    The configuration file is taken as read, and the calls into [logic]
    and the framework that the setup makes as returning. *)
Theorem missing_factor_raises_TypeError
        (args : list (string * pyval))
        (config : option (list (string * string)))
        (io : init_obs F) (tr : list obs) (fo : final_obs) :
  lookup "--factor" args = Some PNone ->
  (forall items, config = Some items ->
                 Forall (fun nv => fst nv <> "factor"%string) items) ->
  program float_of_string int_of_string fraction_of_string
          args config io tr fo
  = Some (Raise (match options_before_max_dt
                         float_of_string int_of_string
                         (merge_config config args) with
                 | Ok _ => TypeError
                 | Raise e => e
                 end), []).
Proof.
  intros Hcli Hconfig.
  pose proof (merge_config_factor args Hconfig) as Hmerged.
  rewrite Hcli in Hmerged.
  unfold program, setup, read_options, getitem at 1.
  destruct (options_before_max_dt float_of_string int_of_string
              (merge_config config args)) as [before|e]; cbn [rbind].
  - unfold getitem at 1. rewrite Hmerged. reflexivity.
  - reflexivity.
Qed.

End SetupProperties.

(** * The power law of the two-exponent path, over the reals *)

Module ExactRun.

Import Exact.
Local Open Scope R_scope.
#[local] Existing Instance exact.

Lemma Rltb_true (x y : R) : x < y -> Rltb x y = true.
Proof. intros H. unfold Rltb. destruct (Rlt_dec x y); [reflexivity|lra]. Qed.

Lemma Reqb_false (x y : R) : x <> y -> Reqb x y = false.
Proof. intros H. unfold Reqb. destruct (Req_dec_T x y); [lra|reflexivity]. Qed.

Lemma Reqb_eq (x y : R) : Reqb x y = true <-> x = y.
Proof.
  unfold Reqb. destruct (Req_dec_T x y); split; intros H;
    try reflexivity; try assumption; try discriminate H; contradiction.
Qed.

(** A positive base has every power. *)
Lemma Rpow_positive (x y : R) : 0 < x -> Rpow x y = Ok (Rpower x y).
Proof.
  intros Hx. unfold Rpow.
  destruct (Reqb y 0) eqn:Hy.
  - apply Reqb_eq in Hy. subst y. now rewrite Rpower_O.
  - now rewrite Rltb_true.
Qed.

Lemma Rpower_positive (x y : R) : 0 < Rpower x y.
Proof. unfold Rpower. apply exp_pos. Qed.

(** Across a step from [(Ra, Q)] to [(Ra', Q')], [Q] is in proportion to
    [Ra ** e]. *)
Definition on_power_law (e Ra Q Ra' Q' : R) : Prop :=
  Q' / Rpower Ra' e = Q / Rpower Ra e.

(** The new pair when both exponents count. *)
Lemma select_step_both_nonzero (P : @params R) (Ra Q : R) :
  bootstrap_α P <> 0 ->
  bootstrap_β P <> 0 ->
  select_step (A := exact) P Ra Q
  = Ok (Ra * Rpower 10 (bootstrap_logStep P),
        Q / Rpower (Rpower 10 (bootstrap_logStep P))
                   (bootstrap_α P / bootstrap_β P)).
Proof.
  intros Hα Hβ. unfold select_step, py_div.
  cbn [feqb fpow fmul fdiv of_Z exact].
  rewrite !Reqb_false by assumption.
  rewrite Rpow_positive by lra. cbn [rbind].
  rewrite Rpow_positive by apply Rpower_positive. cbn [rbind].
  rewrite Reqb_false; [reflexivity|].
  pose proof (Rpower_positive (Rpower 10 (bootstrap_logStep P))
                              (bootstrap_α P / bootstrap_β P)).
  lra.
Qed.

(** The path on which Ra and Q both step by [10 ** 1] with α = β = 1. *)
Definition unit_path : @params R :=
  {| threeD := false; Pr := 1;
     bootstrap_α := 1; bootstrap_β := 1; bootstrap_logStep := 1;
     max_bootstrap_steps := 12; start_iter := 0; no_join := false |}.

(** With α = β = 1 and [logStep = 1], the step from [(1, 1)] leads to
    [(10, 1/10)]: Q falls while Ra grows, so Q is not in proportion to
    [Ra ** (α/β)]. *)
Lemma step_leaves_direct_power_law :
  select_step (A := exact) unit_path 1 1 = Ok (10, / 10) /\
  ~ on_power_law (bootstrap_α unit_path / bootstrap_β unit_path)
      1 1 10 (/ 10).
Proof.
  assert (H : (1 : R) <> 0) by lra.
  assert (H10 : Rpower 10 1 = 10) by (apply Rpower_1; lra).
  assert (H1 : Rpower 1 1 = 1) by (apply Rpower_1; lra).
  split.
  - rewrite (select_step_both_nonzero unit_path 1 1 H H).
    cbn [bootstrap_logStep bootstrap_α bootstrap_β unit_path].
    replace (1 / 1) with 1 by lra. rewrite !H10.
    f_equal. f_equal; lra.
  - unfold on_power_law.
    cbn [bootstrap_α bootstrap_β unit_path].
    replace (1 / 1) with 1 by lra. rewrite H10, H1. lra.
Qed.

End ExactRun.

(** * Worked runs at binary64 *)

Module Runs.

Import PrimFloat.
#[local] Existing Instance Binary64.example.

(** A 2.5D run that steps Ra alone by one decade: [--alp=1 --β=0
    --logStep=1], with [Pr = 1] and the default [--Nboots=12]. *)
Definition decade : @params float :=
  {| threeD := false; Pr := 1%float;
     bootstrap_α := 1%float; bootstrap_β := 0%float;
     bootstrap_logStep := 1%float;
     max_bootstrap_steps := 12; start_iter := 0; no_join := false |}.

(** The same path in 3D. *)
Definition decade_3D : @params float :=
  {| threeD := true; Pr := 1%float;
     bootstrap_α := 1%float; bootstrap_β := 0%float;
     bootstrap_logStep := 1%float;
     max_bootstrap_steps := 12; start_iter := 0; no_join := false |}.

(** Both exponents zero: [--alp=0 --β=0]. *)
Definition no_path : @params float :=
  {| threeD := false; Pr := 1%float;
     bootstrap_α := 0%float; bootstrap_β := 0%float;
     bootstrap_logStep := 1%float;
     max_bootstrap_steps := 12; start_iter := 0; no_join := false |}.

(** The variables at the first loop test of a run with [Ra = 1e5],
    [Q = 1], [--factor=1], on a grid of two points; the accumulators are
    cut down to two rows. *)
Definition start (v0 : option (list float)) (names : list string) : @state float :=
  let t := sqrt (1 / 100000)%float in
  let m := (0.5 * Binary64.b64_min t (1 / 1))%float in
  {| sim_time := 0%float; iteration := 0;
     u := [0%float; 0%float]; v := v0; w := [0%float; 0%float];
     Ra_fd := [100000%float; 100000%float]; Q_fd := [1%float; 1%float];
     cRa := 100000%float; cQ := 1%float;
     t_buoy := t; max_dt := m; dt := m;
     CFL := {| cfl_max_dt := m; cfl_velocities := [names] |};
     Re_avg := 0%float;
     bootstrap_force_balances := repeat (repeat 0%float 4) 2;
     rolled := repeat (repeat 0%float 4) 2;
     bootstrap_i := 0;
     last_bootstrap_time := 0%float;
     bootstrap_now := false;
     bootstrap_wait_time := (20 * t)%float;
     bootstrap_steps := 0 |}.

Definition start_2D : @state float := start None ["u"; "w"]%string.
Definition start_3D : @state float :=
  start (Some [0%float; 0%float]) ["u"; "v"; "w"]%string.

(** A pass that the solver completes at iteration [i] and clock [t], with
    unit velocities and the average [Re]. *)
Definition pass (i : Z) (t Re : float) (v1 : option (list float)) : @obs float :=
  {| o_ok := true; o_dt := 0.0009765625%float; o_step := None;
     o_sim_time := t; o_iteration := i;
     o_u := [1%float; 2%float]; o_v := v1; o_w := [3%float; 4%float];
     o_Re := Re |}.

(** The wait time of [start] is [20 * sqrt(1e-5)], about 0.0632.  The
    average is 0.5 at iteration 10 (clock 1/64), 2 at iteration 20 (clock
    1/16, about 0.047 after the marker) and 2 at iteration 30 (clock 3/32,
    about 0.078 after the marker). *)
Definition slow_pass_10 : @obs float := pass 10 0.015625%float 0.5%float None.
Definition fast_pass_20 : @obs float := pass 20 0.0625%float 2%float None.
Definition fast_pass_30 : @obs float := pass 30 0.09375%float 2%float None.

(** The state in which the controller is entered at iteration 30. *)
Definition at_30 : @state float :=
  advanced decade fast_pass_30
    (triggered (advanced decade fast_pass_20
       (triggered (advanced decade slow_pass_10 start_2D)))).

(** A pass in which the average comes out as NaN. *)
Definition blow_up : @obs float := pass 10 0.015625%float nan None.

(** A pass in which [solver.step] raises. *)
Definition failing_step : @obs float :=
  {| o_ok := true; o_dt := 0.0009765625%float; o_step := Some 7%nat;
     o_sim_time := 0.015625%float; o_iteration := 1;
     o_u := [1%float; 2%float]; o_v := None; o_w := [3%float; 4%float];
     o_Re := 2%float |}.

(** A wind-up in which every call returns, and one in which the final
    checkpoint cannot be set up. *)
Definition smooth : final_obs :=
  {| f_set_checkpoint := None; f_step := None; f_merge := None;
     f_join := None; f_tasks := [("scalar"%string, None)] |}.

Definition no_checkpoint : final_obs :=
  {| f_set_checkpoint := Some 3%nat; f_step := None; f_merge := None;
     f_join := None; f_tasks := [("scalar"%string, None)] |}.

(** The state after the pass [blow_up] from [start_2D]. *)
Definition after_blow_up : @state float :=
  triggered (advanced decade blow_up start_2D).

(** The state in which the controller is entered at iteration 30 of a 3D
    run whose [v] is not zero. *)
Definition at_30_3D : @state float :=
  advanced decade_3D
    (pass 30 0.09375%float 2%float (Some [5%float; 6%float]))
    (set_last_bootstrap_time 0.015625%float start_3D).

(** [float(str)], [int(str)] and [float(Fraction(str))] on the strings of
    the usage text. *)
Definition known {X} (table : list (string * X)) (k : string) : option X :=
  match find (fun kv => String.eqb k (fst kv)) table with
  | Some kv => Some (snd kv)
  | None => None
  end.

Definition known_floats : string -> option float :=
  known [("1e5", 100000%float); ("1", 1%float); ("2", 2%float);
         ("23.5", 23.5%float); ("0.75", 0.75%float); ("100", 100%float);
         ("1e6", 1000000%float)]%string.

Definition known_ints : string -> option Z :=
  known [("128", 128%Z); ("256", 256%Z); ("42", 42%Z); ("12", 12%Z)]%string.

Definition known_fractions (k : string) : result float :=
  match known [("1", Ok 1%float); ("0", Ok 0%float); ("1/4", Ok 0.25%float);
               ("1/0", Raise ZeroDivisionError);
               ("1e400", Raise OverflowError)]%string k with
  | Some r => r
  | None => Raise ValueError
  end.

(** What [docopt] returns for [bootstrap_mhd_rbc.py --safety=0.75]: the
    defaults of the usage text, and [None] or [False] for what has none. *)
Definition command_line : list (string * pyval) :=
  [("<config>", PNone); ("--Ra", PStr "1e5"); ("--Pr", PStr "1");
   ("--Q", PStr "1"); ("--Pm", PStr "1"); ("--a", PStr "2");
   ("--3D", PBool false); ("--nz", PStr "128"); ("--nx", PStr "256");
   ("--ny", PStr "256"); ("--FF", PBool false); ("--FT", PBool false);
   ("--FS", PBool false); ("--MI", PBool false); ("--mesh", PNone);
   ("--run_time_wall", PStr "23.5"); ("--restart", PNone);
   ("--overwrite", PBool false); ("--seed", PStr "42"); ("--label", PNone);
   ("--verbose", PBool false); ("--no_join", PBool false);
   ("--root_dir", PStr "./"); ("--safety", PStr "0.75");
   ("--noise_modes", PNone); ("--alp", PStr "1"); ("--β", PStr "0");
   ("--logStep", PStr "1/4"); ("--Nboots", PStr "12");
   ("--boot_time", PStr "100"); ("--SBDF2", PBool false);
   ("--SBDF4", PBool false); ("--factor", PNone)]%string.

Definition fresh : init_obs float :=
  {| i_sim_time := 0%float; i_iteration := 0;
     i_u := [0%float; 0%float]; i_v := None; i_w := [0%float; 0%float];
     i_grid := 2; i_restart_dt := None |}.

Lemma fires_at_30 : fires decade at_30.
Proof. vm_compute. split; [reflexivity|intros H; discriminate H]. Defined.

Lemma step_defined_at_30 :
  step_defined decade at_30 1000000%float 1%float.
Proof. vm_compute. repeat split. Defined.

Lemma bootstrap_rescales_wait_time_and_max_dt_witness :
  fires decade at_30 /\
  step_defined decade at_30 1000000%float 1%float /\
  exists s' l,
    bootstrap_controller decade at_30 = (Ok Continue, s', l) /\
    cRa s' = 1000000%float /\
    bootstrap_wait_time s'
    = (bootstrap_wait_time at_30 * (100000 / 1000000))%float /\
    max_dt s' = (max_dt at_30 * (100000 / 1000000))%float /\
    cfl_max_dt (CFL s') = max_dt s'.
Proof.
  split; [exact fires_at_30|]. split; [exact step_defined_at_30|].
  exact (@bootstrap_rescales_wait_time_and_max_dt
           float Binary64.example decade at_30 _ _
           fires_at_30 step_defined_at_30).
Defined.

Lemma step_fires_once_after_wait_witness :
  slow decade ([] ++ [slow_pass_10]) (Re_avg start_2D) /\
  waiting decade [fast_pass_20]
          (Re_after decade ([] ++ [slow_pass_10]) (Re_avg start_2D))
          (o_sim_time slow_pass_10) (bootstrap_wait_time start_2D) /\
  exceeds decade fast_pass_30
          (Re_after decade ([] ++ slow_pass_10 :: [fast_pass_20])
                    (Re_avg start_2D))
          (o_sim_time slow_pass_10) (bootstrap_wait_time start_2D) /\
  exists s2 l2,
    bootstrap_loop decade [slow_pass_10; fast_pass_20; fast_pass_30] start_2D
    = (Ok Running, s2, l2) /\
    bootstrap_steps s2 = 1%Z /\
    last_bootstrap_time s2 = 0.09375%float /\
    all_zero (bootstrap_force_balances s2).
Proof.
  assert (H1 : slow decade ([] ++ [slow_pass_10]) (Re_avg start_2D))
    by (vm_compute; repeat split).
  assert (H2 : waiting decade [fast_pass_20]
                 (Re_after decade ([] ++ [slow_pass_10]) (Re_avg start_2D))
                 (o_sim_time slow_pass_10) (bootstrap_wait_time start_2D))
    by (vm_compute; repeat split).
  assert (H3 : exceeds decade fast_pass_30
                 (Re_after decade ([] ++ slow_pass_10 :: [fast_pass_20])
                           (Re_avg start_2D))
                 (o_sim_time slow_pass_10) (bootstrap_wait_time start_2D))
    by (vm_compute; repeat split).
  assert (H4 : step_defined decade start_2D 1000000%float 1%float)
    by (vm_compute; repeat split).
  assert (H5 : bootstrap_steps start_2D <> max_bootstrap_steps decade)
    by (intros H; discriminate H).
  assert (H6 : Forall (Forall zeroable) (bootstrap_force_balances start_2D))
    by (repeat constructor).
  assert (H7 : Forall (Forall zeroable) (rolled start_2D))
    by (repeat constructor).
  conj; [exact H1|exact H2|exact H3|].
  destruct (@step_fires_once_after_wait
              float Binary64.example decade start_2D
              [] slow_pass_10 [fast_pass_20] fast_pass_30 _ _
              eq_refl H5 H1 H2 H3 H4 H6 H7)
    as (s1 & l1 & s2 & l2 & _ & _ & _ & Hrun & Hsteps & Hmark & _ & _ & _
        & Hzero & _).
  exists s2, (l1 ++ l2). conj.
  - exact Hrun.
  - exact Hsteps.
  - exact Hmark.
  - exact Hzero.
Defined.

Lemma bootstrap_counter_never_exceeds_maximum_witness :
  (bootstrap_steps start_2D <= max_bootstrap_steps decade)%Z /\
  forall tr r s' l,
    bootstrap_loop decade tr start_2D = (r, s', l) ->
    (bootstrap_steps s' <= 12)%Z.
Proof.
  assert (H : (bootstrap_steps start_2D <= max_bootstrap_steps decade)%Z)
    by (intros C; discriminate C).
  split; [exact H|].
  intros tr r s' l Hrun.
  exact (proj1 (proj1 (bootstrap_counter_never_exceeds_maximum
                         decade start_2D H) tr r s' l Hrun)).
Defined.

Lemma nonfinite_average_ends_main_loop_witness :
  isfinite (Re_avg after_blow_up) = false /\
  bootstrap_loop decade [blow_up] start_2D
  = (Ok Running, after_blow_up,
     [SolverStep 0.0009765625%float; LogInfo "Iteration"]) /\
  forces_loop decade [blow_up] start_2D
  = (Ok Running, after_blow_up,
     [SolverStep 0.0009765625%float; LogInfo "Iteration"]) /\
  bootstrap_loop decade ([blow_up] ++ fast_pass_20 :: [fast_pass_30]) start_2D
  = (Ok TestFailed, after_blow_up,
     [SolverStep 0.0009765625%float; LogInfo "Iteration"]) /\
  forces_loop decade ([blow_up] ++ fast_pass_20 :: [fast_pass_30]) start_2D
  = (Ok TestFailed, after_blow_up,
     [SolverStep 0.0009765625%float; LogInfo "Iteration"]).
Proof.
  assert (H : isfinite (Re_avg after_blow_up) = false) by reflexivity.
  assert (Hb : bootstrap_loop decade [blow_up] start_2D
               = (Ok Running, after_blow_up,
                  [SolverStep 0.0009765625%float; LogInfo "Iteration"]))
    by (vm_compute; reflexivity).
  assert (Hf : forces_loop decade [blow_up] start_2D
               = (Ok Running, after_blow_up,
                  [SolverStep 0.0009765625%float; LogInfo "Iteration"]))
    by (vm_compute; reflexivity).
  destruct (@nonfinite_average_ends_main_loop
              float Binary64.example decade
              [blow_up] fast_pass_20 [fast_pass_30] start_2D after_blow_up
              [SolverStep 0.0009765625%float; LogInfo "Iteration"] smooth H)
    as [Gb Gf].
  conj; [exact H|exact Hb|exact Hf|exact (proj1 (Gb Hb))|exact (proj1 (Gf Hf))].
Defined.

(** The counterexample to C7 as it is worded: the pass [blow_up] leaves a
    NaN average, the next loop test ends the loop, and the wind-up then
    calls [solver.step] once more, for the final checkpoint. *)
Lemma final_checkpoint_steps_after_the_loop :
  bootstrap_loop decade [blow_up] start_2D
  = (Ok Running, after_blow_up,
     [SolverStep 0.0009765625%float; LogInfo "Iteration"]) /\
  isfinite (Re_avg after_blow_up) = false /\
  run_outcome (bootstrap_mhd_rbc decade [blow_up; fast_pass_20] smooth start_2D)
  = Some (Ok tt) /\
  run_log (bootstrap_mhd_rbc decade [blow_up; fast_pass_20] smooth start_2D)
  = [SolverStep 0.0009765625%float; LogInfo "Iteration"]
    ++ [LogInfo "Iterations"; LogInfo "Sim end time";
        LogInfo "Run time (sec)"; LogInfo "Run time (cpu-hr)";
        LogInfo "iter/sec"; SetCheckpoint "final_checkpoint";
        SolverStep 0.0009765625%float; MergeProcessFiles;
        LogInfo "beginning join operation"; MergeAnalysis "checkpoint";
        LogInfo "scalar"; MergeAnalysis "scalar";
        LogInfo "========================================";
        LogInfo "Iterations"; LogInfo "Sim end time";
        LogInfo "Run time (sec)"; LogInfo "Run time (cpu-hr)";
        LogInfo "iter/sec"] /\
  solver_steps
    (run_log (forces_mhd_rayleigh_benard
                decade [blow_up; fast_pass_20] smooth start_2D))
  = 2%nat.
Proof. vm_compute. repeat split. Qed.

Lemma both_exponents_zero_take_the_Ra_branch_witness :
  feqb (bootstrap_α no_path) (of_Z 0) = true /\
  feqb (bootstrap_β no_path) (of_Z 0) = true /\
  select_step no_path (cRa at_30) (cQ at_30)
  = Ok (1000000%float, 1%float).
Proof.
  split; [reflexivity|]. split; [reflexivity|].
  exact (proj1 (both_exponents_zero_take_the_Ra_branch
                  no_path at_30 eq_refl eq_refl)).
Defined.

Lemma missing_factor_raises_TypeError_witness :
  lookup "--factor" command_line = Some PNone /\
  program known_floats known_ints known_fractions
          command_line (Some [("ra", "1e6")]%string) fresh
          [fast_pass_30] smooth
  = Some (Raise TypeError, []).
Proof.
  split; [reflexivity|].
  refine (@missing_factor_raises_TypeError
            float Binary64.example
            known_floats known_ints known_fractions
            command_line (Some [("ra", "1e6")]%string) fresh
            [fast_pass_30] smooth eq_refl _).
  intros items E. inversion E; subst.
  constructor; [|constructor]. intros C. discriminate C.
Defined.

(** C1 at a 3D run.  In the firing pass at iteration 30, with [v] at
    [[5; 6]], the fields [u] and [w] are multiplied by
    [sqrt(1e6 / 1e5)] and [v] is left as it was, where the factor would
    have made it about [[15.81; 18.97]]. *)
Lemma rescale_misses_v_in_3D :
  let k := sqrt (1000000 / 100000)%float in
  fires decade_3D at_30_3D /\
  exists s' l,
    bootstrap_controller decade_3D at_30_3D = (Ok Continue, s', l) /\
    cRa at_30_3D = 100000%float /\ cRa s' = 1000000%float /\
    u s' = scale k (u at_30_3D) /\
    w s' = scale k (w at_30_3D) /\
    v at_30_3D = Some [5%float; 6%float] /\
    v s' = Some [5%float; 6%float] /\
    option_map (scale k) (v at_30_3D)
    = Some [0x1.f9f6e4990f228p+3%float; 0x1.2f9422c23c47ep+4%float].
Proof.
  intros k.
  assert (Hf : fires decade_3D at_30_3D)
    by (vm_compute; split; [reflexivity|intros H; discriminate H]).
  assert (Hd : step_defined decade_3D at_30_3D 1000000%float 1%float)
    by (vm_compute; repeat split).
  split; [exact Hf|].
  exists (after_bootstrap decade_3D (granted (triggered at_30_3D))
                          1000000%float 1%float),
         [LogInfo "bootstrapping Ra, Q"].
  split; [exact (fires_controller Hf Hd)|].
  vm_compute. repeat split.
Qed.

(** C9 at two runs.  When [solver.step] raises in the first pass, the run
    ends with that exception after the wind-up, and when the final
    checkpoint cannot be set up, the run ends with that exception; in
    neither log is there a [logger.error] or a [print]. *)
Lemma exceptions_are_reraised_without_a_report :
  let by_step := bootstrap_mhd_rbc decade [failing_step] smooth start_2D in
  let by_checkpoint :=
    bootstrap_mhd_rbc decade [blow_up; fast_pass_20] no_checkpoint start_2D in
  run_outcome by_step = Some (Raise (FrameworkError 7)) /\
  run_log by_step
  = [SolverStep 0.0009765625%float; LogInfo "Iterations";
     LogInfo "Sim end time"; LogInfo "Run time (sec)";
     LogInfo "Run time (cpu-hr)"; LogInfo "iter/sec";
     SetCheckpoint "final_checkpoint"; SolverStep 0.0009765625%float;
     MergeProcessFiles; LogInfo "beginning join operation";
     MergeAnalysis "checkpoint"; LogInfo "scalar"; MergeAnalysis "scalar";
     LogInfo "========================================";
     LogInfo "Iterations"; LogInfo "Sim end time"; LogInfo "Run time (sec)";
     LogInfo "Run time (cpu-hr)"; LogInfo "iter/sec"] /\
  occurrences is_report (run_log by_step) = 0%nat /\
  run_outcome by_checkpoint = Some (Raise (FrameworkError 3)) /\
  run_log by_checkpoint
  = [SolverStep 0.0009765625%float; LogInfo "Iteration";
     LogInfo "Iterations"; LogInfo "Sim end time"; LogInfo "Run time (sec)";
     LogInfo "Run time (cpu-hr)"; LogInfo "iter/sec";
     SetCheckpoint "final_checkpoint"; LogInfo "beginning join operation";
     MergeAnalysis "checkpoint"; LogInfo "scalar"; MergeAnalysis "scalar";
     LogInfo "========================================";
     LogInfo "Iterations"; LogInfo "Sim end time"; LogInfo "Run time (sec)";
     LogInfo "Run time (cpu-hr)"; LogInfo "iter/sec"] /\
  occurrences is_report (run_log by_checkpoint) = 0%nat.
Proof. vm_compute. repeat split. Qed.

End Runs.

(** * Further properties of the scripts *)

(** ** The configuration file *)

Section Configuration.

(** The option name that an item of the configuration file must carry to
    reach the option [k]. *)
Definition item_name (k : string) : string :=
  lower (last_segment EmptyString k).

(** What line 94 makes of the value [x] of an item. *)
Definition stored (x : pyval) : pyval :=
  match x with
  | PStr "true" => PBool true
  | _ => x
  end.

Lemma stored_stored (x : pyval) : stored (stored x) = stored x.
Proof.
  destruct x as [|s|b]; try reflexivity.
  unfold stored at 2.
  destruct s as [|c1 [|c2 [|c3 [|c4 [|c5 s]]]]]; try reflexivity;
    destruct c1 as [[] [] [] [] [] [] [] []]; try reflexivity;
    destruct c2 as [[] [] [] [] [] [] [] []]; try reflexivity;
    destruct c3 as [[] [] [] [] [] [] [] []]; try reflexivity;
    destruct c4 as [[] [] [] [] [] [] [] []]; reflexivity.
Qed.

Lemma stored_string (v : string) :
  stored (PStr v) = if String.eqb v "true" then PBool true else PStr v.
Proof.
  destruct (String.eqb v "true") eqn:E.
  - apply String.eqb_eq in E. now subst v.
  - unfold stored.
    destruct v as [|c1 [|c2 [|c3 [|c4 [|c5 s]]]]]; try reflexivity;
      destruct c1 as [[] [] [] [] [] [] [] []]; try reflexivity;
      destruct c2 as [[] [] [] [] [] [] [] []]; try reflexivity;
      destruct c3 as [[] [] [] [] [] [] [] []]; try reflexivity;
      destruct c4 as [[] [] [] [] [] [] [] []]; try reflexivity;
      discriminate E.
Qed.

Lemma setitem_keys (k : string) (x : pyval) (args : list (string * pyval)) :
  map fst (setitem k x args) = map fst args.
Proof.
  induction args as [|[k0 y] args IH]; cbn; [reflexivity|].
  destruct (String.eqb k k0); cbn; [reflexivity|now rewrite IH].
Qed.

Lemma lookup_setitem_same (k : string) (x : pyval)
      (args : list (string * pyval)) :
  lookup k (setitem k x args)
  = match lookup k args with
    | Some _ => Some x
    | None => None
    end.
Proof.
  induction args as [|[k0 y] args IH]; cbn; [reflexivity|].
  destruct (String.eqb k k0) eqn:E; cbn; rewrite E; [reflexivity|exact IH].
Qed.

Lemma merge_item_keys (n : string) (x : pyval) (keys : list string)
      (args : list (string * pyval)) :
  map fst (merge_item n x keys args) = map fst args.
Proof.
  revert x args. induction keys as [|k keys IH]; intros x args;
    cbn [merge_item]; [reflexivity|].
  destruct (String.eqb (lower (last_segment EmptyString k)) n).
  - now rewrite IH, setitem_keys.
  - apply IH.
Qed.

(** An item leaves alone every option that does not carry its name. *)
Lemma merge_item_other (n : string) (x : pyval) (keys : list string)
      (args : list (string * pyval)) (k : string) :
  item_name k <> n ->
  lookup k (merge_item n x keys args) = lookup k args.
Proof.
  intros Hn. revert x args.
  induction keys as [|k' keys IH]; intros x args; cbn [merge_item];
    [reflexivity|].
  destruct (String.eqb (lower (last_segment EmptyString k')) n) eqn:Hk.
  - rewrite IH. apply lookup_setitem_other.
    intros <-. apply String.eqb_eq in Hk. now apply Hn.
  - apply IH.
Qed.

(** An item reaches every option that carries its name, among the keys
    the loop of line 92 runs over. *)
Lemma merge_item_same (n : string) (x : pyval) (keys : list string)
      (args : list (string * pyval)) (k : string) :
  item_name k = n ->
  lookup k (merge_item n x keys args)
  = match lookup k args with
    | Some y => Some (if existsb (String.eqb k) keys then stored x else y)
    | None => None
    end.
Proof.
  intros Hn. revert x args.
  induction keys as [|k' keys IH]; intros x args; cbn [merge_item existsb].
  - now destruct (lookup k args).
  - destruct (String.eqb (lower (last_segment EmptyString k')) n) eqn:Hk.
    + fold (stored x). rewrite IH, stored_stored.
      destruct (String.eqb k k') eqn:E.
      * apply String.eqb_eq in E. subst k'.
        rewrite lookup_setitem_same.
        destruct (lookup k args); [|reflexivity].
        cbn [orb]. now destruct (existsb (String.eqb k) keys).
      * apply String.eqb_neq in E.
        rewrite lookup_setitem_other by exact E.
        reflexivity.
    + rewrite IH.
      destruct (String.eqb k k') eqn:E; [|reflexivity].
      apply String.eqb_eq in E. subst k'.
      unfold item_name in Hn. rewrite Hn, String.eqb_refl in Hk.
      discriminate Hk.
Qed.

Lemma lookup_in_keys (k : string) (args : list (string * pyval)) (y : pyval) :
  lookup k args = Some y -> existsb (String.eqb k) (map fst args) = true.
Proof.
  induction args as [|[k0 y0] args IH]; cbn; [intros E; discriminate E|].
  destruct (String.eqb k k0); [reflexivity|exact IH].
Qed.

(** The items of the configuration file, applied in order. *)
Definition merge_items (items : list (string * string))
           (args : list (string * pyval)) : list (string * pyval) :=
  fold_left (fun a nv => merge_item (fst nv) (PStr (snd nv)) (map fst a) a)
            items args.

Lemma merge_items_keys (items : list (string * string))
      (args : list (string * pyval)) :
  map fst (merge_items items args) = map fst args.
Proof.
  revert args. induction items as [|nv items IH]; intros args; cbn;
    [reflexivity|].
  unfold merge_items in IH. now rewrite IH, merge_item_keys.
Qed.

Lemma merge_items_other (items : list (string * string))
      (args : list (string * pyval)) (k : string) :
  Forall (fun nv => fst nv <> item_name k) items ->
  lookup k (merge_items items args) = lookup k args.
Proof.
  intros H. revert args.
  induction H as [|nv items Hnv _ IH]; intros args; cbn; [reflexivity|].
  unfold merge_items in IH. rewrite IH.
  apply merge_item_other. intros E. now apply Hnv.
Qed.

Lemma merge_items_same (items : list (string * string))
      (args : list (string * pyval)) (k v : string) (y : pyval) :
  NoDup (map fst items) ->
  In (item_name k, v) items ->
  lookup k args = Some y ->
  lookup k (merge_items items args) = Some (stored (PStr v)).
Proof.
  intros Hnd. revert args y.
  induction items as [|[n1 v1] items IH]; intros args y Hin Hk;
    [contradiction|].
  cbn [map fst] in Hnd. inversion Hnd as [|? ? Hfresh Hnd']; subst.
  cbn [merge_items fold_left fst snd].
  destruct Hin as [E|Hin].
  - inversion E; subst n1 v1.
    fold (merge_items items
            (merge_item (item_name k) (PStr v) (map fst args) args)).
    rewrite merge_items_other.
    + rewrite merge_item_same by reflexivity.
      rewrite Hk. erewrite lookup_in_keys by exact Hk. reflexivity.
    + apply Forall_forall. intros [n' v'] Hin' E'. cbn [fst] in E'.
      apply Hfresh. subst n'.
      change (item_name k) with (fst (item_name k, v')).
      now apply in_map.
  - assert (Hne : item_name k <> n1).
    { intros <-. apply Hfresh.
      change (item_name k) with (fst (item_name k, v)).
      now apply in_map. }
    apply (IH Hnd') with (y := y); [exact Hin|].
    now rewrite merge_item_other.
Qed.

(** X1.  Merging a configuration file never adds or removes an option,
    and it leaves the value of every option for which the file has no
    item of that name (the option's name after its last ["--"], in lower
    case). *)
Theorem config_merge_keeps_other_options
        (config : option (list (string * string)))
        (args : list (string * pyval)) :
  map fst (merge_config config args) = map fst args /\
  forall k,
    (forall items, config = Some items ->
                   Forall (fun nv => fst nv <> item_name k) items) ->
    lookup k (merge_config config args) = lookup k args.
Proof.
  destruct config as [items|]; cbn [merge_config].
  - split.
    + apply (merge_items_keys items).
    + intros k H. apply merge_items_other. exact (H items eq_refl).
  - split; reflexivity.
Qed.

(** X2.  An item [name = v] of the configuration file (item names are
    unique in a section) overwrites every option of that name that
    [docopt] knows: the option becomes the string [v], or [True] when [v]
    is ['true'].  So the option is true in an [if] exactly when [v] is not
    empty: [3d = false] switches the flag [--3D] on. *)
Theorem config_item_sets_its_option
        (items : list (string * string)) (args : list (string * pyval))
        (k v : string) (y : pyval) :
  NoDup (map fst items) ->
  In (item_name k, v) items ->
  lookup k args = Some y ->
  lookup k (merge_config (Some items) args)
  = Some (if String.eqb v "true" then PBool true else PStr v) /\
  (forall x, lookup k (merge_config (Some items) args) = Some x ->
             truthy x = negb (String.eqb v EmptyString)).
Proof.
  intros Hnd Hin Hk.
  pose proof (@merge_items_same items args k v y Hnd Hin Hk) as H.
  rewrite stored_string in H.
  split; [exact H|].
  intros x Hx. change (merge_config (Some items) args)
    with (merge_items items args) in Hx.
  rewrite H in Hx. inversion Hx; subst x.
  destruct (String.eqb v "true") eqn:E.
  - apply String.eqb_eq in E. now subst v.
  - reflexivity.
Qed.

End Configuration.

(** ** The time stepper *)


(** ** The declared problems *)

Section Problems.

(** Exactly one of the keys [ks] is on. *)
Definition one_of (ks : list bc_key) (bc_dict : bc_key -> bool) : Prop :=
  List.length (filter bc_dict ks) = 1%nat.

(** One thermal, one velocity and one magnetic condition. *)
Definition one_per_family (bc_dict : bc_key -> bool) : Prop :=
  one_of [TT; FT; FF] bc_dict /\
  one_of [NS; FS] bc_dict /\
  one_of [MC; MI] bc_dict.

(** A condition reads the wavenumbers only through their being zero. *)
Definition zero_or_one (k : Z) : Z := if (k =? 0)%Z then 0%Z else 1%Z.

Lemma holds_zero_or_one (c : condition) (kx ky : Z) :
  holds c kx ky = holds c (zero_or_one kx) (zero_or_one ky).
Proof.
  induction c as [|n|n|a IHa b IHb|a IHa b IHb]; cbn [holds].
  - reflexivity.
  - destruct n; cbn [wavenumber_of]; unfold zero_or_one;
      [destruct (kx =? 0)%Z|destruct (ky =? 0)%Z]; reflexivity.
  - destruct n; cbn [wavenumber_of]; unfold zero_or_one;
      [destruct (kx =? 0)%Z|destruct (ky =? 0)%Z]; reflexivity.
  - now rewrite IHa, IHb.
  - now rewrite IHa, IHb.
Qed.

Lemma at_mode_zero_or_one (kx ky : Z) (conditions : list (string * condition)) :
  at_mode kx ky conditions
  = at_mode (zero_or_one kx) (zero_or_one ky) conditions.
Proof.
  unfold at_mode. f_equal. apply filter_ext.
  intros bc. apply holds_zero_or_one.
Qed.

Ltac modes kx ky :=
  rewrite at_mode_zero_or_one; unfold zero_or_one;
  destruct (kx =? 0)%Z; destruct (ky =? 0)%Z; reflexivity.

Lemma one_per_family_square
      (bc_dict : bc_key -> bool) (threeD : bool) (kx ky : Z) :
  one_per_family bc_dict ->
  List.length (at_mode kx ky (added (bcs bc_dict threeD)))
  = List.length (variables threeD).
Proof.
  unfold one_per_family, one_of, bcs. cbn [filter].
  intros (Ht & Hu & Hm).
  destruct (bc_dict TT), (bc_dict FT), (bc_dict FF); try discriminate Ht;
    destruct (bc_dict NS), (bc_dict FS); try discriminate Hu;
    destruct (bc_dict MC), (bc_dict MI); try discriminate Hm;
    destruct threeD; modes kx ky.
Qed.

(** X4.  In [bootstrap_mhd_rbc.py], when [bc_dict] has one thermal, one
    velocity and one magnetic condition on, the problem gets as many
    equations as it has variables (22 in 2.5D, 24 in 3D), and every
    horizontal mode gets that same number of boundary conditions: of each
    pair under [zero_cond] and [else_cond], one applies. *)
Theorem bootstrap_problem_is_square
        (bc_dict : bc_key -> bool) (threeD : bool) (kx ky : Z) :
  one_per_family bc_dict ->
  List.length (added (eqns threeD)) = List.length (variables threeD) /\
  List.length (at_mode kx ky (added (bcs bc_dict threeD)))
  = List.length (variables threeD) /\
  List.length (variables threeD) = if threeD then 24%nat else 22%nat.
Proof.
  intros H. split; [|split].
  - now destruct threeD.
  - now apply one_per_family_square.
  - now destruct threeD.
Qed.

(** X5.  In [forces_mhd_rayleigh_benard.py] the boundary conditions are
    chosen by [if]/[elif]/[else], so whatever [bc_dict] holds the problem
    gets as many equations as variables (12 in 2.5D, 14 in 3D) and every
    horizontal mode gets that same number of boundary conditions. *)
Theorem forces_problem_is_square
        (bc_dict : bc_key -> bool) (threeD : bool) (kx ky : Z) :
  List.length (forces_equations threeD)
  = List.length (forces_variables threeD) /\
  List.length (at_mode kx ky (forces_bcs bc_dict threeD))
  = List.length (forces_variables threeD) /\
  List.length (forces_variables threeD) = if threeD then 14%nat else 12%nat.
Proof.
  unfold forces_bcs.
  destruct (bc_dict FF), (bc_dict FT), (bc_dict FS), (bc_dict MC), threeD;
    (split; [reflexivity|split; [|reflexivity]]); modes kx ky.
Qed.

Lemma overrides_keep_families
      (args : list (string * pyval)) (constructed bc_dict : bc_key -> bool) :
  constructed TT = true -> constructed FT = false ->
  constructed FF = false ->
  one_of [NS; FS] constructed -> one_of [MC; MI] constructed ->
  bootstrap_bc_dict args constructed = Ok bc_dict ->
  one_per_family bc_dict /\
  (forall ft, lookup "--FT" args = Some ft -> truthy ft = true ->
              bc_dict FT = true /\ bc_dict FF = false).
Proof.
  intros HTT HFT HFF Hu Hm.
  unfold bootstrap_bc_dict, getitem.
  destruct (lookup "--MI" args) as [mi|]; cbn [rbind];
    [|intros E; discriminate E].
  destruct (lookup "--FT" args) as [ft|]; cbn [rbind];
    [|intros E; discriminate E].
  revert Hu Hm. unfold one_of. cbn [filter].
  destruct (constructed NS) eqn:HNS, (constructed FS) eqn:HFS;
    intros Hu; try discriminate Hu;
    destruct (constructed MC) eqn:HMC, (constructed MI) eqn:HMI;
    intros Hm; try discriminate Hm;
    destruct (truthy ft) eqn:Hft; cbn [rbind];
    try (destruct (lookup "--FF" args) as [ff|]; cbn [rbind];
         [|intros E; discriminate E]);
    (destruct (lookup "--FS" args) as [fs|]; cbn [rbind];
     [|intros E; discriminate E]);
    intros E; inversion E as [Hd]; clear E Hd;
    (split; [|intros ft0 E0; inversion E0; subst ft0;
              rewrite ?Hft; intros D; try discriminate D]);
    unfold one_per_family, one_of, bc_set;
    destruct (truthy mi), (truthy fs); try destruct (truthy ff);
    cbn; rewrite ?HTT, ?HFT, ?HFF, ?HNS, ?HFS, ?HMC, ?HMI; cbn; auto.
Qed.

(** X6.  When [construct_BC_dict] has left the thermal condition at its
    default TT and has one velocity and one magnetic condition on, lines
    100-111 of [bootstrap_mhd_rbc.py] return, for every combination of the
    flags, a dictionary with one condition on in each family; [--FT] wins
    over [--FF]; and the problem then declared has as many boundary
    conditions at every mode as variables. *)
Theorem bootstrap_flags_keep_one_condition_per_family
        (args : list (string * pyval)) (constructed bc_dict : bc_key -> bool)
        (threeD : bool) (kx ky : Z) :
  constructed TT = true -> constructed FT = false ->
  constructed FF = false ->
  one_of [NS; FS] constructed -> one_of [MC; MI] constructed ->
  bootstrap_bc_dict args constructed = Ok bc_dict ->
  one_per_family bc_dict /\
  (forall ft, lookup "--FT" args = Some ft -> truthy ft = true ->
              bc_dict FT = true /\ bc_dict FF = false) /\
  List.length (at_mode kx ky (added (bcs bc_dict threeD)))
  = List.length (variables threeD).
Proof.
  intros HTT HFT HFF Hu Hm Hd.
  destruct (overrides_keep_families args HTT HFT HFF Hu Hm Hd) as [H1 H2].
  split; [exact H1|]. split; [exact H2|].
  now apply one_per_family_square.
Qed.

(** X7.  In [forces_mhd_rayleigh_benard.py] the run is 3D unless
    [--2.5D] is given, and when [construct_BC_dict] has switched on
    neither FT nor FF the thermal conditions declared follow the flags:
    those of FT with [--FT] (whatever [--FF]), else those of FF with
    [--FF], else fixed temperature at both plates. *)
Theorem forces_flags_choose_the_thermal_conditions
        (args : list (string * pyval)) (constructed bc_dict : bc_key -> bool)
        (threeD : bool) :
  constructed FF = false -> constructed FT = false ->
  forces_threeD args = Ok threeD ->
  forces_bc_dict args constructed = Ok bc_dict ->
  exists flat ft,
    lookup "--2.5D" args = Some flat /\
    lookup "--FT" args = Some ft /\
    threeD = negb (truthy flat) /\
    forall ff,
      lookup "--FF" args = Some ff ->
      firstn 2 (forces_bcs bc_dict threeD)
      = if truthy ft then
          [("left(T1_z) = 0", Always); ("right(T1)  = 0", Always)]%string
        else if truthy ff then
          [("left(T1_z) = 0", Always); ("right(T1_z) = 0", Always)]%string
        else
          [("left(T1) = 0", Always); ("right(T1) = 0", Always)]%string.
Proof.
  intros HFF HFT. unfold forces_threeD, forces_bc_dict, getitem.
  destruct (lookup "--2.5D" args) as [flat|]; cbn [rbind];
    [|intros E; discriminate E].
  intros E. inversion E as [Ht]. clear E.
  destruct (lookup "--MC" args) as [mc|]; cbn [rbind];
    [|intros E; discriminate E].
  destruct (lookup "--FT" args) as [ft|]; cbn [rbind];
    [|intros E; discriminate E].
  intros H. exists flat, ft. conj; try reflexivity.
  intros ff Hff. revert H. rewrite Hff.
  destruct (truthy ft); cbn [rbind];
    (destruct (lookup "--NS" args) as [ns|]; cbn [rbind];
     [|intros E; discriminate E]);
    intros E; inversion E as [Hd]; clear E Hd;
    unfold forces_bcs, bc_set;
    destruct (truthy mc), (truthy ns), (truthy ff);
    cbn [bc_key_eqb]; rewrite ?HFF, ?HFT; reflexivity.
Qed.

End Problems.

(** ** What holds along every run of the main loop *)

Section Along.

Context {F : Type} {A : Arith F}.
Variable P : params (F := F).

Implicit Types (s : @state F) (o : @obs F) (tr : list (@obs F)).

(** Grid data after [a *= k], or as it was. *)
Definition rescaled (g g' : list F) : Prop :=
  g' = g \/ exists k, g' = scale k g.

(** What a step that raises has written by then: grid data only. *)
Definition failed_step s s' : Prop :=
  cRa s' = cRa s /\ cQ s' = cQ s /\ t_buoy s' = t_buoy s /\
  max_dt s' = max_dt s /\ CFL s' = CFL s /\
  bootstrap_force_balances s' = bootstrap_force_balances s /\
  rolled s' = rolled s /\ bootstrap_i s' = bootstrap_i s /\
  last_bootstrap_time s' = last_bootstrap_time s /\
  bootstrap_now s' = bootstrap_now s /\
  bootstrap_wait_time s' = bootstrap_wait_time s /\
  bootstrap_steps s' = bootstrap_steps s /\
  rescaled (Ra_fd s) (Ra_fd s') /\ rescaled (Q_fd s) (Q_fd s').

Lemma failed_step_fields s s' :
  failed_step s s' ->
  rescaled (Ra_fd s) (Ra_fd s') /\ rescaled (Q_fd s) (Q_fd s').
Proof. intros H. apply H. Qed.

Ltac written :=
  first [ reflexivity
        | left; reflexivity
        | right; eexists; reflexivity ].

Lemma apply_bootstrap_raises s e s' (l : list event) :
  apply_bootstrap P s = (Raise e, s', l) -> failed_step s s'.
Proof.
  destruct (select_step P (cRa s) (cQ s)) as [[nRa nQ]|e0] eqn:Hsel.
  2:{ unfold apply_bootstrap, bind, gets, lift, modify, emit, ret, raise.
      rewrite Hsel. cbn. intros E. inversion E; subst.
      unfold failed_step. conj; written. }
  destruct (py_div nRa (cRa s)) as [k|e1] eqn:H1;
    destruct (py_div nQ (cQ s)) as [kq|e2] eqn:H2;
    destruct (py_div (cRa s) nRa) as [c|e3] eqn:H3;
    destruct (py_div (Pr P) nRa) as [t|e4] eqn:H4;
    unfold apply_bootstrap, bind, gets, lift, modify, emit, ret, raise;
    rewrite Hsel; repeat (cbn; rewrite ?H1, ?H2, ?H3, ?H4);
    intros E; try discriminate E;
    try (inversion E; subst; unfold failed_step; conj; written).
  (* the quotient Pr/nRa cannot raise once cRa/nRa has not *)
  apply py_div_ok in H3. destruct H3 as [H3 _].
  unfold py_div in H4. rewrite H3 in H4. discriminate H4.
Qed.

(** The log of a step: the message of line 554, unless the new pair
    cannot be computed. *)
Lemma apply_bootstrap_log s r s' (l : list event) :
  apply_bootstrap P s = (r, s', l) ->
  l = [] \/ l = [LogInfo "bootstrapping Ra, Q"].
Proof.
  destruct (select_step P (cRa s) (cQ s)) as [[nRa nQ]|e0] eqn:Hsel.
  2:{ unfold apply_bootstrap, bind, gets, lift, modify, emit, ret, raise.
      rewrite Hsel. cbn. intros E. inversion E; subst. now left. }
  destruct (py_div nRa (cRa s)) as [k|e1] eqn:H1;
    destruct (py_div nQ (cQ s)) as [kq|e2] eqn:H2;
    destruct (py_div (cRa s) nRa) as [c|e3] eqn:H3;
    destruct (py_div (Pr P) nRa) as [t|e4] eqn:H4;
    unfold apply_bootstrap, bind, gets, lift, modify, emit, ret, raise;
    rewrite Hsel; repeat (cbn; rewrite ?H1, ?H2, ?H3, ?H4);
    intros E; inversion E; subst; now right.
Qed.

(** *** Relations that every run respects *)

Section Relation.

Variable R : @state F -> @state F -> Prop.
Hypothesis R_refl : forall s, R s s.
Hypothesis R_trans : forall s1 s2 s3, R s1 s2 -> R s2 s3 -> R s1 s3.
Hypothesis R_dt : forall x s, R s (set_dt x s).
Hypothesis R_advanced : forall o s, R s (advanced P o s).
Hypothesis R_triggered : forall s, R s (triggered s).

Lemma along_advance o s r s1 (l : list event) :
  advance P o s = (r, s1, l) -> R s s1.
Proof.
  destruct (o_step o) as [tag|] eqn:Hstep.
  - rewrite advance_raises with (tag := tag) by exact Hstep.
    intros E. inversion E; subst. apply R_dt.
  - rewrite advance_returns by exact Hstep.
    intros E. inversion E; subst. apply R_advanced.
Qed.

Lemma along_forces_loop tr s r s1 (l : list event) :
  forces_loop P tr s = (r, s1, l) -> R s s1.
Proof.
  revert s r s1 l. induction tr as [|o tr IH]; intros s r s1 l.
  - cbn. unfold ret. intros E. inversion E; subst. apply R_refl.
  - rewrite forces_loop_cons.
    destruct (loop_test o s).
    2:{ intros E. inversion E; subst. apply R_refl. }
    destruct (advance P o s) as [[ra sa] la] eqn:Hadv.
    assert (Ha : R s sa) by (eapply along_advance; exact Hadv).
    destruct ra as [[]|e].
    2:{ intros E. inversion E; subst. exact Ha. }
    destruct (forces_loop P tr sa) as [[r2 s2] l2] eqn:Htr.
    intros E. inversion E; subst.
    apply R_trans with (s2 := sa); [exact Ha|]. eapply IH. exact Htr.
Qed.

Hypothesis R_granted : forall s, R s (granted s).
Hypothesis R_step : forall s nRa nQ,
    step_defined P s nRa nQ -> R s (after_bootstrap P s nRa nQ).
Hypothesis R_failed : forall s s', failed_step s s' -> R s s'.

Lemma along_apply_bootstrap s r s1 (l : list event) :
  apply_bootstrap P s = (r, s1, l) -> R s s1.
Proof.
  destruct r as [[]|e]; intros H.
  - apply apply_bootstrap_returns in H.
    destruct H as (nRa & nQ & Hdef & ->).
    now apply R_step.
  - apply R_failed. eapply apply_bootstrap_raises. exact H.
Qed.

Lemma along_controller s r s1 (l : list event) :
  bootstrap_controller P s = (r, s1, l) -> R s s1.
Proof.
  rewrite bootstrap_controller_eq.
  destruct (bootstrap_now (triggered s)).
  - destruct (bootstrap_steps (triggered s) =? max_bootstrap_steps P)%Z.
    + intros E. inversion E; subst. apply R_triggered.
    + destruct (apply_bootstrap P (granted (triggered s)))
        as [[ra sa] la] eqn:Happ.
      assert (Ha : R (granted (triggered s)) sa)
        by (eapply along_apply_bootstrap; exact Happ).
      assert (Hs : R s sa).
      { apply R_trans with (s2 := triggered s); [apply R_triggered|].
        apply R_trans with (s2 := granted (triggered s));
          [apply R_granted|exact Ha]. }
      destruct ra as [[]|e]; intros E; inversion E; subst; exact Hs.
  - intros E. inversion E; subst. apply R_triggered.
Qed.

Lemma along_bootstrap_loop tr s r s1 (l : list event) :
  bootstrap_loop P tr s = (r, s1, l) -> R s s1.
Proof.
  revert s r s1 l. induction tr as [|o tr IH]; intros s r s1 l.
  - cbn. unfold ret. intros E. inversion E; subst. apply R_refl.
  - rewrite bootstrap_loop_cons.
    destruct (loop_test o s).
    2:{ intros E. inversion E; subst. apply R_refl. }
    destruct (advance P o s) as [[ra sa] la] eqn:Hadv.
    assert (Ha : R s sa) by (eapply along_advance; exact Hadv).
    destruct ra as [[]|e].
    2:{ intros E. inversion E; subst. exact Ha. }
    destruct (bootstrap_controller P sa) as [[rc sc] lc] eqn:Hc.
    assert (Hb : R sa sc) by (eapply along_controller; exact Hc).
    destruct rc as [[|]|e].
    + destruct (bootstrap_loop P tr sc) as [[r3 s3] l3] eqn:Htr.
      intros E. inversion E; subst.
      apply R_trans with (s2 := sa); [exact Ha|].
      apply R_trans with (s2 := sc); [exact Hb|]. eapply IH. exact Htr.
    + intros E. inversion E; subst.
      apply R_trans with (s2 := sa); assumption.
    + intros E. inversion E; subst.
      apply R_trans with (s2 := sa); assumption.
Qed.

End Relation.

(** An invariant is kept along every run when each assignment keeps it. *)
Lemma invariant_along_bootstrap_loop (I : @state F -> Prop) :
  (forall x s, I s -> I (set_dt x s)) ->
  (forall o s, I s -> I (advanced P o s)) ->
  (forall s, I s -> I (triggered s)) ->
  (forall s, I s -> I (granted s)) ->
  (forall s nRa nQ, step_defined P s nRa nQ -> I s ->
                    I (after_bootstrap P s nRa nQ)) ->
  (forall s s', failed_step s s' -> I s -> I s') ->
  forall tr s r s1 (l : list event),
    bootstrap_loop P tr s = (r, s1, l) -> I s -> I s1.
Proof.
  intros H1 H2 H3 H4 H5 H6 tr s r s1 l Hrun.
  eapply (@along_bootstrap_loop (fun s s1 => I s -> I s1));
    [..|exact Hrun]; cbv beta; auto.
Qed.

(** *** The rolling window *)

Definition window_unused s : Prop :=
  all_zero (bootstrap_force_balances s) /\
  all_zero (rolled s) /\
  bootstrap_i s = 0%Z.

(** X8.  The rolling window of force-balance ratios is never written:
    from a state in which the two accumulator arrays are zero and the
    write index is 0 (as the setup leaves them), they are so in every state
    a run of the main loop reaches, however it ends.  Only the elapsed-time
    test of lines 531-534 can request a step. *)
Theorem rolling_window_is_never_written tr s r s1 (l : list event) :
  window_unused s ->
  bootstrap_loop P tr s = (r, s1, l) ->
  window_unused s1.
Proof.
  intros Hs Hrun. revert Hs.
  apply (invariant_along_bootstrap_loop window_unused) with (7 := Hrun).
  - intros x s2 H. exact H.
  - intros o s2 H. unfold advanced. destruct (sampling P o); exact H.
  - intros s2 H. unfold triggered.
    destruct (fltb (Re_avg s2) (of_Z 1)); [exact H|].
    destruct (fltb (bootstrap_wait_time s2)
                   (fsub (sim_time s2) (last_bootstrap_time s2))); exact H.
  - intros s2 H. exact H.
  - intros s2 nRa nQ _ (Ha & Hb & _). unfold window_unused.
    cbn [after_bootstrap bootstrap_force_balances rolled bootstrap_i].
    conj; [| |reflexivity]; apply reset_all_zero;
      now apply all_zero_zeroable.
  - intros s2 s3 (_ & _ & _ & _ & _ & Ea & Eb & Ec & _) (Ha & Hb & Hc).
    unfold window_unused. now rewrite Ea, Eb, Ec.
Qed.

(** *** The cap of the CFL calculator and the current Rayleigh number *)

(** X9.  [CFL.max_dt] and the variable [max_dt] agree in every state a run
    of the main loop reaches, however it ends, once they agree at the
    start (as the setup leaves them): no exception can come between lines
    563 and 564. *)
Theorem CFL_cap_follows_max_dt tr s r s1 (l : list event) :
  cfl_max_dt (CFL s) = max_dt s ->
  bootstrap_loop P tr s = (r, s1, l) ->
  cfl_max_dt (CFL s1) = max_dt s1.
Proof.
  intros Hs Hrun. revert Hs.
  apply (invariant_along_bootstrap_loop
           (fun s => cfl_max_dt (CFL s) = max_dt s)) with (7 := Hrun).
  - intros x s2 H. exact H.
  - intros o s2 H. unfold advanced. destruct (sampling P o); exact H.
  - intros s2 H. unfold triggered.
    destruct (fltb (Re_avg s2) (of_Z 1)); [exact H|].
    destruct (fltb (bootstrap_wait_time s2)
                   (fsub (sim_time s2) (last_bootstrap_time s2))); exact H.
  - intros s2 H. exact H.
  - intros s2 nRa nQ _ _. reflexivity.
  - intros s2 s3 (_ & _ & _ & Ea & Eb & _) H. now rewrite Ea, Eb.
Qed.

(** X10.  The current Rayleigh number is never zero: from a state in which
    [cRa] is not zero (the setup divides by it), it is not zero in any
    state a run of the main loop reaches, however it ends.  So the
    quotients [nRa/cRa] of lines 555 and 558 and [Pr/cRa] of line 575
    never raise. *)
Theorem current_Ra_is_never_zero tr s r s1 (l : list event) :
  feqb (cRa s) (of_Z 0) = false ->
  bootstrap_loop P tr s = (r, s1, l) ->
  feqb (cRa s1) (of_Z 0) = false /\
  forall x, py_div x (cRa s1) = Ok (fdiv x (cRa s1)).
Proof.
  intros Hs Hrun.
  assert (H : feqb (cRa s1) (of_Z 0) = false).
  { revert Hs.
    apply (invariant_along_bootstrap_loop
             (fun s => feqb (cRa s) (of_Z 0) = false)) with (7 := Hrun).
    - intros x s2 H. exact H.
    - intros o s2 H. unfold advanced. destruct (sampling P o); exact H.
    - intros s2 H. unfold triggered.
      destruct (fltb (Re_avg s2) (of_Z 1)); [exact H|].
      destruct (fltb (bootstrap_wait_time s2)
                     (fsub (sim_time s2) (last_bootstrap_time s2))); exact H.
    - intros s2 H. exact H.
    - intros s2 nRa nQ (_ & _ & _ & Hn) _. exact Hn.
    - intros s2 s3 (Ea & _) H. now rewrite Ea. }
  split; [exact H|]. intros x. now apply py_div_nonzero.
Qed.

End Along.

(** ** What the main loop logs and asks of the solver *)

Section Logs.

Context {F : Type} {A : Arith F}.
Variable P : params (F := F).

Implicit Types (s : @state F) (o : @obs F) (tr : list (@obs F)).

(** The [logger.info] calls with the message [m]. *)
Definition is_message (m : string) (ev : @event F) : bool :=
  match ev with
  | LogInfo m' => String.eqb m' m
  | _ => false
  end.

Definition steps_logged : list (@event F) -> nat :=
  occurrences (is_message "bootstrapping Ra, Q").

Definition finished_logged : list (@event F) -> nat :=
  occurrences (is_message "Finished bootstrap run").

Lemma advance_messages o s r s1 (l : list event) :
  advance P o s = (r, s1, l) ->
  steps_logged l = 0%nat /\ finished_logged l = 0%nat /\
  solver_steps l = 1%nat.
Proof.
  destruct (o_step o) as [tag|] eqn:Hstep.
  - rewrite advance_raises with (tag := tag) by exact Hstep.
    intros E. inversion E; subst. conj; reflexivity.
  - rewrite advance_returns by exact Hstep.
    intros E. inversion E; subst. unfold advance_log.
    destruct (threeD P && ((o_iteration o - start_iter P) mod 100 =? 0)%Z);
      destruct (sampling P o); conj; reflexivity.
Qed.

Lemma controller_messages s r s1 (l : list event) :
  bootstrap_controller P s = (r, s1, l) ->
  (bootstrap_steps s + Z.of_nat (steps_logged l) <= bootstrap_steps s1)%Z /\
  finished_logged l = match r with
                      | Ok Break => 1%nat
                      | _ => 0%nat
                      end /\
  solver_steps l = 0%nat /\
  (bootstrap_now s = false ->
   bootstrap_now s1 = match r with
                      | Ok Break => true
                      | _ => false
                      end).
Proof.
  rewrite bootstrap_controller_eq.
  destruct (triggered_keeps s) as (_ & _ & Hst & _).
  destruct (bootstrap_now (triggered s)) eqn:Hnow.
  - destruct (bootstrap_steps (triggered s) =? max_bootstrap_steps P)%Z.
    + intros E. inversion E; subst. rewrite Hst.
      conj; try reflexivity; [cbn; lia|auto].
    + destruct (apply_bootstrap P (granted (triggered s)))
        as [[ra sa] la] eqn:Happ.
      destruct (apply_bootstrap_counter _ _ Happ) as [Hc Hn].
      cbn in Hc, Hn. rewrite Hst in Hc.
      pose proof Happ as Hlog. apply apply_bootstrap_log in Hlog.
      destruct Hlog as [-> | ->];
        destruct ra as [[]|e]; intros E; inversion E; subst;
        conj; try reflexivity; try (cbn; lia); intros _; exact Hn.
  - intros E. inversion E; subst. rewrite Hst.
    conj; try reflexivity; [cbn; lia|]. intros _. exact Hnow.
Qed.

Ltac settle :=
  conj;
  first [ reflexivity
        | cbn [List.length]; lia
        | cbn; lia
        | intros D; discriminate D
        | intros; assumption
        | auto ].

Lemma loop_messages tr s r s1 (l : list event) :
  bootstrap_loop P tr s = (r, s1, l) ->
  (bootstrap_steps s + Z.of_nat (steps_logged l) <= bootstrap_steps s1)%Z /\
  finished_logged l = match r with
                      | Ok Broke => 1%nat
                      | _ => 0%nat
                      end /\
  (solver_steps l <= List.length tr)%nat /\
  (r = Ok Running -> solver_steps l = List.length tr) /\
  (bootstrap_now s = false ->
   bootstrap_now s1 = match r with
                      | Ok Broke => true
                      | _ => false
                      end).
Proof.
  unfold steps_logged, finished_logged, solver_steps.
  revert s r s1 l. induction tr as [|o tr IH]; intros s r s1 l.
  - cbn. unfold ret. intros E. inversion E; subst.
    settle.
  - rewrite bootstrap_loop_cons.
    destruct (loop_test o s).
    2:{ intros E. inversion E; subst. settle. }
    destruct (advance P o s) as [[ra sa] la] eqn:Hadv.
    destruct (advance_messages _ _ Hadv) as (Ha1 & Ha2 & Ha3).
    unfold steps_logged, finished_logged, solver_steps in Ha1, Ha2, Ha3.
    pose proof (advance_counter _ _ _ Hadv) as Hac.
    destruct ra as [[]|e].
    2:{ intros E. inversion E; subst. rewrite Ha1, Ha2, Ha3.
        assert (Hn : bootstrap_now s1 = bootstrap_now s).
        { revert Hadv. destruct (o_step o) as [tag|] eqn:Hstep.
          - rewrite advance_raises with (tag := tag) by exact Hstep.
            intros E'. now inversion E'.
          - rewrite advance_returns by exact Hstep.
            intros E'. discriminate E'. }
        rewrite Hn. settle. }
    assert (Hn : bootstrap_now sa = bootstrap_now s).
    { revert Hadv. destruct (o_step o) as [tag|] eqn:Hstep.
      - rewrite advance_raises with (tag := tag) by exact Hstep.
        intros E'. discriminate E'.
      - rewrite advance_returns by exact Hstep.
        intros E'. inversion E'. apply advanced_projections. }
    destruct (bootstrap_controller P sa) as [[rc sc] lc] eqn:Hc.
    destruct (controller_messages _ Hc) as (Hc1 & Hc2 & Hc3 & Hc4).
    unfold steps_logged, finished_logged, solver_steps in Hc1, Hc2, Hc3.
    rewrite Hn in Hc4.
    destruct rc as [[|]|e].
    + destruct (bootstrap_loop P tr sc) as [[r3 s3] l3] eqn:Htr.
      destruct (IH _ _ _ _ Htr) as (H1 & H2 & H3 & H4 & H5).
      intros E. inversion E; subst.
      rewrite !occurrences_app, Ha1, Ha2, Ha3, Hc2, Hc3.
      conj.
      * lia.
      * exact H2.
      * cbn [List.length]. lia.
      * intros D. rewrite (H4 D). reflexivity.
      * intros H0. apply H5. exact (Hc4 H0).
    + intros E. inversion E; subst.
      rewrite !occurrences_app, Ha1, Ha2, Ha3, Hc2, Hc3.
      settle.
    + intros E. inversion E; subst.
      rewrite !occurrences_app, Ha1, Ha2, Ha3, Hc2, Hc3.
      settle.
Qed.

(** X11.  A run of the main loop that starts with the counter at most the
    maximum logs the message of a bootstrap step (line 554) at most
    [max_bootstrap_steps - bootstrap_steps] times, which is [--Nboots]
    from the setup. *)
Theorem bootstrap_steps_logged_at_most_Nboots tr s r s1 (l : list event) :
  (bootstrap_steps s <= max_bootstrap_steps P)%Z ->
  bootstrap_loop P tr s = (r, s1, l) ->
  (Z.of_nat (steps_logged l)
   <= max_bootstrap_steps P - bootstrap_steps s)%Z.
Proof.
  intros Hle Hrun.
  destruct (loop_messages _ _ Hrun) as (H1 & _).
  destruct (loop_counter _ _ _ Hrun Hle) as (H2 & _).
  lia.
Qed.

(** X12.  From a state with no step requested, the main loop logs
    ["Finished bootstrap run"] once when it ends by [break] and never
    otherwise, and the request flag [bootstrap_now] is set at the end
    exactly in that case: every granted request is cleared before the
    step is taken. *)
Theorem finished_is_logged_exactly_on_break tr s r s1 (l : list event) :
  bootstrap_now s = false ->
  bootstrap_loop P tr s = (r, s1, l) ->
  finished_logged l = match r with
                      | Ok Broke => 1%nat
                      | _ => 0%nat
                      end /\
  (bootstrap_now s1 = true <-> r = Ok Broke).
Proof.
  intros Hnow Hrun.
  destruct (loop_messages _ _ Hrun) as (_ & H2 & _ & _ & H5).
  specialize (H5 Hnow). split; [exact H2|]. rewrite H5.
  destruct r as [[| |]|e]; split; intros D;
    try reflexivity; discriminate D.
Qed.

(** X13.  Every pass of the main loop calls [solver.step] once and the
    bootstrap controller never does: a run over the passes [tr] has at
    most [length tr] time steps in its log, and as many when it is still
    running after them.  The same holds in
    [forces_mhd_rayleigh_benard.py]. *)
Theorem one_solver_step_per_pass tr s r s1 (l : list event) :
  (bootstrap_loop P tr s = (r, s1, l) \/ forces_loop P tr s = (r, s1, l)) ->
  (solver_steps l <= List.length tr)%nat /\
  (r = Ok Running -> solver_steps l = List.length tr).
Proof.
  intros [Hrun|Hrun].
  - destruct (loop_messages _ _ Hrun) as (_ & _ & H3 & H4 & _). auto.
  - revert s r s1 l Hrun. induction tr as [|o tr IH]; intros s r s1 l.
    + cbn. unfold ret. intros E. inversion E; subst. split; reflexivity.
    + rewrite forces_loop_cons.
      destruct (loop_test o s).
      2:{ intros E. inversion E; subst. split; [cbn; lia|].
          intros D. discriminate D. }
      destruct (advance P o s) as [[ra sa] la] eqn:Hadv.
      destruct (advance_messages _ _ Hadv) as (_ & _ & Ha3).
      destruct ra as [[]|e].
      2:{ intros E. inversion E; subst. rewrite Ha3.
          split; [cbn [List.length]; lia|]. intros D. discriminate D. }
      destruct (forces_loop P tr sa) as [[r2 s2] l2] eqn:Htr.
      destruct (IH _ _ _ _ Htr) as (H3 & H4).
      intros E. inversion E; subst.
      unfold solver_steps in *. rewrite occurrences_app, Ha3.
      split; [cbn [List.length]; lia|].
      intros D. rewrite (H4 D). reflexivity.
Qed.

Definition is_grid_space (ev : @event F) : bool :=
  match ev with
  | RequireGridSpace => true
  | _ => false
  end.

Lemma hundredth_is_tenth (x : Z) :
  (x mod 100 =? 0)%Z = true -> (x mod 10 =? 0)%Z = true.
Proof.
  intros H. apply Z.eqb_eq in H. apply Z.eqb_eq.
  assert (E : x = (10 * (x / 100) * 10)%Z)
    by (pose proof (Z.div_mod x 100); lia).
  rewrite E. apply Z_mod_mult.
Qed.

Lemma advance_grid_space o s r s1 (l : list event) :
  advance P o s = (r, s1, l) ->
  (occurrences is_grid_space l
   <= occurrences (is_message "Iteration") l)%nat /\
  (threeD P = false -> occurrences is_grid_space l = 0%nat).
Proof.
  destruct (o_step o) as [tag|] eqn:Hstep.
  - rewrite advance_raises with (tag := tag) by exact Hstep.
    intros E. inversion E; subst. split; [cbn; lia|reflexivity].
  - rewrite advance_returns by exact Hstep.
    intros E. inversion E; subst. unfold advance_log, sampling.
    destruct (threeD P); cbn [andb].
    + destruct ((o_iteration o - start_iter P) mod 100 =? 0)%Z eqn:H100.
      * rewrite (hundredth_is_tenth _ H100).
        split; [cbn; lia|intros D; discriminate D].
      * destruct ((o_iteration o - start_iter P) mod 10 =? 0)%Z;
          (split; [cbn; lia|intros D; discriminate D]).
    + destruct ((o_iteration o - start_iter P) mod 10 =? 0)%Z;
        (split; [cbn; lia|reflexivity]).
Qed.

(** X24.  The grid-space pass over the fields (every 100th iteration) is
    made in 3D runs only, and every pass that makes it also samples and
    logs the Reynolds number: in the log of the main loop of either script
    there are at most as many grid-space passes as iteration reports, and
    none in a 2.5D run. *)
Theorem grid_space_pass_needs_3D tr s r s1 (l : list event) :
  (bootstrap_loop P tr s = (r, s1, l) \/ forces_loop P tr s = (r, s1, l)) ->
  (occurrences is_grid_space l
   <= occurrences (is_message "Iteration") l)%nat /\
  (threeD P = false -> occurrences is_grid_space l = 0%nat).
Proof.
  intros [Hrun|Hrun]; revert s r s1 l Hrun;
    induction tr as [|o tr IH]; intros s r s1 l.
  - cbn. unfold ret. intros E. inversion E; subst.
    split; [cbn; lia|reflexivity].
  - rewrite bootstrap_loop_cons.
    destruct (loop_test o s).
    2:{ intros E. inversion E; subst. split; [cbn; lia|reflexivity]. }
    destruct (advance P o s) as [[ra sa] la] eqn:Hadv.
    destruct (advance_grid_space _ _ Hadv) as (Ha1 & Ha2).
    destruct ra as [[]|e].
    2:{ intros E. inversion E; subst. split; assumption. }
    destruct (bootstrap_controller P sa) as [[rc sc] lc] eqn:Hc.
    assert (Hc0 : occurrences is_grid_space lc = 0%nat).
    { pose proof (never_bootstrap_controller P is_grid_space
                    (fun _ => eq_refl) sa) as Hn.
      now rewrite Hc in Hn. }
    destruct rc as [[|]|e].
    + destruct (bootstrap_loop P tr sc) as [[r3 s3] l3] eqn:Htr.
      destruct (IH _ _ _ _ Htr) as (H1 & H2).
      intros E. inversion E; subst. rewrite !occurrences_app, Hc0.
      split; [lia|]. intros D. rewrite (Ha2 D), (H2 D). reflexivity.
    + intros E. inversion E; subst. rewrite !occurrences_app, Hc0.
      split; [lia|]. intros D. rewrite (Ha2 D). reflexivity.
    + intros E. inversion E; subst. rewrite !occurrences_app, Hc0.
      split; [lia|]. intros D. rewrite (Ha2 D). reflexivity.
  - cbn. unfold ret. intros E. inversion E; subst.
    split; [cbn; lia|reflexivity].
  - rewrite forces_loop_cons.
    destruct (loop_test o s).
    2:{ intros E. inversion E; subst. split; [cbn; lia|reflexivity]. }
    destruct (advance P o s) as [[ra sa] la] eqn:Hadv.
    destruct (advance_grid_space _ _ Hadv) as (Ha1 & Ha2).
    destruct ra as [[]|e].
    2:{ intros E. inversion E; subst. split; assumption. }
    destruct (forces_loop P tr sa) as [[r2 s2] l2] eqn:Htr.
    destruct (IH _ _ _ _ Htr) as (H1 & H2).
    intros E. inversion E; subst. rewrite !occurrences_app.
    split; [lia|]. intros D. rewrite (Ha2 D), (H2 D). reflexivity.
Qed.

End Logs.

(** ** Runs that do not raise, and the wind-up *)

Section Completed.

Context {F : Type} {A : Arith F}.
Variable P : params (F := F).

Implicit Types (s : @state F) (o : @obs F) (tr : list (@obs F)).

Section Relation.

Variable R : @state F -> @state F -> Prop.
Hypothesis R_refl : forall s, R s s.
Hypothesis R_trans : forall s1 s2 s3, R s1 s2 -> R s2 s3 -> R s1 s3.
Hypothesis R_advanced : forall o s, R s (advanced P o s).
Hypothesis R_triggered : forall s, R s (triggered s).
Hypothesis R_fired : forall s nRa nQ,
    step_defined P (granted s) nRa nQ ->
    R s (after_bootstrap P (granted s) nRa nQ).

Lemma completed_controller s c s1 (l : list event) :
  bootstrap_controller P s = (Ok c, s1, l) -> R s s1.
Proof.
  rewrite bootstrap_controller_eq.
  destruct (bootstrap_now (triggered s)).
  - destruct (bootstrap_steps (triggered s) =? max_bootstrap_steps P)%Z.
    + intros E. inversion E; subst. apply R_triggered.
    + destruct (apply_bootstrap P (granted (triggered s)))
        as [[[[]|e] sa] la] eqn:Happ; intros E; [|discriminate E].
      inversion E; subst.
      apply apply_bootstrap_returns in Happ.
      destruct Happ as (nRa & nQ & Hdef & ->).
      apply R_trans with (s2 := triggered s); [apply R_triggered|].
      now apply R_fired.
  - intros E. inversion E; subst. apply R_triggered.
Qed.

Lemma completed_bootstrap_loop tr s ex s1 (l : list event) :
  bootstrap_loop P tr s = (Ok ex, s1, l) -> R s s1.
Proof.
  revert s ex s1 l. induction tr as [|o tr IH]; intros s ex s1 l.
  - cbn. unfold ret. intros E. inversion E; subst. apply R_refl.
  - rewrite bootstrap_loop_cons.
    destruct (loop_test o s).
    2:{ intros E. inversion E; subst. apply R_refl. }
    destruct (o_step o) as [tag|] eqn:Hstep.
    { rewrite advance_raises with (tag := tag) by exact Hstep.
      intros E. discriminate E. }
    rewrite advance_returns by exact Hstep.
    destruct (bootstrap_controller P (advanced P o s))
      as [[rc sc] lc] eqn:Hc.
    destruct rc as [[|]|e].
    + destruct (bootstrap_loop P tr sc) as [[r3 s3] l3] eqn:Htr.
      intros E. inversion E; subst.
      apply R_trans with (s2 := advanced P o s); [apply R_advanced|].
      apply R_trans with (s2 := sc).
      * eapply completed_controller. exact Hc.
      * eapply IH. exact Htr.
    + intros E. inversion E; subst.
      apply R_trans with (s2 := advanced P o s); [apply R_advanced|].
      eapply completed_controller. exact Hc.
    + intros E. discriminate E.
Qed.

End Relation.

(** The tuple handed to [CFL.add_velocities]. *)
Definition velocity_names : list string :=
  (if threeD P then ["u"; "v"; "w"] else ["u"; "w"])%string.

(** X14.  Every bootstrap step registers the velocity components with the
    CFL calculator once more (lines 567-570): after a run of the main loop
    that does not raise, [CFL] holds the tuples it held at the start
    followed by one further copy per step taken. *)
Theorem each_step_adds_the_velocities_again tr s ex s1 (l : list event) :
  bootstrap_loop P tr s = (Ok ex, s1, l) ->
  (bootstrap_steps s <= bootstrap_steps s1)%Z /\
  cfl_velocities (CFL s1)
  = cfl_velocities (CFL s)
    ++ repeat velocity_names
              (Z.to_nat (bootstrap_steps s1 - bootstrap_steps s)).
Proof.
  apply (@completed_bootstrap_loop
           (fun s s1 =>
              (bootstrap_steps s <= bootstrap_steps s1)%Z /\
              cfl_velocities (CFL s1)
              = cfl_velocities (CFL s)
                ++ repeat velocity_names
                          (Z.to_nat (bootstrap_steps s1 - bootstrap_steps s)))).
  - intros s2. rewrite Z.sub_diag. cbn. rewrite app_nil_r.
    split; [lia|reflexivity].
  - intros s2 s3 s4 (H1 & E1) (H2 & E2). split; [lia|].
    rewrite E2, E1, <- app_assoc, <- repeat_app. do 2 f_equal. lia.
  - intros o s2. unfold advanced.
    destruct (sampling P o); cbn; rewrite Z.sub_diag, app_nil_r;
      (split; [lia|reflexivity]).
  - intros s2. unfold triggered.
    destruct (fltb (Re_avg s2) (of_Z 1));
      [|destruct (fltb (bootstrap_wait_time s2)
                       (fsub (sim_time s2) (last_bootstrap_time s2)))];
      cbn; rewrite Z.sub_diag, app_nil_r; (split; [lia|reflexivity]).
  - intros s2 nRa nQ _. cbn. split; [lia|].
    replace (bootstrap_steps s2 + 1 - bootstrap_steps s2)%Z with 1%Z by lia.
    reflexivity.
Qed.

(** *** The wind-up *)

(** The exception of the final checkpoint, if any of its three calls
    raises, and that of the join of the output files. *)
Definition checkpoint_exception (fo : final_obs) : option nat :=
  match f_set_checkpoint fo with
  | Some tag => Some tag
  | None =>
      match f_step fo with
      | Some tag => Some tag
      | None => f_merge fo
      end
  end.

(** What the calls of [post.merge_analysis] for the analysis tasks do, in
    turn: the exception of the first one that raises, and the number of
    calls made. *)
Fixpoint tasks_exception (tasks : list (string * option nat)) : option nat :=
  match tasks with
  | [] => None
  | (_, Some tag) :: _ => Some tag
  | (_, None) :: tasks' => tasks_exception tasks'
  end.

Fixpoint tasks_joined (tasks : list (string * option nat)) : nat :=
  match tasks with
  | [] => 0
  | (_, Some _) :: _ => 1
  | (_, None) :: tasks' => S (tasks_joined tasks')
  end.

Definition join_exception (fo : final_obs) : option nat :=
  if no_join P then None
  else match f_join fo with
       | Some tag => Some tag
       | None => tasks_exception (f_tasks fo)
       end.

Definition is_set_checkpoint (ev : @event F) : bool :=
  match ev with
  | SetCheckpoint _ => true
  | _ => false
  end.

Definition is_merge_analysis (ev : @event F) : bool :=
  match ev with
  | MergeAnalysis _ => true
  | _ => false
  end.

(** The calls of [post.merge_analysis] that the join makes: that for the
    checkpoints and, when it returns, those for the analysis tasks up to
    the first that raises. *)
Definition joins (fo : final_obs) : nat :=
  if no_join P then 0%nat
  else match f_join fo with
       | Some _ => 1%nat
       | None => S (tasks_joined (f_tasks fo))
       end.

Lemma framework_returns (ev : @event F) s :
  framework ev None s = (Ok tt, s, [ev]).
Proof. reflexivity. Qed.

Lemma framework_raises (ev : @event F) (tag : nat) s :
  framework ev (Some tag) s = (Raise (FrameworkError tag), s, [ev]).
Proof. reflexivity. Qed.

Lemma emit_run (ev : @event F) s : emit ev s = (Ok tt, s, [ev]).
Proof. reflexivity. Qed.

Lemma join_tasks_run (tasks : list (string * option nat)) s :
  exists l,
    fold_right (fun task k =>
                  bind (emit (LogInfo (fst task)))
                       (fun _ => bind (framework (MergeAnalysis (fst task))
                                                 (snd task))
                                      (fun _ => k)))
               (ret tt) tasks s
    = (match tasks_exception tasks with
       | Some tag => Raise (FrameworkError tag)
       | None => Ok tt
       end, s, l) /\
    occurrences is_merge_analysis l = tasks_joined tasks.
Proof.
  induction tasks as [|[path [tag|]] tasks IH];
    cbn [fold_right tasks_exception tasks_joined fst snd].
  - exists []. split; reflexivity.
  - rewrite bind_run, emit_run. cbv beta iota.
    rewrite bind_run, framework_raises. cbv beta iota.
    eexists. split; reflexivity.
  - destruct IH as (l & Hrun & Hcount).
    rewrite bind_run, emit_run. cbv beta iota.
    rewrite bind_run, framework_returns. cbv beta iota.
    rewrite Hrun.
    destruct (tasks_exception tasks);
      (eexists; split; [reflexivity|];
       cbn [app]; unfold occurrences in *; cbn [filter is_merge_analysis];
       cbn [List.length]; now rewrite Hcount).
Qed.

Lemma join_files_run (fo : final_obs) s :
  exists s1 l,
    join_files P fo s
    = (match join_exception fo with
       | Some tag => Raise (FrameworkError tag)
       | None => Ok tt
       end, s1, l) /\
    occurrences is_merge_analysis l = joins fo /\
    occurrences is_set_checkpoint l = 0%nat.
Proof.
  assert (Hc : never is_set_checkpoint (join_files P fo))
    by (apply never_join_files; reflexivity).
  specialize (Hc s).
  unfold join_exception, joins. unfold join_files in *.
  destruct (no_join P).
  - eexists _, _. split; [reflexivity|]. split; [reflexivity|exact Hc].
  - destruct (f_join fo) as [tag|] eqn:Hj.
    + revert Hc. rewrite !bind_run, emit_run. cbv beta iota.
      rewrite bind_run, framework_raises. cbv beta iota. intros Hc.
      eexists _, _. split; [reflexivity|]. split; reflexivity.
    + destruct (join_tasks_run (f_tasks fo) s) as (l & Hrun & Hcount).
      revert Hc. rewrite !bind_run, emit_run. cbv beta iota.
      rewrite bind_run, framework_returns. cbv beta iota.
      rewrite Hrun.
      destruct (tasks_exception (f_tasks fo)) as [tag|]; cbv beta iota.
      * intros Hc. eexists _, _. split; [reflexivity|]. split; [|exact Hc].
        rewrite !occurrences_app, Hcount. cbn. lia.
      * change (bind (emit (LogInfo "========================================"))
                     (fun _ => run_statistics) s)
          with (Ok tt, s,
                [LogInfo "========================================";
                 LogInfo "Iterations"; LogInfo "Sim end time";
                 LogInfo "Run time (sec)"; LogInfo "Run time (cpu-hr)";
                 LogInfo "iter/sec"] : list (@event F)).
        cbv beta iota. intros Hc.
        eexists _, _. split; [reflexivity|]. split; [|exact Hc].
        rewrite !occurrences_app, Hcount. cbn. lia.
Qed.

Lemma final_checkpoint_run (fo : final_obs) s :
  exists l,
    final_checkpoint fo s
    = (match checkpoint_exception fo with
       | Some tag => Raise (FrameworkError tag)
       | None => Ok tt
       end, s, l) /\
    occurrences is_set_checkpoint l = 1%nat /\
    occurrences is_merge_analysis l = 0%nat.
Proof.
  unfold final_checkpoint, checkpoint_exception, framework, bind, gets, emit,
    raise, ret.
  destruct (f_set_checkpoint fo), (f_step fo), (f_merge fo); cbn;
    eexists; (split; [reflexivity|split; reflexivity]).
Qed.

Lemma finish_run (fo : final_obs) s :
  exists s1 l,
    finish P fo s
    = (match join_exception fo with
       | Some tag => Raise (FrameworkError tag)
       | None =>
           match checkpoint_exception fo with
           | Some tag => Raise (FrameworkError tag)
           | None => Ok tt
           end
       end, s1, l) /\
    occurrences is_set_checkpoint l = 1%nat /\
    occurrences is_merge_analysis l = joins fo.
Proof.
  rewrite finish_eq, bind_run.
  change (run_statistics s)
    with (Ok tt, s, [LogInfo "Iterations"; LogInfo "Sim end time";
                     LogInfo "Run time (sec)"; LogInfo "Run time (cpu-hr)";
                     LogInfo "iter/sec"] : list (@event F)).
  cbv beta iota. unfold try_finally.
  destruct (final_checkpoint_run fo s) as (lc & -> & Hc1 & Hc2).
  destruct (join_files_run fo s) as (sj & lj & -> & Hj1 & Hj2).
  destruct (join_exception fo) as [tj|];
    eexists _, _; (split; [reflexivity|]);
    rewrite !occurrences_app, Hc1, Hc2, Hj1, Hj2; split; reflexivity.
Qed.

(** X15.  The exception a guarded run ends in is the last one raised: that
    of the join of the output files if it raises; otherwise that of the
    final checkpoint if it raises; otherwise that of the main loop, and
    the run returns only when none of the three raises.  An exception of
    the wind-up replaces the exception of the loop. *)
Theorem last_exception_wins (loop : M exit) (fo : final_obs) s :
  fst (fst (guarded P loop fo s))
  = match join_exception fo with
    | Some tag => Raise (FrameworkError tag)
    | None =>
        match checkpoint_exception fo with
        | Some tag => Raise (FrameworkError tag)
        | None =>
            match fst (fst (loop s)) with
            | Ok _ => Ok tt
            | Raise e => Raise e
            end
        end
    end.
Proof.
  rewrite guarded_eq. unfold try_finally. rewrite bind_run.
  destruct (loop s) as [[[ex|e] sl] ll]; unfold ret; cbv beta iota;
    [destruct (finish_run fo sl) as (s1 & l1 & -> & _)
    |destruct (finish_run fo sl) as (s1 & l1 & -> & _)];
    destruct (join_exception fo), (checkpoint_exception fo); reflexivity.
Qed.

(** X16.  However the main loop of either script ends, the run attempts
    the final checkpoint once, and unless [--no_join] is given it then
    attempts the join: [post.merge_analysis] is called for the checkpoints
    and, if that call returns, for the analysis tasks in turn, up to and
    including the first one for which it raises. *)
Theorem wind_up_is_always_attempted tr (fo : final_obs) s r s1
        (l : list event) :
  bootstrap_mhd_rbc P tr fo s = Some (r, s1, l) \/
  forces_mhd_rayleigh_benard P tr fo s = Some (r, s1, l) ->
  occurrences is_set_checkpoint l = 1%nat /\
  occurrences is_merge_analysis l = joins fo.
Proof.
  assert (Hg : forall (loop : M exit) r s1 l,
             never is_set_checkpoint loop ->
             never is_merge_analysis loop ->
             guarded P loop fo s = (r, s1, l) ->
             occurrences is_set_checkpoint l = 1%nat /\
             occurrences is_merge_analysis l = joins fo).
  { intros loop r0 s0 l0 Hn1 Hn2. rewrite guarded_eq. unfold try_finally.
    rewrite bind_run. specialize (Hn1 s). specialize (Hn2 s).
    destruct (loop s) as [[[ex|e] sl] ll]; unfold ret; cbv beta iota;
      cbn [snd] in Hn1, Hn2;
      destruct (finish_run fo sl) as (sf & lf & -> & Hf1 & Hf2);
      destruct (join_exception fo), (checkpoint_exception fo);
      intros E; inversion E; subst;
      rewrite ?app_nil_r, !occurrences_app, Hn1, Hn2, Hf1, Hf2;
      split; reflexivity. }
  unfold bootstrap_mhd_rbc, forces_mhd_rayleigh_benard, run_of.
  intros [H|H].
  - destruct (bootstrap_loop P tr s) as [[[[| |]|e] sl] ll];
      try discriminate H; inversion H as [E];
      apply (Hg _ _ _ _
               (never_bootstrap_loop P is_set_checkpoint
                  (fun _ => eq_refl) eq_refl (fun _ => eq_refl) tr)
               (never_bootstrap_loop P is_merge_analysis
                  (fun _ => eq_refl) eq_refl (fun _ => eq_refl) tr) E).
  - destruct (forces_loop P tr s) as [[[[| |]|e] sl] ll];
      try discriminate H; inversion H as [E];
      apply (Hg _ _ _ _
               (never_forces_loop P is_set_checkpoint
                  (fun _ => eq_refl) eq_refl (fun _ => eq_refl) tr)
               (never_forces_loop P is_merge_analysis
                  (fun _ => eq_refl) eq_refl (fun _ => eq_refl) tr) E).
Qed.

End Completed.

(** ** What the setup hands to the main loop *)

Section SetupRuns.

Context {F : Type} {A : Arith F}.
Variable float_of_string : string -> option F.
Variable int_of_string : string -> option Z.
Variable fraction_of_string : string -> result F.

(** One statement of a chain of conversions: it returns, or the chain
    ends with its exception. *)
Ltac next_statement :=
  cbv beta iota zeta;
  match goal with
  | |- rbind ?m _ = _ -> _ =>
      let E := fresh "E" in
      destruct m eqn:E; cbn [rbind]; [|intros D; discriminate D]
  end.

(** The exceptions of a conversion are not those of a division. *)
Ltac no_division H :=
  repeat (unfold getitem, read_mesh, py_float, py_int, py_fraction,
            int_of_float, rbind in H;
          cbv beta iota in H;
          match type of H with
          | context [match ?x with _ => _ end] =>
              lazymatch x with
              | context [match _ with _ => _ end] => fail
              | _ => destruct x
              end
          end);
  discriminate H.

Ltac next_conversion :=
  cbv beta iota zeta;
  match goal with
  | |- rbind ?m _ = _ -> _ =>
      let E := fresh "E" in
      destruct m eqn:E; cbn [rbind];
      [|intros D; inversion D; subst; exfalso; no_division E]
  end.

Lemma options_before_max_dt_returns (args : list (string * pyval))
      (t : bool) (Ra Pr Q tb : F) :
  options_before_max_dt float_of_string int_of_string args
  = Ok (t, Ra, Pr, Q, tb) ->
  rbind (getitem "--Ra" args) (py_float float_of_string) = Ok Ra /\
  rbind (getitem "--Pr" args) (py_float float_of_string) = Ok Pr /\
  rbind (getitem "--Q" args) (py_float float_of_string) = Ok Q /\
  feqb Ra (of_Z 0) = false /\
  tb = fsqrt (fdiv Pr Ra).
Proof.
  unfold options_before_max_dt.
  repeat next_statement.
  intros D. inversion D; subst.
  match goal with
  | H : py_div _ _ = Ok _ |- _ => apply py_div_ok in H; destruct H as [H1 H2]
  end.
  subst. conj; try assumption; reflexivity.
Qed.

Lemma options_before_max_dt_divides (args : list (string * pyval)) :
  options_before_max_dt float_of_string int_of_string args
  = Raise ZeroDivisionError ->
  exists Ra,
    rbind (getitem "--Ra" args) (py_float float_of_string) = Ok Ra /\
    feqb Ra (of_Z 0) = true.
Proof.
  unfold options_before_max_dt.
  repeat next_conversion.
  match goal with
  | |- rbind (py_div ?x ?y) _ = _ -> _ =>
      unfold py_div; destruct (feqb y (of_Z 0)) eqn:Hz; cbn [rbind];
      [intros _; exists y; split; first [assumption|reflexivity]
      |intros D; discriminate D]
  end.
Qed.

Lemma read_options_returns (args : list (string * pyval))
      (t : bool) (Ra Pr Q tb f : F) :
  read_options float_of_string int_of_string args
  = Ok (t, Ra, Pr, Q, tb, f) ->
  options_before_max_dt float_of_string int_of_string args
  = Ok (t, Ra, Pr, Q, tb).
Proof.
  unfold read_options.
  destruct (options_before_max_dt float_of_string int_of_string args)
    as [before|e]; cbn [rbind]; [|intros D; discriminate D].
  next_statement. intros D. now inversion D.
Qed.

Lemma read_options_divides (args : list (string * pyval)) :
  read_options float_of_string int_of_string args
  = Raise ZeroDivisionError ->
  options_before_max_dt float_of_string int_of_string args
  = Raise ZeroDivisionError.
Proof.
  unfold read_options.
  destruct (options_before_max_dt float_of_string int_of_string args)
    as [before|e]; cbn [rbind]; [|intros D; now inversion D].
  next_conversion. intros D. discriminate D.
Qed.

Lemma all_zero_zeros (n m : nat) :
  all_zero (repeat (repeat (of_Z 0 : F) m) n).
Proof.
  unfold all_zero. apply Forall_forall. intros row Hrow.
  apply repeat_spec in Hrow. subst row.
  apply Forall_forall. intros x Hx. now apply repeat_spec in Hx.
Qed.

(** X17.  When the setup returns, the first loop test finds: Ra and Q as
    they were parsed, both non-zero (the setup has divided by each), the
    fields [Ra_fd] and [Q_fd] uniformly at those values, [CFL.max_dt]
    equal to [max_dt] with the velocities registered once, the rolling
    window unused, no step requested, the counter at 0 with [--Nboots] as
    its maximum, and the wait time at 20 buoyancy times. *)
Theorem setup_prepares_the_main_loop
        (args : list (string * pyval)) (io : init_obs F)
        (P : params) (s : state) :
  setup float_of_string int_of_string fraction_of_string args io
  = Ok (P, s) ->
  (rbind (getitem "--Ra" args) (py_float float_of_string) = Ok (cRa s) /\
   rbind (getitem "--Q" args) (py_float float_of_string) = Ok (cQ s) /\
   rbind (getitem "--Nboots" args) (py_int int_of_string)
   = Ok (max_bootstrap_steps P)) /\
  (feqb (cRa s) (of_Z 0) = false /\ feqb (cQ s) (of_Z 0) = false) /\
  (Ra_fd s = repeat (cRa s) (i_grid io) /\
   Q_fd s = repeat (cQ s) (i_grid io)) /\
  (cfl_max_dt (CFL s) = max_dt s /\
   cfl_velocities (CFL s) = [velocity_names P]) /\
  window_unused s /\
  (bootstrap_now s = false /\ bootstrap_steps s = 0%Z) /\
  (t_buoy s = fsqrt (fdiv (Pr P) (cRa s)) /\
   bootstrap_wait_time s = fmul (of_Z 20) (t_buoy s)).
Proof.
  unfold setup.
  set (zeros := repeat (repeat (of_Z 0) 4) 4000).
  assert (Hzeros : all_zero zeros) by apply all_zero_zeros.
  clearbody zeros.
  destruct (read_options float_of_string int_of_string args)
    as [[[[[[t Ra] Pr0] Q] tb] f]|e] eqn:Hopts; cbn [rbind];
    [|intros D; discriminate D].
  apply read_options_returns, options_before_max_dt_returns in Hopts.
  destruct Hopts as (HRa & HPr & HQ & Hnz & ->).
  repeat next_statement.
  intros D. injection D as <- <-.
  match goal with
  | H : py_div _ _ = Ok _ |- _ => apply py_div_ok in H; destruct H as [H1 H2]
  end.
  unfold window_unused, velocity_names.
  cbn [cRa cQ Ra_fd Q_fd CFL cfl_max_dt cfl_velocities max_dt t_buoy
       bootstrap_force_balances rolled bootstrap_i bootstrap_now
       bootstrap_steps bootstrap_wait_time max_bootstrap_steps Pr threeD].
  conj; try assumption; reflexivity.
Qed.

(** X18.  The options read through line 400 raise [ZeroDivisionError]
    only at line 399: then [--Ra] was read and is zero.  None of the
    conversions [float], [int] and [split] before it divides. *)
Theorem first_options_divide_by_Ra_only (args : list (string * pyval)) :
  read_options float_of_string int_of_string args
  = Raise ZeroDivisionError ->
  exists Ra,
    rbind (getitem "--Ra" args) (py_float float_of_string) = Ok Ra /\
    feqb Ra (of_Z 0) = true.
Proof.
  intros H. now apply options_before_max_dt_divides, read_options_divides.
Qed.

End SetupRuns.

(** * The path through (Ra, Q), step by step *)

Section Paths.

Context {F : Type} {A : Arith F}.
Variable P : params (F := F).

Implicit Types (s : @state F) (o : @obs F) (tr : list (@obs F)).

(** A pass of the controller that returns either takes a step -- the step
    fires, its arithmetic is defined and line 554 logs it -- or leaves
    what lines 531-534 leave. *)
Lemma completed_pass s c s1 (l : list event) :
  bootstrap_controller P s = (Ok c, s1, l) ->
  (fires P s /\ c = Continue /\ l = [LogInfo "bootstrapping Ra, Q"] /\
   exists nRa nQ,
     step_defined P (granted (triggered s)) nRa nQ /\
     s1 = after_bootstrap P (granted (triggered s)) nRa nQ)
  \/
  (~ fires P s /\ s1 = triggered s /\ steps_logged l = 0%nat).
Proof.
  rewrite bootstrap_controller_eq. unfold fires.
  destruct (bootstrap_now (triggered s)) eqn:Hnow.
  - destruct (Z.eqb_spec (bootstrap_steps (triggered s))
                         (max_bootstrap_steps P)) as [Hmax|Hmax].
    + intros E. inversion E; subst. right.
      conj; [intros [_ D]; now apply D|reflexivity|reflexivity].
    + destruct (apply_bootstrap P (granted (triggered s)))
        as [[[[]|e] sa] la] eqn:Happ; intros E; [|discriminate E].
      inversion E; subst. left.
      pose proof Happ as Hret. apply apply_bootstrap_returns in Hret.
      destruct Hret as (nRa & nQ & Hdef & ->).
      rewrite (apply_bootstrap_defined Hdef) in Happ.
      inversion Happ; subst.
      conj; [reflexivity|exact Hmax|reflexivity|reflexivity|].
      exists nRa, nQ. split; [exact Hdef|reflexivity].
  - intros E. inversion E; subst. right.
    conj; [intros [D _]; discriminate D|reflexivity|reflexivity].
Qed.


(** *** What the main loop can raise *)





(** *** The fields that the equations read *)

(** Grid data with one value at every point. *)
Definition uniform (g : list F) : Prop :=
  exists x, Forall (fun y => y = x) g.

Lemma scale_uniform (k : F) (g : list F) : uniform g -> uniform (scale k g).
Proof.
  intros [x Hx]. exists (fmul x k). unfold scale. apply Forall_map.
  apply Forall_impl with (2 := Hx). intros y ->. reflexivity.
Qed.

Lemma rescaled_uniform (g g' : list F) :
  rescaled g g' -> uniform g -> uniform g'.
Proof.
  intros [->|[k ->]] H; [exact H|now apply scale_uniform].
Qed.

(** X21.  The fields [Ra_fd] and [Q_fd] that the equations read are only
    ever multiplied as a whole (lines 555-556): when each holds one value
    at every grid point at the start (as the setup leaves them), each does
    so in every state a run of the main loop reaches, however it ends. *)
Theorem fields_stay_uniform tr s r s1 (l : list event) :
  uniform (Ra_fd s) -> uniform (Q_fd s) ->
  bootstrap_loop P tr s = (r, s1, l) ->
  uniform (Ra_fd s1) /\ uniform (Q_fd s1).
Proof.
  intros HRa HQ Hrun.
  assert (H : uniform (Ra_fd s) /\ uniform (Q_fd s)) by now split.
  revert H.
  apply (invariant_along_bootstrap_loop
           (P := P) (fun s => uniform (Ra_fd s) /\ uniform (Q_fd s)))
    with (7 := Hrun).
  - intros x s2 H. exact H.
  - intros o s2 H. unfold advanced. destruct (sampling P o); exact H.
  - intros s2 H. unfold triggered.
    destruct (fltb (Re_avg s2) (of_Z 1)); [exact H|].
    destruct (fltb (bootstrap_wait_time s2)
                   (fsub (sim_time s2) (last_bootstrap_time s2))); exact H.
  - intros s2 H. exact H.
  - intros s2 nRa nQ _ [Ha Hb].
    cbn [after_bootstrap Ra_fd Q_fd]. split; now apply scale_uniform.
  - intros s2 s3 Hf [Ha Hb].
    destruct (failed_step_fields Hf) as [Fa Fb].
    split; eapply rescaled_uniform; eassumption.
Qed.

(** *** The pair after the steps of a run *)

Section Iterated.

(** The new Rayleigh and Chandrasekhar numbers as functions of the old
    ones, where lines 544-552 compute them so. *)
Variables fRa fQ : F -> F.
Hypothesis select_step_is : forall Ra Q nRa nQ,
    select_step P Ra Q = Ok (nRa, nQ) -> nRa = fRa Ra /\ nQ = fQ Q.

(** The variable [x] after [n] steps from the Rayleigh number [Ra]: line
    561 or 562 multiplies it by the quotient [cRa/nRa] at every step. *)
Fixpoint rescaled_by_steps (n : nat) (Ra x : F) : F :=
  match n with
  | O => x
  | S n' => rescaled_by_steps n' (fRa Ra) (fmul x (fdiv Ra (fRa Ra)))
  end.

Lemma iterated_pass s c s1 (l : list event) :
  bootstrap_controller P s = (Ok c, s1, l) ->
  let n := steps_logged l in
  (fires P s -> n = 1%nat /\ c = Continue) /\
  (n <= 1)%nat /\
  bootstrap_steps s1 = (bootstrap_steps s + Z.of_nat n)%Z /\
  cRa s1 = Nat.iter n fRa (cRa s) /\
  cQ s1 = Nat.iter n fQ (cQ s) /\
  bootstrap_wait_time s1
  = rescaled_by_steps n (cRa s) (bootstrap_wait_time s) /\
  max_dt s1 = rescaled_by_steps n (cRa s) (max_dt s) /\
  (t_buoy s = fsqrt (fdiv (Pr P) (cRa s)) ->
   t_buoy s1 = fsqrt (fdiv (Pr P) (cRa s1))).
Proof.
  intros H. apply completed_pass in H.
  destruct (triggered_keeps s) as (K1 & K2 & K3 & K4 & K5 & _).
  destruct H as [(Hf & -> & -> & nRa & nQ & (Hsel & _) & ->)
                |(Hf & -> & Hl)].
  - cbn [cRa cQ granted set_bootstrap_steps set_bootstrap_now] in Hsel.
    rewrite K1, K2 in Hsel.
    apply select_step_is in Hsel. destruct Hsel as [-> ->].
    change (steps_logged [LogInfo "bootstrapping Ra, Q"]) with 1%nat.
    cbn. rewrite K1, K3, K4, K5.
    conj; first [reflexivity|lia|intros _; split; reflexivity].
  - rewrite Hl. cbn. rewrite K1, K2, K3, K4, K5.
    conj; first [reflexivity|lia|intros D; contradiction|idtac].
    unfold triggered.
    destruct (fltb (Re_avg s) (of_Z 1));
      [|destruct (fltb (bootstrap_wait_time s)
                       (fsub (sim_time s) (last_bootstrap_time s)))];
      intros H; exact H.
Qed.

Lemma iter_add (f : F -> F) (n m : nat) (x : F) :
  Nat.iter (n + m) f x = Nat.iter m f (Nat.iter n f x).
Proof. rewrite Nat.add_comm. apply Nat.iter_add. Qed.

Lemma rescaled_by_steps_add (n m : nat) (Ra x : F) :
  rescaled_by_steps (n + m) Ra x
  = rescaled_by_steps m (Nat.iter n fRa Ra) (rescaled_by_steps n Ra x).
Proof.
  revert Ra x. induction n as [|n IH]; intros Ra x; [reflexivity|].
  rewrite Nat.iter_succ_r. cbn [Nat.add rescaled_by_steps]. now rewrite IH.
Qed.

Lemma iterated_loop tr s ex s1 (l : list event) :
  bootstrap_loop P tr s = (Ok ex, s1, l) ->
  let n := steps_logged l in
  bootstrap_steps s1 = (bootstrap_steps s + Z.of_nat n)%Z /\
  cRa s1 = Nat.iter n fRa (cRa s) /\
  cQ s1 = Nat.iter n fQ (cQ s) /\
  bootstrap_wait_time s1
  = rescaled_by_steps n (cRa s) (bootstrap_wait_time s) /\
  max_dt s1 = rescaled_by_steps n (cRa s) (max_dt s) /\
  (t_buoy s = fsqrt (fdiv (Pr P) (cRa s)) ->
   t_buoy s1 = fsqrt (fdiv (Pr P) (cRa s1))).
Proof.
  revert s ex s1 l. induction tr as [|o tr IH]; intros s ex s1 l.
  - cbn. unfold ret. intros E. inversion E; subst. cbn.
    conj; try reflexivity; [lia|auto].
  - rewrite bootstrap_loop_cons.
    destruct (loop_test o s).
    2:{ intros E. inversion E; subst. cbn.
        conj; try reflexivity; [lia|auto]. }
    destruct (advance P o s) as [[ra sa] la] eqn:Hadv.
    pose proof Hadv as Ha. apply advance_messages in Ha.
    destruct Ha as (Ha & _).
    destruct ra as [[]|e]; [|intros E; discriminate E].
    assert (Hsa : sa = advanced P o s).
    { revert Hadv. destruct (o_step o) as [tag|] eqn:Hstep.
      - rewrite advance_raises with (tag := tag) by exact Hstep.
        intros D. discriminate D.
      - rewrite advance_returns by exact Hstep.
        intros D. now inversion D. }
    destruct (advanced_projections P o s)
      as (_ & _ & _ & _ & _ & G1 & G2 & G3 & _ & G4 & _ & G5 & _).
    assert (G6 : t_buoy (advanced P o s) = t_buoy s)
      by (unfold advanced; destruct (sampling P o); reflexivity).
    destruct (bootstrap_controller P sa) as [[[c|e] sc] lc] eqn:Hc;
      [|intros E; discriminate E].
    pose proof Hc as Hpass. apply iterated_pass in Hpass.
    cbv zeta in Hpass.
    destruct Hpass as (_ & _ & C1 & C2 & C3 & C4 & C5 & C6).
    subst sa.
    rewrite G3 in C1. rewrite G1 in C2, C4, C5, C6. rewrite G2 in C3.
    rewrite G4 in C4. rewrite G5 in C5. rewrite G6 in C6.
    destruct c.
    + destruct (bootstrap_loop P tr sc) as [[[ex3|e3] s3] l3] eqn:Htr;
        intros E; [|discriminate E].
      pose proof (IH _ _ _ _ Htr) as Hrest. cbv zeta in Hrest.
      destruct Hrest as (H1 & H2 & H3 & H4 & H5 & H6).
      inversion E; subst. cbv zeta.
      replace (steps_logged (la ++ lc ++ l3))
        with (steps_logged lc + steps_logged l3)%nat
        by (unfold steps_logged in *; rewrite !occurrences_app, Ha; lia).
      rewrite !iter_add, !rescaled_by_steps_add, <- C2, <- C3, <- C4, <- C5.
      conj; [lia|assumption|assumption|assumption|assumption|auto].
    + intros E. inversion E; subst. cbv zeta.
      replace (steps_logged (la ++ lc))
        with (steps_logged lc)
        by (unfold steps_logged in *; rewrite !occurrences_app, Ha; lia).
      conj; assumption.
Qed.

(** X20.  The wait time and the cap on the time step are rescaled
    together.  In a run of the main loop that does not raise, after its
    [N] steps each is its first value multiplied in turn by the quotients
    [Ra_old/Ra_new] of the steps taken, the same quotients for both and
    each product rounded; and the buoyancy time is [sqrt(Pr/Ra)] of the
    current Rayleigh number whenever it was at the start. *)
Theorem wait_and_cap_rescale_together tr s ex s1 (l : list event) :
  bootstrap_loop P tr s = (Ok ex, s1, l) ->
  let N := steps_logged l in
  cRa s1 = Nat.iter N fRa (cRa s) /\
  bootstrap_wait_time s1
  = rescaled_by_steps N (cRa s) (bootstrap_wait_time s) /\
  max_dt s1 = rescaled_by_steps N (cRa s) (max_dt s) /\
  (t_buoy s = fsqrt (fdiv (Pr P) (cRa s)) ->
   t_buoy s1 = fsqrt (fdiv (Pr P) (cRa s1))).
Proof.
  intros Hrun N. subst N.
  pose proof Hrun as H. apply iterated_loop in H. cbv zeta in H.
  destruct H as (_ & H2 & _ & H4 & H5 & H6).
  conj; assumption.
Qed.

End Iterated.

Lemma iter_id (n : nat) (x : F) : Nat.iter n (fun y => y) x = x.
Proof. induction n as [|n IH]; [reflexivity|exact IH]. Qed.

(** C3, as the code has it.  With [bootstrap_β == 0] and [p] the value of
    [10 ** logStep]: a pass of the controller in which a step fires
    returns whenever Ra, Q and the product [Ra * p] are not zero, and when
    it returns it has multiplied the Rayleigh number by [p], one
    floating-point product, left the Chandrasekhar number as it was,
    advanced the counter by one and logged the step; and in a run of the
    main loop that does not raise, with [N] the number of steps it has
    logged, the counter has advanced by [N], it has stayed within the
    configured maximum if it started within it, the Rayleigh number is
    the first one multiplied [N] times in turn by [p], and the
    Chandrasekhar number is the first one. *)
Theorem fired_steps_multiply_Ra (p : F) :
  feqb (bootstrap_β P) (of_Z 0) = true ->
  fpow (of_Z 10) (bootstrap_logStep P) = Ok p ->
  (forall s,
      fires P s ->
      (feqb (cRa s) (of_Z 0) = false ->
       feqb (cQ s) (of_Z 0) = false ->
       feqb (fmul (cRa s) p) (of_Z 0) = false ->
       exists s1,
         bootstrap_controller P s
         = (Ok Continue, s1, [LogInfo "bootstrapping Ra, Q"])) /\
      (forall c s1 (l : list event),
          bootstrap_controller P s = (Ok c, s1, l) ->
          c = Continue /\ steps_logged l = 1%nat /\
          bootstrap_steps s1 = (bootstrap_steps s + 1)%Z /\
          cRa s1 = fmul (cRa s) p /\ cQ s1 = cQ s)) /\
  (forall tr s0 ex s (l : list event),
      bootstrap_loop P tr s0 = (Ok ex, s, l) ->
      let N := steps_logged l in
      bootstrap_steps s = (bootstrap_steps s0 + Z.of_nat N)%Z /\
      ((bootstrap_steps s0 <= max_bootstrap_steps P)%Z ->
       (bootstrap_steps s <= max_bootstrap_steps P)%Z) /\
      cRa s = Ra_stepped p (cRa s0) N /\
      cQ s = cQ s0).
Proof.
  intros Hβ Hp.
  assert (Hnew : forall Ra Q, select_step P Ra Q = Ok (fmul Ra p, Q)).
  { intros Ra Q. unfold select_step. now rewrite Hβ, Hp. }
  assert (Hsel : forall Ra Q nRa nQ,
             select_step P Ra Q = Ok (nRa, nQ) ->
             nRa = (fun r => fmul r p) Ra /\ nQ = (fun q => q) Q).
  { intros Ra Q nRa nQ. rewrite Hnew.
    intros E. inversion E. split; reflexivity. }
  split.
  - intros s Hf. split.
    + intros HRa HQ Hn. eexists. apply fires_controller; [exact Hf|].
      unfold step_defined. rewrite Hnew. conj; first [reflexivity|assumption].
    + intros c s1 l Hc.
      pose proof (@iterated_pass _ _ Hsel s c s1 l Hc) as H.
      cbv zeta in H. destruct H as (H0 & _ & H1 & H2 & H3 & _).
      destruct (H0 Hf) as [Hn ->]. rewrite Hn in H1, H2, H3.
      conj; try assumption; reflexivity.
  - intros tr s0 ex s l Hrun N.
    pose proof (@iterated_loop _ _ Hsel tr s0 ex s l Hrun) as H.
    cbv zeta in H. destruct H as (H1 & H2 & H3 & _).
    subst N. rewrite iter_id in H3.
    conj; try assumption.
    intros Hle. pose proof Hrun as Hc. apply loop_counter in Hc; tauto.
Qed.

(** C4, as the code has it.  With both exponents non-zero, a pass of the
    controller in which a step fires and which returns has computed the
    powers [p = 10 ** logStep] and [d = p ** (α/β)], multiplied the
    Rayleigh number by [p] and divided the Chandrasekhar number by [d],
    each a single floating-point operation, and advanced the counter by
    one; and the pass returns whenever the two powers are defined and Ra,
    Q, [d] and the product [Ra * p] are not zero. *)
Theorem fired_step_multiplies_Ra_and_divides_Q s :
  feqb (bootstrap_α P) (of_Z 0) = false ->
  feqb (bootstrap_β P) (of_Z 0) = false ->
  fires P s ->
  (forall c s1 (l : list event),
      bootstrap_controller P s = (Ok c, s1, l) ->
      exists p d,
        fpow (of_Z 10) (bootstrap_logStep P) = Ok p /\
        fpow p (fdiv (bootstrap_α P) (bootstrap_β P)) = Ok d /\
        cRa s1 = fmul (cRa s) p /\
        cQ s1 = fdiv (cQ s) d /\
        c = Continue /\ steps_logged l = 1%nat /\
        bootstrap_steps s1 = (bootstrap_steps s + 1)%Z) /\
  (forall p d,
      fpow (of_Z 10) (bootstrap_logStep P) = Ok p ->
      fpow p (fdiv (bootstrap_α P) (bootstrap_β P)) = Ok d ->
      feqb (cRa s) (of_Z 0) = false ->
      feqb (cQ s) (of_Z 0) = false ->
      feqb d (of_Z 0) = false ->
      feqb (fmul (cRa s) p) (of_Z 0) = false ->
      exists s1,
        bootstrap_controller P s
        = (Ok Continue, s1, [LogInfo "bootstrapping Ra, Q"]) /\
        cRa s1 = fmul (cRa s) p /\
        cQ s1 = fdiv (cQ s) d).
Proof.
  intros Hα Hβ Hf. split.
  - intros c s1 l Hc.
    pose proof Hc as H. apply completed_pass in H.
    destruct H as [(_ & -> & -> & nRa & nQ & (Hsel & _) & ->)|(D & _)];
      [|contradiction].
    destruct (triggered_keeps s) as (K1 & K2 & K3 & _).
    cbn [cRa cQ granted set_bootstrap_steps set_bootstrap_now] in Hsel.
    rewrite K1, K2 in Hsel. revert Hsel.
    unfold select_step. rewrite Hα, Hβ.
    destruct (fpow (of_Z 10) (bootstrap_logStep P)) as [p|e0] eqn:Hp;
      cbn [rbind]; [|intros E; discriminate E].
    unfold py_div at 1. rewrite Hβ. cbn [rbind].
    destruct (fpow p (fdiv (bootstrap_α P) (bootstrap_β P)))
      as [d|e1] eqn:Hd;
      cbn [rbind]; [|intros E; discriminate E].
    destruct (py_div (cQ s) d) as [q|e2] eqn:Hq; cbn [rbind];
      intros E; [|discriminate E].
    apply py_div_ok in Hq. destruct Hq as [_ ->].
    inversion E; subst.
    exists p, d. cbn. rewrite K3. conj; first [assumption|reflexivity].
  - intros p d Hp Hd HRa HQ Hd0 Hn.
    assert (Hdef : step_defined P s (fmul (cRa s) p) (fdiv (cQ s) d)).
    { unfold step_defined, select_step. rewrite Hα, Hβ, Hp. cbn [rbind].
      unfold py_div. rewrite Hβ. cbn [rbind]. rewrite Hd. cbn [rbind].
      rewrite Hd0. cbn [rbind]. conj; first [reflexivity|assumption]. }
    eexists. split; [exact (fires_controller Hf Hdef)|].
    split; reflexivity.
Qed.

(** X22.  With both exponents non-zero and the powers [p = 10 ** logStep]
    and [d = p ** (α/β)]: in a run of the main loop that does not raise,
    after its [N] steps the Rayleigh number is the first one multiplied
    [N] times in turn by [p], and the Chandrasekhar number is the first
    one divided [N] times in turn by [d], each operation rounded. *)
Theorem run_multiplies_Ra_and_divides_Q (p d : F) tr s ex s1
        (l : list event) :
  feqb (bootstrap_α P) (of_Z 0) = false ->
  feqb (bootstrap_β P) (of_Z 0) = false ->
  fpow (of_Z 10) (bootstrap_logStep P) = Ok p ->
  fpow p (fdiv (bootstrap_α P) (bootstrap_β P)) = Ok d ->
  bootstrap_loop P tr s = (Ok ex, s1, l) ->
  let N := steps_logged l in
  bootstrap_steps s1 = (bootstrap_steps s + Z.of_nat N)%Z /\
  cRa s1 = Nat.iter N (fun r => fmul r p) (cRa s) /\
  cQ s1 = Nat.iter N (fun q => fdiv q d) (cQ s).
Proof.
  intros Hα Hβ Hp Hd Hrun N.
  assert (Hsel : forall Ra Q nRa nQ,
             select_step P Ra Q = Ok (nRa, nQ) ->
             nRa = (fun r => fmul r p) Ra /\ nQ = (fun q => fdiv q d) Q).
  { intros Ra Q nRa nQ. unfold select_step. rewrite Hα, Hβ, Hp.
    cbn [rbind]. unfold py_div at 1. rewrite Hβ. cbn [rbind].
    rewrite Hd. cbn [rbind].
    destruct (py_div Q d) as [q|e2] eqn:Hq; cbn [rbind];
      intros E; [|discriminate E].
    apply py_div_ok in Hq. destruct Hq as [_ ->].
    inversion E. split; reflexivity. }
  pose proof (@iterated_loop _ _ Hsel tr s ex s1 l Hrun) as H.
  cbv zeta in H. destruct H as (H1 & H2 & H3 & _).
  conj; assumption.
Qed.

(** X23.  With [bootstrap_α == 0], [bootstrap_β] non-zero and [p] the
    value of [10 ** logStep]: in a run of the main loop that does not
    raise, after its [N] steps the Chandrasekhar number is the first one
    multiplied [N] times in turn by [p], each product rounded, and the
    Rayleigh number is the first one. *)
Theorem run_multiplies_Q (p : F) tr s ex s1 (l : list event) :
  feqb (bootstrap_α P) (of_Z 0) = true ->
  feqb (bootstrap_β P) (of_Z 0) = false ->
  fpow (of_Z 10) (bootstrap_logStep P) = Ok p ->
  bootstrap_loop P tr s = (Ok ex, s1, l) ->
  let N := steps_logged l in
  bootstrap_steps s1 = (bootstrap_steps s + Z.of_nat N)%Z /\
  cRa s1 = cRa s /\
  cQ s1 = Nat.iter N (fun q => fmul q p) (cQ s).
Proof.
  intros Hα Hβ Hp Hrun N.
  assert (Hsel : forall Ra Q nRa nQ,
             select_step P Ra Q = Ok (nRa, nQ) ->
             nRa = (fun r => r) Ra /\ nQ = (fun q => fmul q p) Q).
  { intros Ra Q nRa nQ. unfold select_step. rewrite Hα, Hβ, Hp.
    cbn [rbind]. intros E. inversion E. split; reflexivity. }
  pose proof (@iterated_loop _ _ Hsel tr s ex s1 l Hrun) as H.
  cbv zeta in H. destruct H as (H1 & H2 & H3 & _).
  subst N. rewrite iter_id in H2.
  conj; assumption.
Qed.

End Paths.

(** * Further worked runs at binary64 *)

Module MoreRuns.

Import PrimFloat.
Import Runs.
#[local] Existing Instance Binary64.example.

(** What a whole run returns, by components. *)
Lemma run_components {X} (p : result X * @state float * list (@event float)) :
  p = (fst (fst p), snd (fst p), snd p).
Proof. now destruct p as [[r s] l]. Qed.

(** The three passes of the worked run: slow at iteration 10, fast at 20
    and 30, the step firing at 30. *)
Definition three_passes : list (@obs float) :=
  [slow_pass_10; fast_pass_20; fast_pass_30].

Local Notation "'after_three_passes'" :=
  (bootstrap_loop decade three_passes start_2D).

(** The same path with the step budget spent: [--Nboots=0]. *)
Definition spent : @params float :=
  {| threeD := false; Pr := 1%float;
     bootstrap_α := 1%float; bootstrap_β := 0%float;
     bootstrap_logStep := 1%float;
     max_bootstrap_steps := 0; start_iter := 0; no_join := false |}.

(** The dictionary of the defaults of [bootstrap_mhd_rbc.py]: TT, NS and
    MC. *)
Definition default_bc_dict (k : bc_key) : bool :=
  match k with
  | TT | NS | MC => true
  | _ => false
  end.

Lemma default_one_per_family : one_per_family default_bc_dict.
Proof. repeat split. Qed.

Lemma config_item_sets_its_option_witness :
  NoDup (map fst [("3d", "false")]%string) /\
  In (item_name "--3D", "false"%string) [("3d", "false")]%string /\
  lookup "--3D" command_line = Some (PBool false) /\
  lookup "--3D" (merge_config (Some [("3d", "false")]%string) command_line)
  = Some (PStr "false") /\
  forall x,
    lookup "--3D" (merge_config (Some [("3d", "false")]%string) command_line)
    = Some x ->
    truthy x = true.
Proof.
  assert (H1 : NoDup (map fst [("3d", "false")]%string))
    by (repeat constructor; intros []).
  assert (H2 : In (item_name "--3D", "false"%string) [("3d", "false")]%string)
    by (left; reflexivity).
  conj; [exact H1|exact H2|reflexivity| |];
    apply (@config_item_sets_its_option
             [("3d", "false")]%string command_line "--3D" "false"
             (PBool false) H1 H2 eq_refl).
Defined.


Lemma bootstrap_problem_is_square_witness :
  one_per_family default_bc_dict /\
  List.length (added (eqns true)) = List.length (variables true) /\
  List.length (at_mode 0 3 (added (bcs default_bc_dict true)))
  = List.length (variables true) /\
  List.length (variables true) = 24%nat.
Proof.
  split; [exact default_one_per_family|].
  exact (@bootstrap_problem_is_square default_bc_dict true 0 3
           default_one_per_family).
Defined.

(** Both thermal flags given: [--FT --FF]. *)
Definition both_thermal_flags : list (string * pyval) :=
  setitem "--FF" (PBool true) (setitem "--FT" (PBool true) command_line).

Definition flagged_bc_dict : bc_key -> bool :=
  match bootstrap_bc_dict both_thermal_flags default_bc_dict with
  | Ok d => d
  | Raise _ => default_bc_dict
  end.

Lemma bootstrap_flags_keep_one_condition_per_family_witness :
  bootstrap_bc_dict both_thermal_flags default_bc_dict = Ok flagged_bc_dict /\
  one_per_family flagged_bc_dict /\
  flagged_bc_dict FT = true /\ flagged_bc_dict FF = false /\
  List.length (at_mode 1 0 (added (bcs flagged_bc_dict false)))
  = List.length (variables false).
Proof.
  assert (H : bootstrap_bc_dict both_thermal_flags default_bc_dict
              = Ok flagged_bc_dict) by reflexivity.
  destruct (@bootstrap_flags_keep_one_condition_per_family
              both_thermal_flags default_bc_dict flagged_bc_dict false 1 0
              eq_refl eq_refl eq_refl eq_refl eq_refl H)
    as (H1 & H2 & H3).
  conj; [exact H|exact H1| | |exact H3];
    apply (H2 (PBool true) eq_refl eq_refl).
Defined.

Lemma start_2D_window_unused : window_unused start_2D.
Proof. repeat split; repeat constructor. Qed.

Lemma rolling_window_is_never_written_witness :
  window_unused start_2D /\
  window_unused (snd (fst after_three_passes)).
Proof.
  split; [exact start_2D_window_unused|].
  exact (@rolling_window_is_never_written
           float Binary64.example decade three_passes start_2D _ _ _
           start_2D_window_unused (run_components after_three_passes)).
Defined.

Lemma CFL_cap_follows_max_dt_witness :
  cfl_max_dt (CFL start_2D) = max_dt start_2D /\
  cfl_max_dt (CFL (snd (fst after_three_passes)))
  = max_dt (snd (fst after_three_passes)).
Proof.
  split; [reflexivity|].
  exact (@CFL_cap_follows_max_dt
           float Binary64.example decade three_passes start_2D _ _ _
           eq_refl (run_components after_three_passes)).
Defined.

Lemma current_Ra_is_never_zero_witness :
  feqb (cRa start_2D) (of_Z 0) = false /\
  feqb (cRa (snd (fst after_three_passes))) (of_Z 0) = false.
Proof.
  split; [reflexivity|].
  exact (proj1 (@current_Ra_is_never_zero
                  float Binary64.example decade three_passes start_2D _ _ _
                  eq_refl (run_components after_three_passes))).
Defined.

Lemma bootstrap_steps_logged_at_most_Nboots_witness :
  (bootstrap_steps start_2D <= max_bootstrap_steps decade)%Z /\
  steps_logged (snd after_three_passes) = 1%nat /\
  (Z.of_nat (steps_logged (snd after_three_passes)) <= 12 - 0)%Z.
Proof.
  assert (H : (bootstrap_steps start_2D <= max_bootstrap_steps decade)%Z)
    by (intros C; discriminate C).
  conj; [exact H|vm_compute; reflexivity|].
  exact (@bootstrap_steps_logged_at_most_Nboots
           float Binary64.example decade three_passes start_2D _ _ _
           H (run_components after_three_passes)).
Defined.

Lemma finished_is_logged_exactly_on_break_witness :
  bootstrap_now start_2D = false /\
  bootstrap_loop spent three_passes start_2D
  = (Ok Broke, snd (fst (bootstrap_loop spent three_passes start_2D)),
     snd (bootstrap_loop spent three_passes start_2D)) /\
  finished_logged (snd (bootstrap_loop spent three_passes start_2D)) = 1%nat.
Proof.
  assert (H : bootstrap_loop spent three_passes start_2D
              = (Ok Broke,
                 snd (fst (bootstrap_loop spent three_passes start_2D)),
                 snd (bootstrap_loop spent three_passes start_2D)))
    by (vm_compute; reflexivity).
  conj; [reflexivity|exact H|].
  exact (proj1 (@finished_is_logged_exactly_on_break
                  float Binary64.example spent three_passes start_2D _ _ _
                  eq_refl H)).
Defined.

Lemma one_solver_step_per_pass_witness :
  fst (fst after_three_passes) = Ok Running /\
  solver_steps (snd after_three_passes) = 3%nat.
Proof.
  assert (H : fst (fst after_three_passes) = Ok Running)
    by (vm_compute; reflexivity).
  split; [exact H|].
  exact (proj2 (@one_solver_step_per_pass
                  float Binary64.example decade three_passes start_2D _ _ _
                  (or_introl (run_components after_three_passes))) H).
Defined.

Lemma each_step_adds_the_velocities_again_witness :
  bootstrap_loop decade three_passes start_2D
  = (Ok Running, snd (fst after_three_passes), snd after_three_passes) /\
  bootstrap_steps (snd (fst after_three_passes)) = 1%Z /\
  cfl_velocities (CFL (snd (fst after_three_passes)))
  = cfl_velocities (CFL start_2D)
    ++ repeat (velocity_names decade)
              (Z.to_nat (bootstrap_steps (snd (fst after_three_passes))
                         - bootstrap_steps start_2D)).
Proof.
  assert (H : bootstrap_loop decade three_passes start_2D
              = (Ok Running, snd (fst after_three_passes),
                 snd after_three_passes))
    by (vm_compute; reflexivity).
  conj; [exact H|vm_compute; reflexivity|].
  exact (proj2 (@each_step_adds_the_velocities_again
                  float Binary64.example decade three_passes start_2D _ _ _
                  H)).
Defined.

Lemma grid_space_pass_needs_3D_witness :
  threeD decade = false /\
  occurrences (is_message "Iteration") (snd after_three_passes) = 3%nat /\
  occurrences is_grid_space (snd after_three_passes) = 0%nat.
Proof.
  conj; [reflexivity|vm_compute; reflexivity|].
  exact (proj2 (@grid_space_pass_needs_3D
                  float Binary64.example decade three_passes start_2D _ _ _
                  (or_introl (run_components after_three_passes)))
               eq_refl).
Defined.

(** A wind-up in which the join of the checkpoints returns and the join
    of the second of three analysis tasks raises. *)
Definition second_task_fails : final_obs :=
  {| f_set_checkpoint := None; f_step := None; f_merge := None;
     f_join := None;
     f_tasks := [("slices", None); ("scalar", Some 7%nat);
                 ("profiles", None)]%string |}.

(** A run that blows up in its first pass and is wound up. *)
Local Notation "'blown_run'" :=
  (bootstrap_mhd_rbc decade [blow_up; fast_pass_20] second_task_fails
                     start_2D).

Lemma wind_up_is_always_attempted_witness :
  exists r s l,
    blown_run = Some (r, s, l) /\
    occurrences is_set_checkpoint l = 1%nat /\
    occurrences (is_merge_analysis (F := float)) l = 3%nat.
Proof.
  destruct blown_run as [[[r s] l]|] eqn:H; [|vm_compute in H; discriminate H].
  exists r, s, l. split; [reflexivity|].
  exact (@wind_up_is_always_attempted
           float Binary64.example decade [blow_up; fast_pass_20]
           second_task_fails start_2D r s l (or_introl H)).
Defined.

(** The command line with [--factor] and a decade step given by the
    configuration file. *)
Definition configured_args : list (string * pyval) :=
  merge_config (Some [("factor", "1"); ("logstep", "1")]%string)
               command_line.

Definition configured : result (@params float * @state float) :=
  setup known_floats known_ints known_fractions configured_args fresh.

Definition configured_params : @params float :=
  match configured with
  | Ok (P, _) => P
  | Raise _ => decade
  end.

Definition configured_state : @state float :=
  match configured with
  | Ok (_, s) => s
  | Raise _ => start_2D
  end.

Lemma configured_returns :
  setup known_floats known_ints known_fractions configured_args fresh
  = Ok (configured_params, configured_state).
Proof. vm_compute. reflexivity. Qed.

Lemma setup_prepares_the_main_loop_witness :
  setup known_floats known_ints known_fractions configured_args fresh
  = Ok (configured_params, configured_state) /\
  feqb (cRa configured_state) (of_Z 0) = false /\
  window_unused configured_state /\
  bootstrap_steps configured_state = 0%Z.
Proof.
  split; [exact configured_returns|].
  destruct (@setup_prepares_the_main_loop
              float Binary64.example
              known_floats known_ints known_fractions
              configured_args fresh configured_params configured_state
              configured_returns)
    as (_ & (H1 & _) & _ & _ & H2 & (_ & H3) & _).
  conj; [exact H1|exact H2|exact H3].
Defined.

(** [float(str)] on the strings of a command line with [--Ra=0]. *)
Definition floats_with_zero : string -> option float :=
  known [("1e5", 100000%float); ("1", 1%float); ("2", 2%float);
         ("23.5", 23.5%float); ("0.75", 0.75%float); ("100", 100%float);
         ("0", 0%float)]%string.

Definition zero_Ra_args : list (string * pyval) :=
  merge_config (Some [("factor", "1"); ("ra", "0")]%string) command_line.

Lemma first_options_divide_by_Ra_only_witness :
  read_options floats_with_zero known_ints zero_Ra_args
  = Raise ZeroDivisionError /\
  exists Ra,
    rbind (getitem "--Ra" zero_Ra_args) (py_float floats_with_zero) = Ok Ra /\
    feqb Ra (of_Z 0) = true.
Proof.
  assert (H : read_options floats_with_zero known_ints zero_Ra_args
              = Raise ZeroDivisionError)
    by (vm_compute; reflexivity).
  split; [exact H|].
  exact (@first_options_divide_by_Ra_only
           float Binary64.example floats_with_zero known_ints
           zero_Ra_args H).
Defined.

(** The forces script with [--2.5D --FT --FF]. *)
Definition forces_command_line : list (string * pyval) :=
  [("--2.5D", PBool true); ("--FF", PBool true); ("--FT", PBool true);
   ("--NS", PBool false); ("--MC", PBool false)]%string.

Definition forces_default_bc_dict (k : bc_key) : bool :=
  match k with
  | TT | FS | MI => true
  | _ => false
  end.

Definition forces_flagged_bc_dict : bc_key -> bool :=
  match forces_bc_dict forces_command_line forces_default_bc_dict with
  | Ok d => d
  | Raise _ => forces_default_bc_dict
  end.

Lemma forces_flags_choose_the_thermal_conditions_witness :
  forces_threeD forces_command_line = Ok false /\
  forces_bc_dict forces_command_line forces_default_bc_dict
  = Ok forces_flagged_bc_dict /\
  firstn 2 (forces_bcs forces_flagged_bc_dict false)
  = [("left(T1_z) = 0", Always); ("right(T1)  = 0", Always)]%string.
Proof.
  assert (H1 : forces_threeD forces_command_line = Ok false) by reflexivity.
  assert (H2 : forces_bc_dict forces_command_line forces_default_bc_dict
               = Ok forces_flagged_bc_dict) by reflexivity.
  conj; [exact H1|exact H2|].
  destruct (@forces_flags_choose_the_thermal_conditions
              forces_command_line forces_default_bc_dict
              forces_flagged_bc_dict false eq_refl eq_refl H1 H2)
    as (flat & ft & Hflat & Hft & _ & H).
  inversion Hflat; subst flat. inversion Hft; subst ft.
  exact (H (PBool true) eq_refl).
Defined.

(** ** Runs with two steps *)

(** A fourth pass, at iteration 40 and clock 1/8: the wait time is a tenth
    of the first one after the step at iteration 30, so a second step
    fires. *)
Definition fast_pass_40 : @obs float := pass 40 0.125%float 2%float None.

Definition four_passes : list (@obs float) :=
  [slow_pass_10; fast_pass_20; fast_pass_30; fast_pass_40].

Local Notation "'after_four_passes'" :=
  (bootstrap_loop decade four_passes start_2D).

Lemma fired_steps_multiply_Ra_witness :
  (feqb (bootstrap_β decade) (of_Z 0) = true /\
   fpow (of_Z 10) (bootstrap_logStep decade) = Ok 10%float) /\
  (fires decade at_30 /\
   exists s1,
     bootstrap_controller decade at_30
     = (Ok Continue, s1, [LogInfo "bootstrapping Ra, Q"])) /\
  bootstrap_loop decade four_passes start_2D
  = (Ok Running, snd (fst after_four_passes), snd after_four_passes) /\
  steps_logged (snd after_four_passes) = 2%nat /\
  bootstrap_steps (snd (fst after_four_passes))
  = (bootstrap_steps start_2D
     + Z.of_nat (steps_logged (snd after_four_passes)))%Z /\
  cRa (snd (fst after_four_passes))
  = Ra_stepped 10%float (cRa start_2D)
               (steps_logged (snd after_four_passes)) /\
  Ra_stepped 10%float (cRa start_2D) 2 = 10000000%float /\
  cQ (snd (fst after_four_passes)) = cQ start_2D.
Proof.
  assert (Hβ : feqb (bootstrap_β decade) (of_Z 0) = true) by reflexivity.
  assert (Hp : fpow (of_Z 10) (bootstrap_logStep decade) = Ok 10%float)
    by reflexivity.
  assert (H : bootstrap_loop decade four_passes start_2D
              = (Ok Running, snd (fst after_four_passes),
                 snd after_four_passes))
    by (vm_compute; reflexivity).
  destruct (@fired_steps_multiply_Ra
              float Binary64.example decade 10%float Hβ Hp) as [S R].
  pose proof (R four_passes start_2D Running _ _ H) as T.
  cbv zeta in T. destruct T as (T1 & _ & T3 & T4).
  conj; [exact Hβ|exact Hp|exact fires_at_30| |exact H
        |vm_compute; reflexivity|exact T1
        |exact T3|vm_compute; reflexivity|exact T4].
  exact (proj1 (S at_30 fires_at_30) eq_refl eq_refl eq_refl).
Defined.

(** *** Ra = 1.1 *)

(** [float(str)] on the strings of a command line with [--Ra=1.1]. *)
Definition floats_with_1_1 (k : string) : option float :=
  if String.eqb k "1.1" then Some 0x1.199999999999ap+0%float
  else known_floats k.

(** [--Ra=1.1] with a decade step: [--alp=1 --β=0 --logStep=1]. *)
Definition low_Ra_args : list (string * pyval) :=
  merge_config (Some [("factor", "1"); ("logstep", "1"); ("ra", "1.1")]%string)
               command_line.

Definition low_Ra : result (@params float * @state float) :=
  setup floats_with_1_1 known_ints known_fractions low_Ra_args fresh.

Definition low_Ra_params : @params float :=
  match low_Ra with
  | Ok (P, _) => P
  | Raise _ => decade
  end.

Definition low_Ra_state : @state float :=
  match low_Ra with
  | Ok (_, s) => s
  | Raise _ => start_2D
  end.

(** The wait time is [20 * sqrt(1/1.1)], about 19.07: the average is 2
    from iteration 10 on (clock 4), a step fires at iteration 20 (clock
    24); the wait time is then about 1.907 and a second step fires at
    iteration 30 (clock 48). *)
Definition low_Ra_passes : list (@obs float) :=
  [pass 10 4%float 2%float None; pass 20 24%float 2%float None;
   pass 30 48%float 2%float None].

Local Notation "'low_Ra_run'" :=
  (bootstrap_loop low_Ra_params low_Ra_passes low_Ra_state).

(** The wording of C3 against the code.  With [--Ra=1.1 --β=0
    --logStep=1], after the two steps of the run the Rayleigh number is
    [(1.1 * 10) * 10], which is [110.0] at binary64, and not
    [1.1 * 10 ** 2], which is [110.00000000000001]. *)
Lemma two_decades_are_not_one_product :
  low_Ra = Ok (low_Ra_params, low_Ra_state) /\
  feqb (bootstrap_β low_Ra_params) (of_Z 0) = true /\
  bootstrap_logStep low_Ra_params = 1%float /\
  cRa low_Ra_state = 0x1.199999999999ap+0%float /\
  bootstrap_steps low_Ra_state = 0%Z /\
  bootstrap_loop low_Ra_params low_Ra_passes low_Ra_state
  = (Ok Running, snd (fst low_Ra_run), snd low_Ra_run) /\
  steps_logged (snd low_Ra_run) = 2%nat /\
  bootstrap_steps (snd (fst low_Ra_run)) = 2%Z /\
  cRa (snd (fst low_Ra_run)) = 110%float /\
  (0x1.199999999999ap+0 * 100)%float = 0x1.b800000000001p+6%float /\
  PrimFloat.eqb (cRa (snd (fst low_Ra_run)))
                (0x1.199999999999ap+0 * 100)%float = false.
Proof. conj; vm_compute; reflexivity. Qed.

(** *** A negative [--Nboots] *)

Definition ints_with_negative (k : string) : option Z :=
  if String.eqb k "-1" then Some (-1)%Z else known_ints k.

Definition negative_args : list (string * pyval) :=
  merge_config
    (Some [("factor", "1"); ("logstep", "1"); ("nboots", "-1")]%string)
    command_line.

Definition negative : result (@params float * @state float) :=
  setup known_floats ints_with_negative known_fractions negative_args fresh.

Definition negative_params : @params float :=
  match negative with
  | Ok (P, _) => P
  | Raise _ => decade
  end.

Definition negative_state : @state float :=
  match negative with
  | Ok (_, s) => s
  | Raise _ => start_2D
  end.

Local Notation "'negative_run'" :=
  (bootstrap_loop negative_params four_passes negative_state).

(** The wording of C6 against the code.  [--Nboots=-1] is accepted: the
    counter starts at 0, above the maximum; the test of line 538 is an
    equality, so the steps at iterations 30 and 40 are both taken, the
    loop goes on and the counter is 2. *)
Lemma negative_maximum_is_exceeded :
  negative = Ok (negative_params, negative_state) /\
  max_bootstrap_steps negative_params = (-1)%Z /\
  bootstrap_steps negative_state = 0%Z /\
  bootstrap_loop negative_params four_passes negative_state
  = (Ok Running, snd (fst negative_run), snd negative_run) /\
  steps_logged (snd negative_run) = 2%nat /\
  finished_logged (snd negative_run) = 0%nat /\
  bootstrap_steps (snd (fst negative_run)) = 2%Z /\
  cRa (snd (fst negative_run)) = 10000000%float /\
  (max_bootstrap_steps negative_params
   < bootstrap_steps (snd (fst negative_run)))%Z.
Proof. conj; vm_compute; reflexivity. Qed.

(** *** No [--factor], and a Rayleigh number that stops the setup *)

(** The wording of C10 against the code.  Without [--factor], [--Ra=0]
    ends the script in the [ZeroDivisionError] of line 399 and [--Ra=abc]
    in the [ValueError] of line 127: not in a [TypeError]. *)
Lemma missing_factor_raises_what_comes_first :
  lookup "--factor" command_line = Some PNone /\
  program floats_with_zero known_ints known_fractions
          command_line (Some [("ra", "0")]%string) fresh
          [fast_pass_30] smooth
  = Some (Raise ZeroDivisionError, []) /\
  program known_floats known_ints known_fractions
          command_line (Some [("ra", "abc")]%string) fresh
          [fast_pass_30] smooth
  = Some (Raise ValueError, []).
Proof. conj; vm_compute; reflexivity. Qed.

(** ** The two-exponent path at binary64 *)

(** [--alp=1 --β=1 --logStep=1]: Ra and Q both step by a decade. *)
Definition both_path : @params float :=
  {| threeD := false; Pr := 1%float;
     bootstrap_α := 1%float; bootstrap_β := 1%float;
     bootstrap_logStep := 1%float;
     max_bootstrap_steps := 12; start_iter := 0; no_join := false |}.

Lemma fires_on_both_path : fires both_path at_30.
Proof. vm_compute. split; [reflexivity|intros H; discriminate H]. Defined.

Local Notation "'both_pass'" := (bootstrap_controller both_path at_30).

Lemma fired_step_multiplies_Ra_and_divides_Q_witness :
  (feqb (bootstrap_α both_path) (of_Z 0) = false /\
   feqb (bootstrap_β both_path) (of_Z 0) = false /\
   fires both_path at_30) /\
  cRa at_30 = 100000%float /\ cQ at_30 = 1%float /\
  (exists s1,
      bootstrap_controller both_path at_30
      = (Ok Continue, s1, [LogInfo "bootstrapping Ra, Q"]) /\
      cRa s1 = fmul (cRa at_30) 10%float /\
      cQ s1 = fdiv (cQ at_30) 10%float) /\
  (100000 * 10)%float = 1000000%float /\
  (1 / 10)%float = 0x1.999999999999ap-4%float /\
  (exists p d,
      fpow (of_Z 10) (bootstrap_logStep both_path) = Ok p /\
      fpow p (fdiv (bootstrap_α both_path) (bootstrap_β both_path)) = Ok d /\
      cRa (snd (fst both_pass)) = fmul (cRa at_30) p /\
      cQ (snd (fst both_pass)) = fdiv (cQ at_30) d /\
      Continue = Continue /\ steps_logged (snd both_pass) = 1%nat /\
      bootstrap_steps (snd (fst both_pass))
      = (bootstrap_steps at_30 + 1)%Z).
Proof.
  assert (Hα : feqb (bootstrap_α both_path) (of_Z 0) = false) by reflexivity.
  assert (Hβ : feqb (bootstrap_β both_path) (of_Z 0) = false) by reflexivity.
  assert (H : bootstrap_controller both_path at_30
              = (Ok Continue, snd (fst both_pass), snd both_pass))
    by (vm_compute; reflexivity).
  destruct (@fired_step_multiplies_Ra_and_divides_Q
              float Binary64.example both_path at_30
              Hα Hβ fires_on_both_path) as [T1 T2].
  conj; [exact Hα|exact Hβ|exact fires_on_both_path
        |vm_compute; reflexivity|vm_compute; reflexivity| 
        |vm_compute; reflexivity|vm_compute; reflexivity| ].
  - exact (T2 10%float 10%float eq_refl eq_refl eq_refl eq_refl eq_refl
              eq_refl).
  - exact (T1 Continue _ _ H).
Defined.

Local Notation "'both_run'" :=
  (bootstrap_loop both_path four_passes start_2D).

Lemma run_multiplies_Ra_and_divides_Q_witness :
  bootstrap_loop both_path four_passes start_2D
  = (Ok Running, snd (fst both_run), snd both_run) /\
  steps_logged (snd both_run) = 2%nat /\
  cRa (snd (fst both_run))
  = Nat.iter (steps_logged (snd both_run))
             (fun r => fmul r 10%float) (cRa start_2D) /\
  cQ (snd (fst both_run))
  = Nat.iter (steps_logged (snd both_run))
             (fun q => fdiv q 10%float) (cQ start_2D) /\
  cRa (snd (fst both_run)) = 10000000%float /\
  cQ (snd (fst both_run)) = (1 / 10 / 10)%float.
Proof.
  assert (H : bootstrap_loop both_path four_passes start_2D
              = (Ok Running, snd (fst both_run), snd both_run))
    by (vm_compute; reflexivity).
  pose proof (@run_multiplies_Ra_and_divides_Q
                float Binary64.example both_path 10%float 10%float
                four_passes start_2D Running _ _
                eq_refl eq_refl eq_refl eq_refl H) as T.
  cbv zeta in T. destruct T as (_ & T2 & T3).
  conj; [exact H|vm_compute; reflexivity|exact T2|exact T3
        |vm_compute; reflexivity..].
Defined.

(** [--alp=0 --β=1 --logStep=1]: Q alone steps by a decade.  The wait
    time is not rescaled, so the second step fires later: at iteration
    40 and clock 1/4. *)
Definition Q_path : @params float :=
  {| threeD := false; Pr := 1%float;
     bootstrap_α := 0%float; bootstrap_β := 1%float;
     bootstrap_logStep := 1%float;
     max_bootstrap_steps := 12; start_iter := 0; no_join := false |}.

Definition late_passes : list (@obs float) :=
  [slow_pass_10; fast_pass_20; fast_pass_30; pass 40 0.25%float 2%float None].

Local Notation "'Q_run'" := (bootstrap_loop Q_path late_passes start_2D).

Lemma run_multiplies_Q_witness :
  bootstrap_loop Q_path late_passes start_2D
  = (Ok Running, snd (fst Q_run), snd Q_run) /\
  steps_logged (snd Q_run) = 2%nat /\
  cRa (snd (fst Q_run)) = cRa start_2D /\
  cQ (snd (fst Q_run))
  = Nat.iter (steps_logged (snd Q_run))
             (fun q => fmul q 10%float) (cQ start_2D) /\
  cQ (snd (fst Q_run)) = 100%float.
Proof.
  assert (H : bootstrap_loop Q_path late_passes start_2D
              = (Ok Running, snd (fst Q_run), snd Q_run))
    by (vm_compute; reflexivity).
  pose proof (@run_multiplies_Q
                float Binary64.example Q_path 10%float
                late_passes start_2D Running _ _
                eq_refl eq_refl eq_refl H) as T.
  cbv zeta in T. destruct T as (_ & T2 & T3).
  conj; [exact H|vm_compute; reflexivity|exact T2|exact T3
        |vm_compute; reflexivity].
Defined.

(** ** The wait time, the cap and the fields along a run *)

Lemma decade_step (Ra Q nRa nQ : float) :
  select_step decade Ra Q = Ok (nRa, nQ) ->
  nRa = (fun r => (r * 10)%float) Ra /\ nQ = (fun q => q) Q.
Proof. intros E. vm_compute in E. inversion E. split; reflexivity. Defined.

Lemma wait_and_cap_rescale_together_witness :
  bootstrap_loop decade four_passes start_2D
  = (Ok Running, snd (fst after_four_passes), snd after_four_passes) /\
  steps_logged (snd after_four_passes) = 2%nat /\
  bootstrap_wait_time (snd (fst after_four_passes))
  = rescaled_by_steps (fun r => (r * 10)%float)
                      (steps_logged (snd after_four_passes))
                      (cRa start_2D) (bootstrap_wait_time start_2D) /\
  max_dt (snd (fst after_four_passes))
  = rescaled_by_steps (fun r => (r * 10)%float)
                      (steps_logged (snd after_four_passes))
                      (cRa start_2D) (max_dt start_2D) /\
  rescaled_by_steps (fun r => (r * 10)%float) 2
                    (cRa start_2D) (max_dt start_2D)
  = (max_dt start_2D * (100000 / 1000000) * (1000000 / 10000000))%float /\
  t_buoy (snd (fst after_four_passes)) = sqrt (1 / 10000000)%float.
Proof.
  assert (H : bootstrap_loop decade four_passes start_2D
              = (Ok Running, snd (fst after_four_passes),
                 snd after_four_passes))
    by (vm_compute; reflexivity).
  pose proof (@wait_and_cap_rescale_together
                float Binary64.example decade
                (fun r => (r * 10)%float) (fun q => q) decade_step
                four_passes start_2D Running _ _ H) as T.
  cbv zeta in T. destruct T as (_ & T2 & T3 & _).
  conj; [exact H|vm_compute; reflexivity|exact T2|exact T3
        |vm_compute; reflexivity..].
Defined.

Lemma start_2D_uniform :
  uniform (Ra_fd start_2D) /\ uniform (Q_fd start_2D).
Proof.
  split; eexists; repeat constructor.
Defined.

(** A run that the solver ends at its fourth pass, after one step. *)
Definition stopped_passes : list (@obs float) :=
  [slow_pass_10; fast_pass_20; fast_pass_30; failing_step].

Local Notation "'stopped_run'" :=
  (bootstrap_loop decade stopped_passes start_2D).

Lemma fields_stay_uniform_witness :
  bootstrap_loop decade stopped_passes start_2D
  = (Raise (FrameworkError 7), snd (fst stopped_run), snd stopped_run) /\
  Ra_fd (snd (fst stopped_run)) = [1000000%float; 1000000%float] /\
  uniform (Ra_fd (snd (fst stopped_run))) /\
  uniform (Q_fd (snd (fst stopped_run))).
Proof.
  assert (H : bootstrap_loop decade stopped_passes start_2D
              = (Raise (FrameworkError 7), snd (fst stopped_run),
                 snd stopped_run))
    by (vm_compute; reflexivity).
  conj; [exact H|vm_compute; reflexivity| |];
    apply (@fields_stay_uniform
             float Binary64.example decade stopped_passes start_2D _ _ _
             (proj1 start_2D_uniform) (proj2 start_2D_uniform) H).
Defined.

End MoreRuns.

